(** * Agentic RAG System: the query pipeline

  A shallow embedding of the request pipeline of the repository
  (input guard, intent analysis, router, tool nodes, relevance and
  grounding gates, and the graph that wires them), followed by the
  properties established about it.

  Conventions of the embedding.
  - A Python [str] is a [string]; each [ascii] stands for the code point
    with the same number, so the model covers text over code points
    0..255.  The character classes below ([is_space], [is_word],
    [lower_char]) are Python's Unicode classes restricted to that range.
  - A Python [float] is a primitive binary64 [float]; comparisons are the
    IEEE ones, so [nan] compares false with everything, as in Python.
  - The [AgentState] dictionary is a record with one field per key of the
    [TypedDict]; [AgentGraph.invoke] always creates every key.
  - Calls that leave the process (the chat model, the vector index, the
    web search API, the clock) are events of a small free monad [Prog];
    an exception is a [Raise] leaf and [try_except] is Python's
    [try]/[except].  Logging is not modelled: it never influences a result. *)

From Stdlib Require Import String Ascii List Bool Arith Lia ZArith Floats.
Import ListNotations.
Set Warnings "-inexact-float".

Local Open Scope string_scope.
Local Open Scope nat_scope.

(* ================================================================== *)
(** * Python strings *)

Module PyStr.

Definition code (c : ascii) : nat := nat_of_ascii c.

Definition between (lo hi : nat) (c : ascii) : bool :=
  (lo <=? code c) && (code c <=? hi).

(** [str.isspace] on one character. *)
Definition is_space (c : ascii) : bool :=
  between 9 13 c || between 28 32 c || (code c =? 133) || (code c =? 160).

(** The characters matched by [\w] in a [str] pattern: alphanumeric or
    underscore. *)
Definition is_word (c : ascii) : bool :=
  between 48 57 c || between 65 90 c || between 97 122 c || (code c =? 95)
  || (code c =? 170) || (code c =? 178) || (code c =? 179) || (code c =? 181)
  || between 185 186 c || between 188 190 c
  || between 192 214 c || between 216 246 c || between 248 255 c.

(** [str.lower] on one character. *)
Definition lower_char (c : ascii) : ascii :=
  if between 65 90 c || between 192 214 c || between 216 222 c
  then ascii_of_nat (code c + 32) else c.

Fixpoint lower (s : string) : string :=
  match s with
  | EmptyString => EmptyString
  | String c s' => String (lower_char c) (lower s')
  end.

Fixpoint lstrip (s : string) : string :=
  match s with
  | EmptyString => EmptyString
  | String c s' => if is_space c then lstrip s' else s
  end.

Fixpoint rstrip (s : string) : string :=
  match s with
  | EmptyString => EmptyString
  | String c s' =>
      match rstrip s' with
      | EmptyString => if is_space c then EmptyString else String c EmptyString
      | r => String c r
      end
  end.

(** [s.strip()] *)
Definition strip (s : string) : string := rstrip (lstrip s).

(** Truth value of a string: [bool(s)]. *)
Definition truthy (s : string) : bool :=
  match s with EmptyString => false | _ => true end.

(** [sub in s] *)
Fixpoint contains (sub s : string) : bool :=
  prefix sub s ||
  match s with
  | EmptyString => false
  | String _ s' => contains sub s'
  end.

(** [s.split(sep)] for a one-character separator: the pieces between
    the separators, at least one piece. *)
Fixpoint split (sep : ascii) (s : string) : list string :=
  match s with
  | EmptyString => [EmptyString]
  | String c s' =>
      if Ascii.eqb c sep then EmptyString :: split sep s'
      else match split sep s' with
           | [] => [String c EmptyString]
           | p :: ps => String c p :: ps
           end
  end.

(** [sep.join(parts)] *)
Definition join (sep : string) (parts : list string) : string :=
  String.concat sep parts.

(** [s[:n]] *)
Definition take (n : nat) (s : string) : string := substring 0 n s.

(** The character that closes and opens a Python string literal. *)
Definition dquote : string := String (ascii_of_nat 34) EmptyString.

(** The line feed. *)
Definition LF : ascii := ascii_of_nat 10.
Definition nl : string := String LF EmptyString.

(** [s.split()]: the maximal runs of characters that are not whitespace. *)
Fixpoint split_ws (s : string) : list string :=
  match s with
  | EmptyString => []
  | String c s' =>
      if is_space c then split_ws s'
      else
        match s' with
        | EmptyString => [String c EmptyString]
        | String c' _ =>
            if is_space c' then String c EmptyString :: split_ws s'
            else
              match split_ws s' with
              | w :: ws => String c w :: ws
              | [] => [String c EmptyString]
              end
        end
  end.

(** [''.join(char for char in s if keep(char))] *)
Fixpoint filter_chars (keep : ascii -> bool) (s : string) : string :=
  match s with
  | EmptyString => EmptyString
  | String c s' =>
      if keep c then String c (filter_chars keep s') else filter_chars keep s'
  end.

End PyStr.

(* ================================================================== *)
(** * The fragment of [re] the input guard uses *)

Module Re.
Import PyStr.

(** Patterns: literals, sequence, alternation, groups and the word
    boundary.  No pattern of the guard's blocking lists repeats. *)
Inductive regex : Type :=
| REps
| RLit (c : ascii)
| RSeq (r1 r2 : regex)
| RAlt (r1 r2 : regex)
| RGroup (r : regex)
| RWordB.

(** A literal run of characters. *)
Fixpoint RStr (s : string) : regex :=
  match s with
  | EmptyString => REps
  | String c s' => RSeq (RLit c) (RStr s')
  end.

(** [r1|r2|...|rn] *)
Fixpoint RAlts (rs : list regex) : regex :=
  match rs with
  | [] => REps
  | [r] => r
  | r :: rs' => RAlt r (RAlts rs')
  end.

(** A literal matches its own character; under IGNORECASE it matches
    every character with the same lower case. *)
Definition lit_match (ignorecase : bool) (c a : ascii) : bool :=
  if ignorecase then Ascii.eqb (lower_char c) (lower_char a)
  else Ascii.eqb c a.

Definition word_opt (o : option ascii) : bool :=
  match o with Some c => is_word c | None => false end.

Definition head (s : string) : option ascii :=
  match s with EmptyString => None | String c _ => Some c end.

(** [\b]: exactly one of the two neighbours is a word character. *)
Definition at_boundary (prev : option ascii) (s : string) : bool :=
  xorb (word_opt prev) (word_opt (head s)).

(** Backtracking matcher at one position: [prev] is the character before
    the position, [s] the text from the position on, [k] the rest of the
    match. *)
Fixpoint rmatch (ic : bool) (r : regex) (prev : option ascii) (s : string)
         (k : option ascii -> string -> bool) : bool :=
  match r with
  | REps => k prev s
  | RLit c =>
      match s with
      | EmptyString => false
      | String a s' => if lit_match ic c a then k (Some a) s' else false
      end
  | RSeq r1 r2 => rmatch ic r1 prev s (fun p' s' => rmatch ic r2 p' s' k)
  | RAlt r1 r2 => rmatch ic r1 prev s k || rmatch ic r2 prev s k
  | RGroup r1 => rmatch ic r1 prev s k
  | RWordB => if at_boundary prev s then k prev s else false
  end.

Definition accept : option ascii -> string -> bool := fun _ _ => true.

Fixpoint search_from (ic : bool) (r : regex) (prev : option ascii) (s : string) : bool :=
  rmatch ic r prev s accept ||
  match s with
  | EmptyString => false
  | String a s' => search_from ic r (Some a) s'
  end.

(** [bool(re.search(pattern, s, flags))] with [flags] either 0 or
    [re.IGNORECASE]. *)
Definition search (r : regex) (s : string) (ignorecase : bool) : bool :=
  search_from ignorecase r None s.

End Re.

(* ================================================================== *)
(** * guardrails/input_validator.py *)

Module InputValidator.
Import PyStr Re.

Definition SQL_KEYWORDS : list string :=
  ["SELECT"; "INSERT"; "UPDATE"; "DELETE"; "DROP"; "CREATE"; "ALTER"; "EXEC"; "EXECUTE"].

Definition SQL_TOKENS : list string :=
  [";"; "--"; "/*"; "*/"; "xp_"; "sp_"].

(** [(\b(SELECT|INSERT|UPDATE|DELETE|DROP|CREATE|ALTER|EXEC|EXECUTE)\b)]
    and [(;|\-\-|\/\*|\*\/|xp_|sp_)] *)
Definition SQL_INJECTION_PATTERNS : list regex :=
  [ RGroup (RSeq RWordB (RSeq (RGroup (RAlts (map RStr SQL_KEYWORDS))) RWordB));
    RGroup (RAlts (map RStr SQL_TOKENS)) ].

(** [ignore (previous|above|all) (instructions|rules)], [you are now],
    [system prompt], [disregard] *)
Definition PROMPT_INJECTION_PATTERNS : list regex :=
  [ RSeq (RStr "ignore ")
      (RSeq (RGroup (RAlts (map RStr ["previous"; "above"; "all"])))
         (RSeq (RLit " ") (RGroup (RAlts (map RStr ["instructions"; "rules"])))));
    RStr "you are now";
    RStr "system prompt";
    RStr "disregard" ].

Definition MAX_QUERY_LENGTH : nat := 1000.

Record Verdict : Type := mkVerdict { valid : bool; reason : string }.

Definition TOO_LONG : string := "Query too long (max 1000 characters)".
Definition EMPTY : string := "Query cannot be empty".
Definition SQL_REASON : string := "Query contains potentially malicious SQL patterns".
Definition PROMPT_REASON : string := "Query contains suspicious prompt manipulation patterns".

(** [InputValidator.validate_query].  The loop over [PII_PATTERNS] sits
    between the two blocking loops and only logs a warning. *)
Definition validate_query (query : string) : Verdict :=
  if MAX_QUERY_LENGTH <? String.length query then mkVerdict false TOO_LONG
  else if negb (truthy (strip query)) then mkVerdict false EMPTY
  else if existsb (fun pattern => search pattern query true) SQL_INJECTION_PATTERNS
       then mkVerdict false SQL_REASON
  else if existsb (fun pattern => search pattern query true) PROMPT_INJECTION_PATTERNS
       then mkVerdict false PROMPT_REASON
  else mkVerdict true "".

(** [ord(char) >= 32 or char == '\n'] *)
Definition printable_or_newline (char : ascii) : bool :=
  (32 <=? code char) || Ascii.eqb char LF.

(** [InputValidator.sanitize_query] *)
Definition sanitize_query (query : string) : string :=
  let query := join " " (split_ws query) in
  let query := filter_chars printable_or_newline query in
  strip query.

End InputValidator.

(* ================================================================== *)
(** * Exceptions and calls to the outside *)

Module Effects.

(** The exception classes the pipeline tells apart.  [BackendError]
    stands for every other class a backend can raise (connection,
    rate-limit and authentication errors); all are subclasses of
    [Exception]. *)
Inductive exn_class : Type :=
| ValueError | AttributeError | IndexError | KeyError
| GraphRecursionError | BackendError.

(** An exception object: its class and [str(e)]. *)
Record exn : Type := mkExn { exn_class_of : exn_class; exn_msg : string }.

(** What a call gives back: a value, or an exception. *)
Inductive reply (A : Type) : Type :=
| Returned (a : A)
| Raised (e : exn).
Arguments Returned {A} a.
Arguments Raised {A} e.

(** A Python dictionary with string keys and values. *)
Definition pydict : Type := list (string * string).

Fixpoint dict_get (d : pydict) (key default : string) : string :=
  match d with
  | [] => default
  | (k, v) :: d' => if String.eqb k key then v else dict_get d' key default
  end.

(** [langchain.schema.Document] *)
Record Document : Type := mkDocument { page_content : string; metadata : pydict }.

(** The calls that leave the process, each with the type of its answer. *)
Inductive event : Type -> Type :=
| LLMInvoke (prompt : string) : event (reply string)
    (* [self.llm.invoke(prompt).content] *)
| VectorSearch (query : string) (k : Z) (filter : option pydict)
    : event (reply (list (Document * float)))
    (* [self.vector_store.similarity_search_with_score(query, k=k, filter=filter)] *)
| CollectionCount : event (reply Z)
    (* [self.vector_store._collection.count()] *)
| SerperResults (query : string) : event (reply (option (list pydict)))
    (* [self.search.results(query)], seen through its ['organic'] key *)
| Clock : event float.
    (* [time.time()] *)

(** Programs: a result, a raised exception, or a call and what follows it. *)
Inductive Prog (A : Type) : Type :=
| Ret (a : A)
| Raise (e : exn)
| Vis (X : Type) (ev : event X) (k : X -> Prog A).
Arguments Ret {A} a.
Arguments Raise {A} e.
Arguments Vis {A X} ev k.

Fixpoint bind {A B : Type} (p : Prog A) (f : A -> Prog B) : Prog B :=
  match p with
  | Ret a => f a
  | Raise e => Raise e
  | Vis ev k => Vis ev (fun x => bind (k x) f)
  end.

(** [try: p  except ...: h]: the handler answers [None] for an exception
    its [except] clause does not name, which then goes on propagating. *)
Fixpoint try_except {A : Type} (p : Prog A) (h : exn -> option (Prog A)) : Prog A :=
  match p with
  | Ret a => Ret a
  | Raise e => match h e with Some q => q | None => Raise e end
  | Vis ev k => Vis ev (fun x => try_except (k x) h)
  end.

(** A call whose answer is a value or an exception. *)
Definition call {A : Type} (ev : event (reply A)) : Prog A :=
  Vis ev (fun r => match r with Returned a => Ret a | Raised e => Raise e end).

Definition clock : Prog float := Vis Clock (fun t => Ret t).

Definition llm_invoke (prompt : string) : Prog string := call (LLMInvoke prompt).

(** [except Exception] *)
Definition any_exception {A : Type} (h : exn -> Prog A) : exn -> option (Prog A) :=
  fun e => Some (h e).

(** [except (ValueError, AttributeError)] *)
Definition value_or_attribute_error {A : Type} (h : exn -> Prog A)
  : exn -> option (Prog A) :=
  fun e => match exn_class_of e with
           | ValueError | AttributeError => Some (h e)
           | _ => None
           end.

(** One call that was made. *)
Definition made : Type := { X : Type & event X }.

(** The outside world: a state and its answer to each call. *)
Record World : Type := mkWorld {
  world_state : Type;
  answer : forall X : Type, event X -> world_state -> X * world_state
}.

(** Running a program against a world: the outcome, the world after it
    and the calls made, in order. *)
Fixpoint run (W : World) {A : Type} (p : Prog A) (w : world_state W)
  : reply A * world_state W * list made :=
  match p with
  | Ret a => (Returned a, w, [])
  | Raise e => (Raised e, w, [])
  | Vis ev k =>
      let (x, w') := answer W _ ev w in
      let '(r, w'', calls) := run W (k x) w' in
      (r, w'', existT _ _ ev :: calls)
  end.

Definition outcome {A : Type} {S : Type} (r : reply A * S * list made) : reply A :=
  fst (fst r).

End Effects.

Declare Scope prog_scope.
Delimit Scope prog_scope with prog.
Notation "x <- p ;; q" := (Effects.bind p (fun x => q))
(at level 61, p at next level, right associativity) : prog_scope.

(* ================================================================== *)
(** * config.py *)

Module Config.

Record RetrievalConfig : Type := mkRetrieval {
  top_k : Z;
  similarity_threshold : float
}.

Record GuardrailsConfig : Type := mkGuardrails {
  relevance_threshold : float;
  hallucination_threshold : float
}.

Record Config : Type := mkConfig {
  retrieval : RetrievalConfig;
  guardrails : GuardrailsConfig
}.

(** The values the singleton takes when no environment variable is set. *)
Definition default : Config :=
  mkConfig (mkRetrieval 5 0.7) (mkGuardrails 0.6 0.7).

End Config.

(* ================================================================== *)
(** * agents/state.py *)

Module State.
Import Effects.

(** One formatted web result: [title], [link], [snippet]. *)
Record SearchHit : Type := mkHit { title : string; link : string; snippet : string }.

(** The three shapes of a source attribution. *)
Inductive Source : Type :=
| DocumentSource (file page : string) (score : float) (content : string)
| LLMKnowledgeSource (model note : string)
| InternetSearchSource (title url snippet : string).

Record AgentState : Type := mkState {
  query : string;
  is_valid : bool;
  validation_reason : string;
  query_intent : option string;
  confidence : float;
  selected_tool : option string;
  retrieved_documents : list Document;
  relevance_score : float;
  is_relevant : bool;
  search_results : list SearchHit;
  response : string;
  source_type : string;
  sources : list Source;
  is_grounded : bool;
  grounding_confidence : float;
  attempted_tools : list (option string);
  needs_fallback : bool;
  processing_time : float;
  error : option string;
  doc_count : Z
}.

Definition set_is_valid (v : bool) (s : AgentState) : AgentState :=
  mkState (query s) v (validation_reason s) (query_intent s) (confidence s)
    (selected_tool s) (retrieved_documents s) (relevance_score s) (is_relevant s)
    (search_results s) (response s) (source_type s) (sources s) (is_grounded s)
    (grounding_confidence s) (attempted_tools s) (needs_fallback s) (processing_time
    s) (error s) (doc_count s).

Definition set_validation_reason (v : string) (s : AgentState) : AgentState :=
  mkState (query s) (is_valid s) v (query_intent s) (confidence s) (selected_tool s)
    (retrieved_documents s) (relevance_score s) (is_relevant s) (search_results s)
    (response s) (source_type s) (sources s) (is_grounded s) (grounding_confidence s)
    (attempted_tools s) (needs_fallback s) (processing_time s) (error s) (doc_count s).

Definition set_query_intent (v : option string) (s : AgentState) : AgentState :=
  mkState (query s) (is_valid s) (validation_reason s) v (confidence s) (selected_tool
    s) (retrieved_documents s) (relevance_score s) (is_relevant s) (search_results s)
    (response s) (source_type s) (sources s) (is_grounded s) (grounding_confidence s)
    (attempted_tools s) (needs_fallback s) (processing_time s) (error s) (doc_count s).

Definition set_confidence (v : float) (s : AgentState) : AgentState :=
  mkState (query s) (is_valid s) (validation_reason s) (query_intent s) v
    (selected_tool s) (retrieved_documents s) (relevance_score s) (is_relevant s)
    (search_results s) (response s) (source_type s) (sources s) (is_grounded s)
    (grounding_confidence s) (attempted_tools s) (needs_fallback s) (processing_time
    s) (error s) (doc_count s).

Definition set_selected_tool (v : option string) (s : AgentState) : AgentState :=
  mkState (query s) (is_valid s) (validation_reason s) (query_intent s) (confidence s)
    v (retrieved_documents s) (relevance_score s) (is_relevant s) (search_results s)
    (response s) (source_type s) (sources s) (is_grounded s) (grounding_confidence s)
    (attempted_tools s) (needs_fallback s) (processing_time s) (error s) (doc_count s).

Definition set_retrieved_documents (v : list Document) (s : AgentState) : AgentState :=
  mkState (query s) (is_valid s) (validation_reason s) (query_intent s) (confidence s)
    (selected_tool s) v (relevance_score s) (is_relevant s) (search_results s)
    (response s) (source_type s) (sources s) (is_grounded s) (grounding_confidence s)
    (attempted_tools s) (needs_fallback s) (processing_time s) (error s) (doc_count s).

Definition set_relevance_score (v : float) (s : AgentState) : AgentState :=
  mkState (query s) (is_valid s) (validation_reason s) (query_intent s) (confidence s)
    (selected_tool s) (retrieved_documents s) v (is_relevant s) (search_results s)
    (response s) (source_type s) (sources s) (is_grounded s) (grounding_confidence s)
    (attempted_tools s) (needs_fallback s) (processing_time s) (error s) (doc_count s).

Definition set_is_relevant (v : bool) (s : AgentState) : AgentState :=
  mkState (query s) (is_valid s) (validation_reason s) (query_intent s) (confidence s)
    (selected_tool s) (retrieved_documents s) (relevance_score s) v (search_results s)
    (response s) (source_type s) (sources s) (is_grounded s) (grounding_confidence s)
    (attempted_tools s) (needs_fallback s) (processing_time s) (error s) (doc_count s).

Definition set_search_results (v : list SearchHit) (s : AgentState) : AgentState :=
  mkState (query s) (is_valid s) (validation_reason s) (query_intent s) (confidence s)
    (selected_tool s) (retrieved_documents s) (relevance_score s) (is_relevant s) v
    (response s) (source_type s) (sources s) (is_grounded s) (grounding_confidence s)
    (attempted_tools s) (needs_fallback s) (processing_time s) (error s) (doc_count s).

Definition set_response (v : string) (s : AgentState) : AgentState :=
  mkState (query s) (is_valid s) (validation_reason s) (query_intent s) (confidence s)
    (selected_tool s) (retrieved_documents s) (relevance_score s) (is_relevant s)
    (search_results s) v (source_type s) (sources s) (is_grounded s)
    (grounding_confidence s) (attempted_tools s) (needs_fallback s) (processing_time
    s) (error s) (doc_count s).

Definition set_source_type (v : string) (s : AgentState) : AgentState :=
  mkState (query s) (is_valid s) (validation_reason s) (query_intent s) (confidence s)
    (selected_tool s) (retrieved_documents s) (relevance_score s) (is_relevant s)
    (search_results s) (response s) v (sources s) (is_grounded s)
    (grounding_confidence s) (attempted_tools s) (needs_fallback s) (processing_time
    s) (error s) (doc_count s).

Definition set_sources (v : list Source) (s : AgentState) : AgentState :=
  mkState (query s) (is_valid s) (validation_reason s) (query_intent s) (confidence s)
    (selected_tool s) (retrieved_documents s) (relevance_score s) (is_relevant s)
    (search_results s) (response s) (source_type s) v (is_grounded s)
    (grounding_confidence s) (attempted_tools s) (needs_fallback s) (processing_time
    s) (error s) (doc_count s).

Definition set_is_grounded (v : bool) (s : AgentState) : AgentState :=
  mkState (query s) (is_valid s) (validation_reason s) (query_intent s) (confidence s)
    (selected_tool s) (retrieved_documents s) (relevance_score s) (is_relevant s)
    (search_results s) (response s) (source_type s) (sources s) v
    (grounding_confidence s) (attempted_tools s) (needs_fallback s) (processing_time
    s) (error s) (doc_count s).

Definition set_grounding_confidence (v : float) (s : AgentState) : AgentState :=
  mkState (query s) (is_valid s) (validation_reason s) (query_intent s) (confidence s)
    (selected_tool s) (retrieved_documents s) (relevance_score s) (is_relevant s)
    (search_results s) (response s) (source_type s) (sources s) (is_grounded s) v
    (attempted_tools s) (needs_fallback s) (processing_time s) (error s) (doc_count s).

Definition set_attempted_tools (v : list (option string)) (s : AgentState) : AgentState :=
  mkState (query s) (is_valid s) (validation_reason s) (query_intent s) (confidence s)
    (selected_tool s) (retrieved_documents s) (relevance_score s) (is_relevant s)
    (search_results s) (response s) (source_type s) (sources s) (is_grounded s)
    (grounding_confidence s) v (needs_fallback s) (processing_time s) (error s)
    (doc_count s).

Definition set_needs_fallback (v : bool) (s : AgentState) : AgentState :=
  mkState (query s) (is_valid s) (validation_reason s) (query_intent s) (confidence s)
    (selected_tool s) (retrieved_documents s) (relevance_score s) (is_relevant s)
    (search_results s) (response s) (source_type s) (sources s) (is_grounded s)
    (grounding_confidence s) (attempted_tools s) v (processing_time s) (error s)
    (doc_count s).

Definition set_processing_time (v : float) (s : AgentState) : AgentState :=
  mkState (query s) (is_valid s) (validation_reason s) (query_intent s) (confidence s)
    (selected_tool s) (retrieved_documents s) (relevance_score s) (is_relevant s)
    (search_results s) (response s) (source_type s) (sources s) (is_grounded s)
    (grounding_confidence s) (attempted_tools s) (needs_fallback s) v (error s)
    (doc_count s).

Definition set_error (v : option string) (s : AgentState) : AgentState :=
  mkState (query s) (is_valid s) (validation_reason s) (query_intent s) (confidence s)
    (selected_tool s) (retrieved_documents s) (relevance_score s) (is_relevant s)
    (search_results s) (response s) (source_type s) (sources s) (is_grounded s)
    (grounding_confidence s) (attempted_tools s) (needs_fallback s) (processing_time
    s) v (doc_count s).

End State.

(* ================================================================== *)
(** * Python floats *)

Module PyFloat.

Definition ge (a b : float) : bool := PrimFloat.leb b a.
Definition gt (a b : float) : bool := PrimFloat.ltb b a.
Definition lt (a b : float) : bool := PrimFloat.ltb a b.

(** [min(a, b)] and [max(a, b)]: the first argument is kept unless the
    second compares strictly below (above) it. *)
Definition min (a b : float) : float := if lt b a then b else a.
Definition max (a b : float) : float := if gt b a then b else a.

(** [max(0.0, min(1.0, x))] *)
Definition clamp01 (x : float) : float := max 0.0 (min 1.0 x).

(** [float(text)]: the parsed number, or ValueError.  The parser itself
    is Python's; the pipeline takes it as [float_of_str], which answers
    [None] where [float] raises. *)
Definition to_float (float_of_str : string -> option float) (text : string)
  : Effects.Prog float :=
  match float_of_str text with
  | Some x => Effects.Ret x
  | None =>
      Effects.Raise
        (Effects.mkExn Effects.ValueError
           ("could not convert string to float: '" ++ text ++ "'"))
  end.

End PyFloat.

(* ================================================================== *)
(** * vector_store/chroma_manager.py *)

Module ChromaManager.
Import Effects Config.
Local Open Scope prog_scope.

(** [k or config.retrieval.top_k] *)
Definition k_or_default (config : Config) (k : option Z) : Z :=
  match k with
  | Some k' => if Z.eqb k' 0 then top_k (retrieval config) else k'
  | None => top_k (retrieval config)
  end.

(** [ChromaManager.similarity_search_with_score] *)
Definition similarity_search_with_score (config : Config)
    (query : string) (k : option Z) (filter : option pydict)
  : Prog (list (Document * float)) :=
  let k := k_or_default config k in
  try_except
    (results <- call (VectorSearch query k filter) ;;
     let threshold := similarity_threshold (retrieval config) in
     let filtered_results :=
       List.filter (fun ds => PyFloat.ge (snd ds) threshold) results in
     Ret filtered_results)
    (any_exception (fun _ => Ret [])).

(** [ChromaManager.get_collection_count] *)
Definition get_collection_count : Prog Z :=
  try_except (call CollectionCount) (any_exception (fun _ => Ret 0%Z)).

End ChromaManager.

(* ================================================================== *)
(** * search/serper_client.py *)

Module SerperClient.
Import Effects State.
Local Open Scope prog_scope.

(** [SerperClient.search_with_metadata] *)
Definition search_with_metadata (query : string) : Prog (list SearchHit) :=
  try_except
    (results <- call (SerperResults query) ;;
     let organic_results := match results with Some l => l | None => [] end in
     let formatted_results :=
       map (fun result =>
              mkHit (dict_get result "title" "")
                    (dict_get result "link" "")
                    (dict_get result "snippet" ""))
           (firstn 5 organic_results) in
     Ret formatted_results)
    (any_exception (fun _ => Ret [])).

End SerperClient.

(* ================================================================== *)
(** * agents/tools.py *)

Module AgentTools.
Import PyStr Effects State.
Local Open Scope prog_scope.

Record RagResult : Type := mkRagResult {
  rag_documents : list Document;
  rag_scores : list float;
  rag_sources : list Source;
  rag_success : bool;
  rag_error : option string
}.

Record LlmResult : Type := mkLlmResult {
  llm_response : string;
  llm_sources : list Source;
  llm_success : bool;
  llm_error : option string
}.

Record SearchResult : Type := mkSearchResult {
  search_results_of : list SearchHit;
  search_context : string;
  search_sources : list Source;
  search_success : bool;
  search_error : option string
}.

(** [AgentTools.rag_tool] *)
Definition rag_tool (config : Config.Config) (query : string) : Prog RagResult :=
  try_except
    (results <- ChromaManager.similarity_search_with_score config query None None ;;
     let documents := map fst results in
     let scores := map snd results in
     let sources :=
       map (fun ds : Document * float =>
              let (doc, score) := ds in
              DocumentSource (dict_get (metadata doc) "source_file" "Unknown")
                             (dict_get (metadata doc) "page" "N/A")
                             score
                             (take 200 (page_content doc)))
           results in
     Ret (mkRagResult documents scores sources (0 <? List.length documents) None))
    (any_exception (fun e => Ret (mkRagResult [] [] [] false (Some (exn_msg e))))).

Definition llm_tool_prompt (query : string) : string :=
  "You are a helpful AI assistant. Answer the following question using your knowledge. Be concise and accurate.

Question: " ++ query ++ "

Answer:".

(** [AgentTools.llm_tool] *)
Definition llm_tool (query : string) : Prog LlmResult :=
  try_except
    (let prompt := llm_tool_prompt query in
     response <- llm_invoke prompt ;;
     Ret (mkLlmResult response
            [LLMKnowledgeSource "Groq LLM" "Response based on model training data"]
            true None))
    (any_exception (fun e => Ret (mkLlmResult "" [] false (Some (exn_msg e))))).

(** [AgentTools.search_tool] *)
Definition search_tool (query : string) : Prog SearchResult :=
  try_except
    (results <- SerperClient.search_with_metadata query ;;
     let sources :=
       map (fun result => InternetSearchSource (title result) (link result) (snippet result))
           results in
     let combined_context :=
       join (nl ++ nl) (map (fun r => title r ++ ": " ++ snippet r) results) in
     Ret (mkSearchResult results combined_context sources (0 <? List.length results) None))
    (any_exception (fun e => Ret (mkSearchResult [] "" [] false (Some (exn_msg e))))).

End AgentTools.

(* ================================================================== *)
(** * guardrails/relevance_scorer.py *)

Module RelevanceScorer.
Import PyStr Effects.
Local Open Scope prog_scope.

(** The entries of the result the nodes read; the ['reason'] entry only
    reaches the log. *)
Record Relevance : Type := mkRelevance { score : float; is_relevant : bool }.

Definition prompt_of (query context : string) : string :=
  "You are a relevance evaluator. Determine if the provided context can answer the user's question.

Question: " ++ query ++ "

Context:
" ++ context ++ "

Rate the relevance on a scale of 0.0 to 1.0 where:
- 1.0 = Context directly answers the question
- 0.5 = Context is somewhat related but doesn't fully answer
- 0.0 = Context is completely unrelated

Respond with ONLY a number between 0.0 and 1.0, nothing else.".

(** [RelevanceScorer.score_relevance]; [threshold] is
    [config.guardrails.relevance_threshold]. *)
Definition score_relevance (float_of_str : string -> option float) (config : Config.Config)
    (query : string) (documents : list Document) : Prog Relevance :=
  match documents with
  | [] => Ret (mkRelevance 0.0 false)
  | _ =>
      let context := join (nl ++ nl) (map page_content (firstn 3 documents)) in
      let prompt := prompt_of query context in
      try_except
        (response <- llm_invoke prompt ;;
         score <- PyFloat.to_float float_of_str (strip response) ;;
         let score := PyFloat.clamp01 score in
         let is_relevant :=
           PyFloat.ge score (Config.relevance_threshold (Config.guardrails config)) in
         Ret (mkRelevance score is_relevant))
        (value_or_attribute_error (fun _ => Ret (mkRelevance 0.5 true)))
  end.

End RelevanceScorer.

(* ================================================================== *)
(** * guardrails/hallucination_detector.py *)

Module HallucinationDetector.
Import PyStr Effects.
Local Open Scope prog_scope.

Record Grounding : Type := mkGrounding { is_grounded : bool; confidence : float }.

Definition prompt_of (query context response : string) : string :=
  "You are a factual grounding evaluator. Determine if the response is fully supported by the provided context.

Question: " ++ query ++ "

Context:
" ++ context ++ "

Response to evaluate:
" ++ response ++ "

Evaluate if EVERY claim in the response can be directly found in or reasonably inferred from the context.

Rate grounding on a scale of 0.0 to 1.0 where:
- 1.0 = All claims are fully supported by context
- 0.5 = Some claims are supported, some are not
- 0.0 = Response contains information not in context (hallucination)

Respond with ONLY a number between 0.0 and 1.0, nothing else.".

(** [source_type in ["llm", "search"]] *)
Definition skips_check (source_type : string) : bool :=
  existsb (String.eqb source_type) ["llm"; "search"].

(** [HallucinationDetector.check_grounding]; [threshold] is
    [config.guardrails.hallucination_threshold]. *)
Definition check_grounding (float_of_str : string -> option float) (config : Config.Config)
    (query response : string) (context : option string) (source_type : string)
  : Prog Grounding :=
  if skips_check source_type then Ret (mkGrounding true 1.0)
  else
    match context with
    | None | Some EmptyString => Ret (mkGrounding false 0.0)
    | Some context =>
        let prompt := prompt_of query context response in
        try_except
          (result <- llm_invoke prompt ;;
           confidence <- PyFloat.to_float float_of_str (strip result) ;;
           let confidence := PyFloat.clamp01 confidence in
           let is_grounded :=
             PyFloat.ge confidence (Config.hallucination_threshold (Config.guardrails config)) in
           Ret (mkGrounding is_grounded confidence))
          (value_or_attribute_error (fun _ => Ret (mkGrounding true 0.5)))
    end.

End HallucinationDetector.

(* ================================================================== *)
(** * agents/nodes.py *)

Module AgentNodes.
Import PyStr Effects State.
Local Open Scope prog_scope.

Definition analysis_prompt (query : string) : string :=
  "Analyze the following query and determine the best source to answer it.

Query: " ++ query ++ "

Classify into ONE of these categories:
- " ++ dquote ++ "document" ++ dquote ++ ": Query is asking about specific people, names, documents, files, uploaded content, or specific details that likely require document lookup
- " ++ dquote ++ "knowledge" ++ dquote ++ ": Query is asking general knowledge questions (definitions, concepts, how-to) that can be answered from training data
- " ++ dquote ++ "search" ++ dquote ++ ": Query is asking about current events, today's news, recent information, or real-time data

Important: If the query mentions specific names, people, or asks " ++ dquote ++ "tell me about [specific thing]" ++ dquote ++ ", classify as " ++ dquote ++ "document" ++ dquote ++ " since this likely requires uploaded files.

Also rate your confidence from 0.0 to 1.0.

Respond in this exact format:
Category: [document/knowledge/search]
Confidence: [0.0-1.0]".

Definition index_error : exn := mkExn IndexError "list index out of range".

(** [[l for l in content.split('\n') if tag in l][0]] *)
Definition first_line_with (tag content : string) : Prog string :=
  match List.filter (contains tag) (split LF content) with
  | l :: _ => Ret l
  | [] => Raise index_error
  end.

(** [line.split(':')[1]] *)
Definition second_field (line : string) : Prog string :=
  match nth_error (split ":" line) 1 with
  | Some f => Ret f
  | None => Raise index_error
  end.

(** The body of the [try] of [query_analysis_node], after the model has
    answered [content]: the parsed intent and confidence. *)
Definition parse_analysis (float_of_str : string -> option float) (content : string)
  : Prog (string * float) :=
  category_line <- first_line_with "Category:" content ;;
  confidence_line <- first_line_with "Confidence:" content ;;
  category_field <- second_field category_line ;;
  let intent := lower (strip category_field) in
  confidence_field <- second_field confidence_line ;;
  confidence <- PyFloat.to_float float_of_str (strip confidence_field) ;;
  Ret (intent, confidence).

(** [AgentNodes.input_validation_node] *)
Definition input_validation_node (state : AgentState) : Prog AgentState :=
  let validation_result := InputValidator.validate_query (query state) in
  let state := set_is_valid (InputValidator.valid validation_result) state in
  let state := set_validation_reason (InputValidator.reason validation_result) state in
  Ret state.

(** [AgentNodes.query_analysis_node] *)
Definition query_analysis_node (float_of_str : string -> option float)
    (state : AgentState) : Prog AgentState :=
  let prompt := analysis_prompt (query state) in
  try_except
    (content <- llm_invoke prompt ;;
     parsed <- parse_analysis float_of_str content ;;
     let (intent, confidence) := (parsed : string * float) in
     let state := set_query_intent (Some intent) state in
     let state := set_confidence confidence state in
     Ret state)
    (any_exception (fun _ =>
       let state := set_query_intent (Some "document") state in
       let state := set_confidence 0.5 state in
       Ret state)).

(** [intent == label] for an intent that may be [None]. *)
Definition intent_is (intent : option string) (label : string) : bool :=
  match intent with Some i => String.eqb i label | None => false end.

(** [AgentNodes.router_node].  The state holds every key, so the
    defaults of [state.get] are not used and ['attempted_tools'] is
    present; the import inside the [try] is the one [graph.py] has
    already made. *)
Definition router_node (state : AgentState) : Prog AgentState :=
  let intent := query_intent state in
  let confidence := confidence state in
  let doc_count := doc_count state in
  let state :=
    if (0 <? doc_count)%Z && negb (intent_is intent "search") then
      set_selected_tool (Some "rag") state
    else if PyFloat.ge confidence 0.7 then
      if intent_is intent "document" then set_selected_tool (Some "rag") state
      else if intent_is intent "knowledge" then set_selected_tool (Some "llm") state
      else if intent_is intent "search" then set_selected_tool (Some "search") state
      else state
    else
      set_selected_tool (Some "rag") state in
  let state :=
    set_attempted_tools (attempted_tools state ++ [selected_tool state])%list state in
  Ret state.

(** [AgentNodes.rag_node] *)
Definition rag_node (config : Config.Config) (state : AgentState) : Prog AgentState :=
  result <- AgentTools.rag_tool config (query state) ;;
  let state := set_retrieved_documents (AgentTools.rag_documents result) state in
  let state := set_sources (AgentTools.rag_sources result) state in
  let state :=
    if negb (AgentTools.rag_success result) then set_needs_fallback true state
    else state in
  Ret state.

(** [AgentNodes.llm_node] *)
Definition llm_node (state : AgentState) : Prog AgentState :=
  result <- AgentTools.llm_tool (query state) ;;
  if AgentTools.llm_success result then
    let state := set_response (AgentTools.llm_response result) state in
    let state := set_sources (AgentTools.llm_sources result) state in
    let state := set_source_type "llm" state in
    Ret state
  else
    Ret (set_needs_fallback true state).

Definition search_prompt (query context : string) : string :=
  "Based on the following search results, answer the user's question.

Question: " ++ query ++ "

Search Results:
" ++ context ++ "

Provide a concise, accurate answer:".

(** [AgentNodes.search_node] *)
Definition search_node (state : AgentState) : Prog AgentState :=
  result <- AgentTools.search_tool (query state) ;;
  if AgentTools.search_success result then
    let state := set_search_results (AgentTools.search_results_of result) state in
    let state := set_sources (AgentTools.search_sources result) state in
    let prompt := search_prompt (query state) (AgentTools.search_context result) in
    try_except
      (response <- llm_invoke prompt ;;
       let state := set_response response state in
       let state := set_source_type "search" state in
       Ret state)
      (any_exception (fun _ => Ret (set_needs_fallback true state)))
  else
    Ret (set_needs_fallback true state).

(** [AgentNodes.relevance_check_node] *)
Definition relevance_check_node (float_of_str : string -> option float)
    (config : Config.Config) (state : AgentState) : Prog AgentState :=
  let documents := retrieved_documents state in
  match documents with
  | [] =>
      let state := set_is_relevant false state in
      let state := set_relevance_score 0.0 state in
      let state := set_needs_fallback true state in
      Ret state
  | _ =>
      result <- RelevanceScorer.score_relevance float_of_str config (query state) documents ;;
      let state := set_is_relevant (RelevanceScorer.is_relevant result) state in
      let state := set_relevance_score (RelevanceScorer.score result) state in
      let state :=
        if negb (RelevanceScorer.is_relevant result) then set_needs_fallback true state
        else state in
      Ret state
  end.

Definition NOT_FOUND : string :=
  "I couldn't find relevant information in the uploaded documents.".

Definition synthesis_prompt (query context : string) : string :=
  "Based on the following document excerpts, answer the user's question. Be specific and cite which document you're referencing.

Question: " ++ query ++ "

Documents:
" ++ context ++ "

Provide a clear, accurate answer based ONLY on the information in these documents:".

(** [AgentNodes.response_synthesis_node] *)
Definition response_synthesis_node (state : AgentState) : Prog AgentState :=
  let documents := retrieved_documents state in
  match documents with
  | [] =>
      let state := set_response NOT_FOUND state in
      let state := set_source_type "none" state in
      Ret state
  | _ =>
      let context :=
        join (nl ++ nl)
          (map (fun doc =>
                  "[" ++ dict_get (metadata doc) "source_file" "Unknown"
                  ++ " - Page " ++ dict_get (metadata doc) "page" "N/A" ++ "]"
                  ++ nl ++ page_content doc)
               (firstn 3 documents)) in
      let prompt := synthesis_prompt (query state) context in
      try_except
        (response <- llm_invoke prompt ;;
         let state := set_response response state in
         let state := set_source_type "rag" state in
         Ret state)
        (any_exception (fun e =>
           let state := set_response "Error generating response." state in
           let state := set_error (Some (exn_msg e)) state in
           Ret state))
  end.

Definition UNVERIFIED_NOTE : string :=
  nl ++ nl ++ "Note: This response may contain unverified information.".

(** [AgentNodes.hallucination_check_node] *)
Definition hallucination_check_node (float_of_str : string -> option float)
    (config : Config.Config) (state : AgentState) : Prog AgentState :=
  let context :=
    if String.eqb (source_type state) "rag" then
      let documents := retrieved_documents state in
      Some (join (nl ++ nl) (map page_content (firstn 3 documents)))
    else None in
  result <- HallucinationDetector.check_grounding float_of_str config
              (query state) (response state) context (source_type state) ;;
  let state := set_is_grounded (HallucinationDetector.is_grounded result) state in
  let state := set_grounding_confidence (HallucinationDetector.confidence result) state in
  let state :=
    if negb (HallucinationDetector.is_grounded result) then
      set_response (response state ++ UNVERIFIED_NOTE) state
    else state in
  Ret state.

End AgentNodes.

(* ================================================================== *)
(** * agents/graph.py *)

Module AgentGraph.
Import PyStr Effects State.
Local Open Scope prog_scope.

(** The nodes added by [_build_graph]. *)
Inductive node : Type :=
| n_input_validation | n_query_analysis | n_router
| n_rag | n_llm | n_search
| n_relevance_check | n_response_synthesis | n_hallucination_check.

(** The function registered for each node. *)
Definition node_fn (float_of_str : string -> option float) (config : Config.Config)
    (n : node) : AgentState -> Prog AgentState :=
  match n with
  | n_input_validation => AgentNodes.input_validation_node
  | n_query_analysis => AgentNodes.query_analysis_node float_of_str
  | n_router => AgentNodes.router_node
  | n_rag => AgentNodes.rag_node config
  | n_llm => AgentNodes.llm_node
  | n_search => AgentNodes.search_node
  | n_relevance_check => AgentNodes.relevance_check_node float_of_str config
  | n_response_synthesis => AgentNodes.response_synthesis_node
  | n_hallucination_check => AgentNodes.hallucination_check_node float_of_str config
  end.

(** [repr] of the value a branch function returned. *)
Definition repr_tool (t : option string) : string :=
  match t with None => "None" | Some name => "'" ++ name ++ "'" end.

(** The edges: the node that follows [n] on the state it returned, [None]
    for END.  A branch value missing from the mapping of a conditional
    edge is a [KeyError]. *)
Definition edge (n : node) (state : AgentState) : reply (option node) :=
  match n with
  | n_input_validation =>
      if negb (is_valid state) then Returned None else Returned (Some n_query_analysis)
  | n_query_analysis => Returned (Some n_router)
  | n_router =>
      match selected_tool state with
      | Some "rag" => Returned (Some n_rag)
      | Some "llm" => Returned (Some n_llm)
      | Some "search" => Returned (Some n_search)
      | other => Raised (mkExn KeyError (repr_tool other))
      end
  | n_rag => Returned (Some n_relevance_check)
  | n_relevance_check =>
      if is_relevant state then Returned (Some n_response_synthesis)
      else Returned (Some n_llm)
  | n_response_synthesis => Returned (Some n_hallucination_check)
  | n_llm => Returned (Some n_hallucination_check)
  | n_search => Returned (Some n_hallucination_check)
  | n_hallucination_check => Returned None
  end.

(** The engine's default bound on the number of steps of one run. *)
Definition RECURSION_LIMIT : nat := 25.

Definition recursion_error : exn :=
  mkExn GraphRecursionError "Recursion limit of 25 reached without hitting a stop condition.".

(** Running the compiled graph from node [n]: the node's function, then
    the edge out of it, for at most [steps] nodes. *)
Fixpoint run_from (float_of_str : string -> option float) (config : Config.Config)
    (steps : nat) (n : node) (state : AgentState) : Prog AgentState :=
  match steps with
  | 0 => Raise recursion_error
  | S steps' =>
      state' <- node_fn float_of_str config n state ;;
      match edge n state' with
      | Raised e => Raise e
      | Returned None => Ret state'
      | Returned (Some n') => run_from float_of_str config steps' n' state'
      end
  end.

(** [self.graph.invoke(initial_state)]: the entry point is
    [input_validation]. *)
Definition graph_invoke (float_of_str : string -> option float) (config : Config.Config)
    (initial_state : AgentState) : Prog AgentState :=
  run_from float_of_str config RECURSION_LIMIT n_input_validation initial_state.

(** The state [invoke] starts from. *)
Definition initial_state_of (query : string) (doc_count : Z) : AgentState :=
  mkState query true "" None 0.0 None [] 0.0 false [] "" "" [] true 1.0 [] false 0.0
          None doc_count.

Definition GENERIC_ERROR : string := "An error occurred while processing your query.".

(** The terminal state of the [except] branch of [invoke]: three keys of
    [initial_state] are written.  The list under ['attempted_tools'] is the
    one object the router appends to; what it holds after a failed run is
    not tracked here, and no statement below reads it from an error state. *)
Definition error_state (initial_state : AgentState) (e : exn) (elapsed : float)
  : AgentState :=
  let initial_state := set_error (Some (exn_msg e)) initial_state in
  let initial_state := set_response GENERIC_ERROR initial_state in
  set_processing_time elapsed initial_state.

(** [AgentGraph.invoke] *)
Definition invoke (float_of_str : string -> option float) (config : Config.Config)
    (query : string) : Prog AgentState :=
  start_time <- clock ;;
  doc_count <-
    try_except ChromaManager.get_collection_count (any_exception (fun _ => Ret 0%Z)) ;;
  let initial_state := initial_state_of query doc_count in
  try_except
    (result <- graph_invoke float_of_str config initial_state ;;
     now <- clock ;;
     Ret (set_processing_time (now - start_time)%float result))
    (any_exception (fun e =>
       now <- clock ;;
       Ret (error_state initial_state e (now - start_time)%float))).

End AgentGraph.

(* ================================================================== *)
(** * Worlds to run the pipeline against *)

Module Worlds.
Import Effects State.

(** A scripted world: the chat model answers from a list, one entry per
    call and a backend error once the list is used up; the vector index
    always gives [hits], holds [count] records; the web search gives
    [web]; the clock advances by one second per reading. *)
Record script : Type := mkScript {
  llm_answers : list (reply string);
  clock_now : float
}.

Definition backend_down : exn := mkExn BackendError "Connection error.".

Definition scripted_answer (hits : reply (list (Document * float))) (count : reply Z)
    (web : reply (option (list pydict)))
    (X : Type) (ev : event X) (w : script) : X * script :=
  match ev in event T return T * script with
  | LLMInvoke _ =>
      match llm_answers w with
      | [] => (Raised backend_down, w)
      | a :: rest => (a, mkScript rest (clock_now w))
      end
  | VectorSearch _ _ _ => (hits, w)
  | CollectionCount => (count, w)
  | SerperResults _ => (web, w)
  | Clock => (clock_now w, mkScript (llm_answers w) (clock_now w + 1)%float)
  end.

Definition scripted (hits : reply (list (Document * float))) (count : reply Z)
    (web : reply (option (list pydict))) : World :=
  mkWorld script (scripted_answer hits count web).

(** A parser for the few literals the examples feed to [float]. *)
Definition float_literals (text : string) : option float :=
  if String.eqb text "0.9" then Some 0.9%float
  else if String.eqb text "0.3" then Some 0.3%float
  else if String.eqb text "0.8" then Some 0.8%float
  else if String.eqb text "1.0" then Some 1.0%float
  else if String.eqb text "0.0" then Some 0.0%float
  else if String.eqb text "nan" then Some nan
  else None.

Definition a_document : Document :=
  mkDocument "The warranty lasts two years."
             [("source_file", "warranty.pdf"); ("page", "3")].

End Worlds.


(* ================================================================== *)
(** * Vocabulary of the statements *)

Module Spec.
Import PyStr Re Effects State.

(** The last character of [s], or [d] when [s] is empty. *)
Fixpoint last_char (s : string) (d : option ascii) : option ascii :=
  match s with
  | EmptyString => d
  | String c s' => last_char s' (Some c)
  end.

Fixpoint all_word (s : string) : bool :=
  match s with
  | EmptyString => true
  | String c s' => is_word c && all_word s'
  end.

(** [q] holds one of the SQL keywords, in any letter case, with no word
    character right before or right after it. *)
Definition standalone_keyword (q : string) : Prop :=
  exists pre w post kw,
    q = pre ++ w ++ post /\ In kw InputValidator.SQL_KEYWORDS /\
    lower w = lower kw /\
    word_opt (last_char pre None) = false /\ word_opt (head post) = false.

(** [q] holds one of the SQL punctuation tokens as a substring. *)
Definition contains_token (q : string) : Prop :=
  exists pre tok post,
    q = pre ++ tok ++ post /\ In tok InputValidator.SQL_TOKENS.

(** No line of [content] holds [tag]. *)
Definition missing_line (tag content : string) : Prop :=
  forall l, In l (split LF content) -> contains tag l = false.

(** The first line of [content] that holds [tag] is [line]. *)
Definition first_tagged (tag content line : string) : Prop :=
  exists before after,
    split LF content = (before ++ line :: after)%list /\
    (forall l, In l before -> contains tag l = false) /\
    contains tag line = true.

(** The text after the first colon of the first Confidence line is not a
    number for [float]. *)
Definition non_numeric_confidence (float_of_str : string -> option float)
    (content : string) : Prop :=
  exists line field,
    first_tagged "Confidence:" content line /\
    nth_error (split ":" line) 1 = Some field /\
    float_of_str (strip field) = None.

(** The ways the intent analysis fails on the model's answer: the call
    raised, or the answer lacks a Category line, lacks a Confidence line,
    or carries a confidence that is not a number. *)
Definition analysis_fails (float_of_str : string -> option float)
    (ans : reply string) : Prop :=
  match ans with
  | Raised _ => True
  | Returned content =>
      missing_line "Category:" content \/
      missing_line "Confidence:" content \/
      non_numeric_confidence float_of_str content
  end.

(** The model's answer to a scoring prompt gives no number: its text is
    refused by [float], or the call raised one of the two classes the
    gate's [except] clause names. *)
Definition score_unreadable (float_of_str : string -> option float)
    (ans : reply string) : Prop :=
  match ans with
  | Returned text => float_of_str (strip text) = None
  | Raised e => exn_class_of e = ValueError \/ exn_class_of e = AttributeError
  end.

(** The three-rule routing policy on the labels it maps. *)
Definition policy_tool (intent : string) (confidence : float) (corpus_size : Z) : string :=
  if (0 <? corpus_size)%Z && negb (String.eqb intent "search") then "rag"
  else if PyFloat.ge confidence 0.7 then
    (if String.eqb intent "document" then "rag"
     else if String.eqb intent "knowledge" then "llm"
     else "search")
  else "rag".

Definition known_label (intent : string) : Prop :=
  intent = "document" \/ intent = "knowledge" \/ intent = "search".

Definition a_tool (t : option string) : Prop :=
  t = Some "rag" \/ t = Some "llm" \/ t = Some "search".

(** The state the router receives when the model labelled the query
    [unclear] with confidence 0.9 and the index is empty. *)
Definition unclear_state (q : string) : AgentState :=
  set_confidence 0.9 (set_query_intent (Some "unclear") (AgentGraph.initial_state_of q 0)).

(** [score >= config.retrieval.similarity_threshold] *)
Definition reaches_threshold (config : Config.Config) (score : float) : Prop :=
  PyFloat.ge score (Config.similarity_threshold (Config.retrieval config)) = true.

Definition llm_call (prompt : string) : made := existT _ _ (LLMInvoke prompt).

(** The terminal state of the fallback path: [s1] is the state the
    retrieval node left with no passage, [text] the knowledge tool's
    answer. *)
Definition fallback_state (s1 : AgentState) (text : string) : AgentState :=
  set_grounding_confidence 1.0
    (set_is_grounded true
       (set_source_type "llm"
          (set_sources
             [LLMKnowledgeSource "Groq LLM" "Response based on model training data"]
             (set_response text
                (set_needs_fallback true
                   (set_relevance_score 0.0 (set_is_relevant false s1))))))).

(** The prompt the relevance gate builds for a query and its documents. *)
Definition relevance_prompt (q : string) (documents : list Document) : string :=
  RelevanceScorer.prompt_of q
    (join (nl ++ nl) (map page_content (firstn 3 documents))).
Definition clock_call : made := existT _ _ Clock.
Definition count_call : made := existT _ _ CollectionCount.

End Spec.

(* ================================================================== *)
(** * Vocabulary of the further properties *)

Module Props.
Import PyStr Re Effects State.






(** Every character of [s] passes [p]. *)
Fixpoint all_chars (p : ascii -> bool) (s : string) : bool :=
  match s with
  | EmptyString => true
  | String c s' => p c && all_chars p s'
  end.

(** A character a sanitized query may hold: no control character, and no
    whitespace other than the plain space. *)
Definition clean_char (c : ascii) : bool :=
  (32 <=? code c) && (negb (is_space c) || Ascii.eqb c " ").

(** [0.0 <= x <= 1.0] *)
Definition in_unit_interval (x : float) : Prop :=
  PyFloat.ge x 0.0 = true /\ PyFloat.ge 1.0 x = true.

(** The prompt the groundedness gate builds. *)
Definition grounding_prompt (q context response : string) : string :=
  HallucinationDetector.prompt_of q context response.

(** What either gate makes of the model's answer to its scoring prompt:
    the clamped number and its comparison with the threshold, the
    fail-open default, or the exception going on. *)
Definition gate_reading (float_of_str : string -> option float) (threshold : float)
    (ans : reply string) : reply (float * bool) :=
  match ans with
  | Returned text =>
      match float_of_str (strip text) with
      | Some x => Returned (PyFloat.clamp01 x, PyFloat.ge (PyFloat.clamp01 x) threshold)
      | None => Returned (0.5%float, true)
      end
  | Raised e =>
      match exn_class_of e with
      | ValueError | AttributeError => Returned (0.5%float, true)
      | _ => Raised e
      end
  end.

(** The longest path, in nodes, from a node of the graph to END. *)
Definition rank (n : AgentGraph.node) : nat :=
  match n with
  | AgentGraph.n_input_validation => 7
  | AgentGraph.n_query_analysis => 6
  | AgentGraph.n_router => 5
  | AgentGraph.n_rag => 4
  | AgentGraph.n_relevance_check => 3
  | AgentGraph.n_response_synthesis => 2
  | AgentGraph.n_llm => 2
  | AgentGraph.n_search => 2
  | AgentGraph.n_hallucination_check => 1
  end.

(** The text the hallucination node hands to the gate as context for a
    retrieval answer. *)
Definition evidence_text (s : AgentState) : string :=
  join (nl ++ nl) (map page_content (firstn 3 (retrieved_documents s))).

(** What a node can have done to the state when it returns: for each node,
    the keys it writes and the circumstances. *)
Inductive node_effect : AgentGraph.node -> AgentState -> AgentState -> Prop :=
| eff_validation s :
    node_effect AgentGraph.n_input_validation s
      (set_validation_reason (InputValidator.reason (InputValidator.validate_query (query s)))
         (set_is_valid (InputValidator.valid (InputValidator.validate_query (query s))) s))
| eff_analysis s intent conf :
    node_effect AgentGraph.n_query_analysis s
      (set_confidence conf (set_query_intent (Some intent) s))
| eff_router s t :
    t = selected_tool s \/ Spec.a_tool t ->
    node_effect AgentGraph.n_router s
      (set_attempted_tools (attempted_tools s ++ [t])%list (set_selected_tool t s))
| eff_rag_found s docs srcs :
    docs <> [] -> List.length srcs = List.length docs ->
    node_effect AgentGraph.n_rag s (set_sources srcs (set_retrieved_documents docs s))
| eff_rag_empty s :
    node_effect AgentGraph.n_rag s
      (set_needs_fallback true (set_sources [] (set_retrieved_documents [] s)))
| eff_llm_answered s text :
    node_effect AgentGraph.n_llm s
      (set_source_type "llm"
         (set_sources [LLMKnowledgeSource "Groq LLM" "Response based on model training data"]
            (set_response text s)))
| eff_llm_failed s :
    node_effect AgentGraph.n_llm s (set_needs_fallback true s)
| eff_search_answered s hits srcs text :
    hits <> [] -> List.length srcs = List.length hits ->
    node_effect AgentGraph.n_search s
      (set_source_type "search"
         (set_response text (set_sources srcs (set_search_results hits s))))
| eff_search_unanswered s hits srcs :
    hits <> [] -> List.length srcs = List.length hits ->
    node_effect AgentGraph.n_search s
      (set_needs_fallback true (set_sources srcs (set_search_results hits s)))
| eff_search_empty s :
    node_effect AgentGraph.n_search s (set_needs_fallback true s)
| eff_relevance_none s :
    retrieved_documents s = [] ->
    node_effect AgentGraph.n_relevance_check s
      (set_needs_fallback true (set_relevance_score 0.0 (set_is_relevant false s)))
| eff_relevance_yes s x :
    retrieved_documents s <> [] -> in_unit_interval x ->
    node_effect AgentGraph.n_relevance_check s
      (set_relevance_score x (set_is_relevant true s))
| eff_relevance_no s x :
    retrieved_documents s <> [] -> in_unit_interval x ->
    node_effect AgentGraph.n_relevance_check s
      (set_needs_fallback true (set_relevance_score x (set_is_relevant false s)))
| eff_synthesis_none s :
    retrieved_documents s = [] ->
    node_effect AgentGraph.n_response_synthesis s
      (set_source_type "none" (set_response AgentNodes.NOT_FOUND s))
| eff_synthesis_answered s text :
    retrieved_documents s <> [] ->
    node_effect AgentGraph.n_response_synthesis s
      (set_source_type "rag" (set_response text s))
| eff_synthesis_failed s msg :
    retrieved_documents s <> [] ->
    node_effect AgentGraph.n_response_synthesis s
      (set_error (Some msg) (set_response "Error generating response." s))
| eff_grounding_skipped s :
    source_type s = "llm" \/ source_type s = "search" ->
    node_effect AgentGraph.n_hallucination_check s
      (set_grounding_confidence 1.0 (set_is_grounded true s))
| eff_grounding_no_context s :
    source_type s <> "llm" -> source_type s <> "search" ->
    source_type s <> "rag" \/ evidence_text s = "" ->
    node_effect AgentGraph.n_hallucination_check s
      (set_response (response s ++ AgentNodes.UNVERIFIED_NOTE)
         (set_grounding_confidence 0.0 (set_is_grounded false s)))
| eff_grounding_rated s x :
    source_type s = "rag" -> evidence_text s <> "" -> in_unit_interval x ->
    node_effect AgentGraph.n_hallucination_check s
      (set_grounding_confidence x (set_is_grounded true s))
| eff_grounding_rated_low s x :
    source_type s = "rag" -> evidence_text s <> "" -> in_unit_interval x ->
    node_effect AgentGraph.n_hallucination_check s
      (set_response (response s ++ AgentNodes.UNVERIFIED_NOTE)
         (set_grounding_confidence x (set_is_grounded false s))).

(** The state as [invoke] creates it, as far as the run depends on it. *)
Definition fresh (s : AgentState) : Prop :=
  attempted_tools s = [] /\ selected_tool s = None /\ source_type s = "" /\
  response s = "" /\ error s = None.

(** The router chose tool [t], once. *)
Definition routed_to (t : string) (s : AgentState) : Prop :=
  is_valid s = true /\ selected_tool s = Some t /\ attempted_tools s = [Some t].

(** The knowledge tool is reached by the router, or from the relevance
    gate after retrieval. *)
Definition knowledge_path (s : AgentState) : Prop :=
  routed_to "llm" s \/ (routed_to "rag" s /\ is_relevant s = false).

(** A tool produced no answer. *)
Definition unanswered (s : AgentState) : Prop :=
  source_type s = "" /\ needs_fallback s = true /\ response s = "".

(** The state that reaches the hallucination check: the answer of the
    path taken, or the trace of its failure. *)
Definition answered (s : AgentState) : Prop :=
  (routed_to "rag" s /\ is_relevant s = true /\
   (source_type s = "rag" \/
    (source_type s = "" /\ error s <> None /\ response s = "Error generating response.")))
  \/ (knowledge_path s /\ (source_type s = "llm" \/ unanswered s))
  \/ (routed_to "search" s /\ (source_type s = "search" \/ unanswered s)).

(** What holds of the state on entry to each node in a run that started
    from a fresh state. *)
Definition reached (n : AgentGraph.node) (s : AgentState) : Prop :=
  match n with
  | AgentGraph.n_input_validation => fresh s
  | AgentGraph.n_query_analysis => fresh s /\ is_valid s = true
  | AgentGraph.n_router => fresh s /\ is_valid s = true
  | AgentGraph.n_rag => routed_to "rag" s /\ source_type s = "" /\ response s = "" /\ error s = None
  | AgentGraph.n_relevance_check =>
      routed_to "rag" s /\ source_type s = "" /\ response s = "" /\ error s = None
  | AgentGraph.n_response_synthesis =>
      routed_to "rag" s /\ source_type s = "" /\ is_relevant s = true /\
      retrieved_documents s <> []
  | AgentGraph.n_llm => knowledge_path s /\ source_type s = "" /\ response s = ""
  | AgentGraph.n_search => routed_to "search" s /\ source_type s = "" /\ response s = ""
  | AgentGraph.n_hallucination_check => answered s
  end.

(** The end of a run from a fresh state: the query was rejected, or the
    hallucination check ran on an answered state. *)
Definition ended (s' : AgentState) : Prop :=
  is_valid s' = false \/
  exists s, answered s /\ node_effect AgentGraph.n_hallucination_check s s'.

(** The intent is one of the three labels the router maps. *)
Definition labelled (intent : option string) : Prop :=
  intent = Some "document" \/ intent = Some "knowledge" \/ intent = Some "search".

(** The count [invoke] stores: the collection count, or 0 when reading it
    raises. *)
Definition count_or_zero (r : reply Z) : Z :=
  match r with Returned n => n | Raised _ => 0%Z end.


(** A character that is neither a line feed nor a colon. *)
Definition plain_char (c : ascii) : bool :=
  negb (Ascii.eqb c LF) && negb (Ascii.eqb c ":").

(** The answer the analysis prompt asks for, with [label] as category and
    [ctext] as confidence. *)
Definition formatted_analysis (label ctext : string) : string :=
  "Category: " ++ label ++ nl ++ "Confidence: " ++ ctext.

(** A call to the chat model. *)
Definition is_llm_call (c : made) : bool :=
  match projT2 c with LLMInvoke _ => true | _ => false end.

Definition llm_count (calls : list made) : nat :=
  List.length (List.filter is_llm_call calls).

(** The most calls to the chat model, and the most calls of any kind, that
    one node makes. *)
Definition llm_cost (n : AgentGraph.node) : nat :=
  match n with
  | AgentGraph.n_input_validation | AgentGraph.n_router | AgentGraph.n_rag => 0
  | _ => 1
  end.

Definition call_cost (n : AgentGraph.node) : nat :=
  match n with
  | AgentGraph.n_input_validation | AgentGraph.n_router => 0
  | AgentGraph.n_search => 2
  | _ => 1
  end.

(** The most calls a run makes from a node on. *)
Definition llm_budget (n : AgentGraph.node) : nat :=
  match n with
  | AgentGraph.n_input_validation | AgentGraph.n_query_analysis => 4
  | AgentGraph.n_router | AgentGraph.n_rag | AgentGraph.n_relevance_check => 3
  | AgentGraph.n_response_synthesis | AgentGraph.n_llm | AgentGraph.n_search => 2
  | AgentGraph.n_hallucination_check => 1
  end.

Definition call_budget (n : AgentGraph.node) : nat :=
  match n with
  | AgentGraph.n_input_validation | AgentGraph.n_query_analysis => 5
  | AgentGraph.n_router | AgentGraph.n_rag => 4
  | AgentGraph.n_relevance_check | AgentGraph.n_search => 3
  | AgentGraph.n_response_synthesis | AgentGraph.n_llm => 2
  | AgentGraph.n_hallucination_check => 1
  end.

(** [s] is empty or starts with a character that is not whitespace. *)
Definition starts_clear (s : string) : Prop :=
  match s with EmptyString => True | String c _ => is_space c = false end.

Definition no_space (c : ascii) : bool := negb (is_space c).

(** A word as [split_ws] yields them: not empty, no whitespace inside. *)
Definition good_word (w : string) : Prop := w <> "" /\ all_chars no_space w = true.

(** A query with a control character between two words. *)
Definition control_between_words : string :=
  "a " ++ String (ascii_of_nat 1) " b".

(** A character that is whitespace or not a control character. *)
Definition space_or_printable (c : ascii) : bool :=
  is_space c || (32 <=? code c).

End Props.

(* ================================================================== *)
(** * A run to try the properties on *)

Module Examples.
Import Effects State.

(** The index holds three records and finds one passage; the model labels
    the query, rates the passage 0.8, answers, and rates the answer 1.0. *)
Definition world : World :=
  Worlds.scripted (Returned [(Worlds.a_document, 0.9%float)]) (Returned 3%Z) (Returned None).

Definition script : Worlds.script :=
  Worlds.mkScript
    [ Returned ("Category: document" ++ PyStr.nl ++ "Confidence: 0.9");
      Returned "0.8"; Returned "Two years."; Returned " 1.0 " ]
    100%float.

Definition start : AgentState :=
  AgentGraph.initial_state_of "how long is the warranty" 3%Z.

Definition graph_run : reply AgentState * Worlds.script * list made :=
  Eval vm_compute in
    run world (AgentGraph.graph_invoke Worlds.float_literals Config.default start) script.

Definition final : AgentState :=
  Eval vm_compute in
    match graph_run with
    | (Returned s, _, _) => s
    | (Raised _, _, _) => start
    end.

End Examples.

(* ================================================================== *)
(** * Facts about programs *)

Section ProgFacts.
Import Effects.
Variable W : World.

Lemma run_bind {A B : Type} (p : Prog A) (f : A -> Prog B) (w : world_state W) :
  run W (bind p f) w =
  match run W p w with
  | (Returned a, w', c) =>
      let '(r, w'', c') := run W (f a) w' in (r, w'', (c ++ c')%list)
  | (Raised e, w', c) => (Raised e, w', c)
  end.
Proof.
  revert w. induction p as [a | e | X ev k IH]; intros w; simpl.
  - destruct (run W (f a) w) as [[r w''] c']. reflexivity.
  - reflexivity.
  - destruct (answer W X ev w) as [x w'].
    rewrite IH.
    destruct (run W (k x) w') as [[[a | e] w''] c]; [ | reflexivity ].
    destruct (run W (f a) w'') as [[r w3] c']. reflexivity.
Qed.

Lemma run_try_except {A : Type} (p : Prog A) (h : exn -> option (Prog A))
      (w : world_state W) :
  run W (try_except p h) w =
  match run W p w with
  | (Returned a, w', c) => (Returned a, w', c)
  | (Raised e, w', c) =>
      match h e with
      | Some q => let '(r, w'', c') := run W q w' in (r, w'', (c ++ c')%list)
      | None => (Raised e, w', c)
      end
  end.
Proof.
  revert w. induction p as [a | e | X ev k IH]; intros w; simpl.
  - reflexivity.
  - destruct (h e) as [q | ]; [ | reflexivity ].
    destruct (run W q w) as [[r w''] c']. reflexivity.
  - destruct (answer W X ev w) as [x w'].
    rewrite IH.
    destruct (run W (k x) w') as [[[a | e] w''] c]; [ reflexivity | ].
    destruct (h e) as [q | ]; [ | reflexivity ].
    destruct (run W q w'') as [[r w3] c']. reflexivity.
Qed.

Lemma run_call {A : Type} (ev : event (reply A)) (w : world_state W) :
  run W (call ev) w =
  (fst (answer W _ ev w), snd (answer W _ ev w), [existT _ _ ev]).
Proof.
  unfold call. simpl. destruct (answer W _ ev w) as [[a | e] w']; reflexivity.
Qed.

Lemma run_clock (w : world_state W) :
  run W clock w =
  (Returned (fst (answer W _ Clock w)), snd (answer W _ Clock w), [Spec.clock_call]).
Proof.
  unfold clock. simpl. destruct (answer W _ Clock w) as [t w']. reflexivity.
Qed.

End ProgFacts.

(* ================================================================== *)
(** * Facts about the matcher *)

Section ReFacts.
Import PyStr Re Spec.

Lemma lower_char_word (a : ascii) : is_word (lower_char a) = is_word a.
Proof.
  destruct a as [b0 b1 b2 b3 b4 b5 b6 b7].
  destruct b0, b1, b2, b3, b4, b5, b6, b7; reflexivity.
Qed.

Lemma same_lower_word (c a : ascii) :
  lower_char a = lower_char c -> is_word c = true -> is_word a = true.
Proof.
  intros E Hc.
  rewrite <- (lower_char_word a), E, lower_char_word. exact Hc.
Qed.

Lemma all_word_same_lower (kw : string) :
  forall w, lower w = lower kw -> all_word kw = true -> all_word w = true.
Proof.
  induction kw as [ | c kw IH]; intros [ | a w] E H; simpl in *;
    try discriminate; try reflexivity.
  injection E as Ec Es.
  apply andb_true_iff in H as [Hc Hk].
  apply andb_true_iff. split.
  - exact (same_lower_word c a Ec Hc).
  - exact (IH w Es Hk).
Qed.

Lemma head_app_word (w post : string) :
  w <> "" -> all_word w = true -> word_opt (head (w ++ post)) = true.
Proof.
  destruct w as [ | a w]; [ congruence | ].
  simpl. intros _ H. apply andb_true_iff in H. tauto.
Qed.

Lemma last_char_word (w : string) :
  forall d, word_opt d = true -> all_word w = true -> word_opt (last_char w d) = true.
Proof.
  induction w as [ | a w IH]; simpl; intros d Hd H; [ exact Hd | ].
  apply andb_true_iff in H as [Ha Hw]. apply IH; assumption.
Qed.

Lemma last_char_word_nonempty (w : string) (d : option ascii) :
  w <> "" -> all_word w = true -> word_opt (last_char w d) = true.
Proof.
  destruct w as [ | a w]; [ congruence | ].
  simpl. intros _ H. apply andb_true_iff in H as [Ha Hw].
  apply last_char_word; assumption.
Qed.

(** A literal run, matched without regard to case, consumes exactly the
    text it equals up to case. *)
Lemma rmatch_RStr (kw : string) :
  forall w post prev k,
    lower w = lower kw ->
    rmatch true (RStr kw) prev (w ++ post) k = k (last_char w prev) post.
Proof.
  induction kw as [ | c kw IH]; intros [ | a w] post prev k E; simpl in *;
    try discriminate.
  - reflexivity.
  - injection E as Ec Es.
    unfold lit_match. rewrite Ec, Ascii.eqb_refl.
    apply IH. exact Es.
Qed.

Lemma rmatch_RAlts (rs : list regex) :
  forall r prev s k,
    In r rs -> rmatch true r prev s k = true -> rmatch true (RAlts rs) prev s k = true.
Proof.
  induction rs as [ | r0 rs IH]; intros r prev s k Hin Hm; [ contradiction | ].
  destruct rs as [ | r1 rs].
  - destruct Hin as [-> | []]. exact Hm.
  - change (RAlts (r0 :: r1 :: rs)) with (RAlt r0 (RAlts (r1 :: rs))).
    simpl rmatch. apply orb_true_iff.
    destruct Hin as [-> | Hin]; [ left; exact Hm | right ].
    exact (IH r prev s k Hin Hm).
Qed.

(** A match somewhere inside the text is found by the scan. *)
Lemma search_from_app (r : regex) (pre : string) :
  forall prev s,
    rmatch true r (last_char pre prev) s accept = true ->
    search_from true r prev (pre ++ s) = true.
Proof.
  induction pre as [ | a pre IH]; intros prev s H; simpl in *.
  - destruct s; simpl; rewrite H; reflexivity.
  - apply orb_true_iff. right. apply IH. exact H.
Qed.

Lemma keywords_all_word (kw : string) :
  In kw InputValidator.SQL_KEYWORDS -> all_word kw = true /\ kw <> "".
Proof.
  intros H. simpl in H.
  repeat (destruct H as [<- | H]; [ split; [ reflexivity | discriminate ] | ]).
  contradiction.
Qed.

Lemma lower_nonempty (w kw : string) : lower w = lower kw -> kw <> "" -> w <> "".
Proof.
  intros E Hk ->. destruct kw; [ congruence | discriminate ].
Qed.

Lemma rmatch_group (r : regex) prev s k :
  rmatch true (RGroup r) prev s k = rmatch true r prev s k.
Proof. reflexivity. Qed.

Lemma rmatch_seq (r1 r2 : regex) prev s k :
  rmatch true (RSeq r1 r2) prev s k =
  rmatch true r1 prev s (fun p' s' => rmatch true r2 p' s' k).
Proof. reflexivity. Qed.

Lemma rmatch_wordb prev s k :
  rmatch true RWordB prev s k = if at_boundary prev s then k prev s else false.
Proof. reflexivity. Qed.

Lemma keyword_found (q : string) :
  standalone_keyword q ->
  existsb (fun pattern => search pattern q true) InputValidator.SQL_INJECTION_PATTERNS = true.
Proof.
  intros (pre & w & post & kw & -> & Hin & Hlow & Hpre & Hpost).
  destruct (keywords_all_word kw Hin) as [Hkw Hne].
  pose proof (all_word_same_lower kw w Hlow Hkw) as Hw.
  pose proof (lower_nonempty w kw Hlow Hne) as Hwne.
  unfold InputValidator.SQL_INJECTION_PATTERNS.
  cbn [existsb]. apply orb_true_iff. left.
  unfold search. apply search_from_app.
  rewrite rmatch_group, rmatch_seq, rmatch_wordb.
  unfold at_boundary at 1.
  rewrite Hpre, (head_app_word w post Hwne Hw). cbn [xorb].
  rewrite rmatch_seq, rmatch_group.
  apply rmatch_RAlts with (r := RStr kw).
  - apply in_map. exact Hin.
  - rewrite (rmatch_RStr kw w post _ _ Hlow), rmatch_wordb.
    unfold at_boundary.
    rewrite (last_char_word_nonempty w _ Hwne Hw), Hpost. reflexivity.
Qed.

Lemma token_found (q : string) :
  contains_token q ->
  existsb (fun pattern => search pattern q true) InputValidator.SQL_INJECTION_PATTERNS = true.
Proof.
  intros (pre & tok & post & -> & Hin).
  unfold InputValidator.SQL_INJECTION_PATTERNS.
  cbn [existsb]. apply orb_true_iff. right. apply orb_true_iff. left.
  unfold search. apply search_from_app.
  rewrite rmatch_group.
  apply rmatch_RAlts with (r := RStr tok).
  - apply in_map. exact Hin.
  - rewrite (rmatch_RStr tok tok post _ _ eq_refl). reflexivity.
Qed.

End ReFacts.

(* ================================================================== *)
(** * The input guard *)

Section InputGuard.
Import PyStr Re Spec InputValidator.

(** C10: a query that is not blank and not over the length limit is
    rejected with the SQL reason as soon as it holds one SQL keyword as a
    standalone word, in any letter case, or one of the punctuation
    tokens; one keyword or one token is enough. *)
Theorem sql_word_or_token_rejected (q : string) :
  String.length q <= MAX_QUERY_LENGTH ->
  strip q <> "" ->
  standalone_keyword q \/ contains_token q ->
  validate_query q = mkVerdict false SQL_REASON.
Proof.
  intros Hlen Hne Hsql.
  unfold validate_query.
  destruct (MAX_QUERY_LENGTH <? String.length q) eqn:El.
  - apply Nat.ltb_lt in El. lia.
  - destruct (strip q) as [ | c rest] eqn:Es; [ congruence | ].
    simpl negb. cbv iota.
    destruct Hsql as [Hk | Ht];
      [ rewrite (keyword_found q Hk) | rewrite (token_found q Ht) ]; reflexivity.
Qed.

Lemma create_a_summary_has_keyword : standalone_keyword "create a summary".
Proof.
  exists "", "create", " a summary", "CREATE".
  repeat split; simpl; auto 10.
Qed.

Lemma sql_word_or_token_rejected_witness :
  validate_query "create a summary" = mkVerdict false SQL_REASON.
Proof.
  apply (sql_word_or_token_rejected "create a summary").
  - vm_compute. repeat constructor.
  - vm_compute. discriminate.
  - left. exact create_a_summary_has_keyword.
Defined.

End InputGuard.

(* ================================================================== *)
(** * Rejection ends the run *)

Section Rejection.
Import PyStr Effects State Spec.
Variable float_of_str : string -> option float.
Variable config : Config.Config.

(** The state the validation step leaves for a rejected query. *)
Lemma validation_of_rejected (s : AgentState) :
  InputValidator.valid (InputValidator.validate_query (query s)) = false ->
  AgentNodes.input_validation_node s =
  Ret (set_validation_reason
         (InputValidator.reason (InputValidator.validate_query (query s)))
         (set_is_valid false s)).
Proof.
  intros H. unfold AgentNodes.input_validation_node. rewrite H. reflexivity.
Qed.

Lemma graph_stops_on_rejected (s : AgentState) :
  InputValidator.valid (InputValidator.validate_query (query s)) = false ->
  AgentGraph.graph_invoke float_of_str config s = AgentNodes.input_validation_node s.
Proof.
  intros H.
  unfold AgentGraph.graph_invoke, AgentGraph.RECURSION_LIMIT.
  cbn [AgentGraph.run_from AgentGraph.node_fn].
  rewrite (validation_of_rejected s H).
  cbn [bind AgentGraph.edge is_valid set_validation_reason set_is_valid negb].
  reflexivity.
Qed.

Lemma count_always_returns (W : World) (w : world_state W) :
  exists dc w',
    run W (try_except ChromaManager.get_collection_count
             (any_exception (fun _ => Ret 0%Z))) w
    = (Returned dc, w', [count_call]).
Proof.
  unfold ChromaManager.get_collection_count, call. cbn [try_except run].
  destruct (answer W _ CollectionCount w) as [[dc | e] w'];
    cbn [try_except run any_exception]; eauto.
Qed.

(** C3: when the input guard rejects the query of a state, the run of
    the graph is the validation step alone: it returns that step's state
    and calls nothing, whatever the world; the whole of [invoke] then
    reads the clock and the collection count and nothing else, and stores
    the elapsed time in that state.  The query [SELECT * FROM users] is
    rejected with the SQL-pattern reason. *)
Theorem rejected_query_runs_nothing_downstream :
  (forall s : AgentState,
      InputValidator.valid (InputValidator.validate_query (query s)) = false ->
      let halted :=
        set_validation_reason
          (InputValidator.reason (InputValidator.validate_query (query s)))
          (set_is_valid false s) in
      AgentNodes.input_validation_node s = Ret halted /\
      AgentGraph.graph_invoke float_of_str config s = Ret halted /\
      forall (W : World) (w : world_state W),
        run W (AgentGraph.graph_invoke float_of_str config s) w = (Returned halted, w, []))
  /\
  (forall (q : string) (W : World) (w : world_state W),
      InputValidator.valid (InputValidator.validate_query q) = false ->
      exists t0 t1 dc w',
        run W (AgentGraph.invoke float_of_str config q) w =
        (Returned
           (set_processing_time (t1 - t0)%float
              (set_validation_reason
                 (InputValidator.reason (InputValidator.validate_query q))
                 (set_is_valid false (AgentGraph.initial_state_of q dc)))),
         w', [clock_call; count_call; clock_call]))
  /\
  InputValidator.validate_query "SELECT * FROM users"
  = InputValidator.mkVerdict false InputValidator.SQL_REASON.
Proof.
  split; [ | split ].
  - intros s H halted. subst halted.
    pose proof (validation_of_rejected s H) as Hv.
    pose proof (graph_stops_on_rejected s H) as Hg.
    rewrite Hv in Hg.
    repeat split; try assumption.
    intros W w. rewrite Hg. reflexivity.
  - intros q W w H.
    unfold AgentGraph.invoke.
    rewrite run_bind, run_clock.
    destruct (answer W _ Clock w) as [t0 w1]. cbn [fst snd].
    rewrite run_bind.
    destruct (count_always_returns W w1) as (dc & w2 & Hc). rewrite Hc.
    rewrite run_try_except, run_bind.
    pose proof (graph_stops_on_rejected (AgentGraph.initial_state_of q dc)) as Hg.
    cbn [query AgentGraph.initial_state_of] in Hg. specialize (Hg H).
    rewrite Hg.
    pose proof (validation_of_rejected (AgentGraph.initial_state_of q dc)) as Hv.
    cbn [query AgentGraph.initial_state_of] in Hv. specialize (Hv H).
    rewrite Hv.
    cbn [run]. rewrite run_bind, run_clock.
    destruct (answer W _ Clock w2) as [t1 w3]. cbn [fst snd run app].
    exists t0, t1, dc, w3. reflexivity.
  - vm_compute. reflexivity.
Qed.

End Rejection.

Lemma rejected_query_runs_nothing_downstream_witness :
InputValidator.valid (InputValidator.validate_query "SELECT * FROM users") = false /\
AgentGraph.graph_invoke Worlds.float_literals Config.default
  (AgentGraph.initial_state_of "SELECT * FROM users" 4%Z)
= Effects.Ret
    (State.set_validation_reason InputValidator.SQL_REASON
       (State.set_is_valid false (AgentGraph.initial_state_of "SELECT * FROM users" 4%Z))).
Proof.
split; [ reflexivity | ].
exact (proj1 (proj2 (proj1
         (rejected_query_runs_nothing_downstream Worlds.float_literals Config.default)
         (AgentGraph.initial_state_of "SELECT * FROM users" 4%Z) eq_refl))).
Defined.

(* ================================================================== *)
(** * The router *)

Section Router.
Import PyStr Effects State Spec.

(** On the three labels the policy maps, the router selects the policy's
    tool and appends it to the attempted tools. *)
Lemma router_follows_policy (s : AgentState) (intent : string) :
  query_intent s = Some intent ->
  known_label intent ->
  let tool := Some (policy_tool intent (confidence s) (doc_count s)) in
  AgentNodes.router_node s =
  Ret (set_attempted_tools (attempted_tools s ++ [tool])%list (set_selected_tool tool s)).
Proof.
  intros Hi Hk tool. subst tool.
  unfold AgentNodes.router_node, policy_tool. rewrite Hi.
  cbn [AgentNodes.intent_is].
  destruct Hk as [-> | [-> | ->]];
    destruct (0 <? doc_count s)%Z, (PyFloat.ge (confidence s) 0.7); reflexivity.
Qed.

(** Whatever the state, the router returns, and the attempted tools it
    leaves are the former ones followed by the selected tool. *)
Lemma router_appends_selection (s : AgentState) :
  exists s',
    AgentNodes.router_node s = Ret s' /\
    attempted_tools s' = (attempted_tools s ++ [selected_tool s'])%list.
Proof.
  unfold AgentNodes.router_node.
  eexists. split; [ reflexivity | ].
  destruct ((0 <? doc_count s)%Z && negb (AgentNodes.intent_is (query_intent s) "search")),
    (PyFloat.ge (confidence s) 0.7),
    (AgentNodes.intent_is (query_intent s) "document"),
    (AgentNodes.intent_is (query_intent s) "knowledge"),
    (AgentNodes.intent_is (query_intent s) "search"); reflexivity.
Qed.

(** C1, at the input where the code departs from it: with an empty
    corpus, confidence 0.9 and the intent label [unclear], no branch of
    the router assigns a tool; [selected_tool] keeps its initial [None],
    which is also what gets appended to the attempted tools. *)
Theorem router_unmapped_label_selects_no_tool (q : string) :
  AgentNodes.router_node (unclear_state q)
  = Ret (set_attempted_tools [None] (unclear_state q))
  /\ selected_tool (set_attempted_tools [None] (unclear_state q)) = None.
Proof.
  split; reflexivity.
Qed.

(** C4, at the same input: after the router has run, [selected_tool] is
    none of the three tools; the attempted tools did grow by one entry,
    the selected [None]. *)
Theorem router_leaves_no_tool_selected (q : string) :
  exists s',
    AgentNodes.router_node (unclear_state q) = Ret s' /\
    ~ a_tool (selected_tool s') /\
    In (selected_tool s') (attempted_tools s') /\
    List.length (attempted_tools s') = S (List.length (attempted_tools (unclear_state q))).
Proof.
  eexists. split; [ reflexivity | ].
  cbn. repeat split.
  - intros [H | [H | H]]; discriminate H.
  - left. reflexivity.
Qed.

End Router.

(* ================================================================== *)
(** * The groundedness gate *)

Section Grounding.
Import PyStr Effects State Spec HallucinationDetector.

(** C2, as the code has it: for the source types [llm] and [search] the
    check returns grounded with confidence 1.0 at once; being a plain
    return, it makes no call in any world. *)
Theorem grounding_skipped_for_llm_and_search
    (float_of_str : string -> option float) (config : Config.Config)
    (query response : string) (context : option string) (source_type : string) :
  source_type = "llm" \/ source_type = "search" ->
  check_grounding float_of_str config query response context source_type
  = Ret (mkGrounding true 1.0)
  /\ forall (W : World) (w : world_state W),
      run W (check_grounding float_of_str config query response context source_type) w
      = (Returned (mkGrounding true 1.0), w, []).
Proof.
  intros [-> | ->]; split; try reflexivity; intros W w; reflexivity.
Qed.

(** Any other source type goes on to the context test: with no context
    the check answers not grounded, confidence 0.0, again with no call. *)
Lemma grounding_without_context
    (float_of_str : string -> option float) (config : Config.Config)
    (query response source_type : string) :
  skips_check source_type = false ->
  check_grounding float_of_str config query response None source_type
  = Ret (mkGrounding false 0.0).
Proof.
  intros H. unfold check_grounding. rewrite H. reflexivity.
Qed.

End Grounding.

Lemma grounding_skipped_for_llm_and_search_witness :
HallucinationDetector.check_grounding Worlds.float_literals Config.default
  "what is a monad" "A monad is a monoid in the category of endofunctors." None "llm"
= Effects.Ret (HallucinationDetector.mkGrounding true 1.0).
Proof.
exact (proj1 (grounding_skipped_for_llm_and_search Worlds.float_literals Config.default
                "what is a monad" "A monad is a monoid in the category of endofunctors."
                None "llm" (or_introl eq_refl))).
Defined.

(** C2 as stated fails: the source type [none], which is not [rag], is
  answered with not grounded and confidence 0.0. *)
Lemma grounding_not_skipped_for_none :
~ (forall (float_of_str : string -> option float) (config : Config.Config)
          (query response : string) (context : option string) (source_type : string),
      source_type <> "rag" ->
      HallucinationDetector.check_grounding float_of_str config query response
        context source_type
      = Effects.Ret (HallucinationDetector.mkGrounding true 1.0)).
Proof.
intros H.
specialize (H Worlds.float_literals Config.default "what is a monad"
              AgentNodes.NOT_FOUND None "none").
assert (Hne : "none" <> "rag") by discriminate.
specialize (H Hne).
rewrite grounding_without_context in H by reflexivity.
discriminate H.
Qed.

(* ================================================================== *)
(** * Retrieval keeps only scores at or above the threshold *)

Section Retrieval.
Import PyStr Effects State Spec.
Variable config : Config.Config.

(** C9: in every world the similarity search of the retrieval tool
    returns, and each pair it returns has a score at or above the
    configured similarity threshold; so has each score the retrieval
    tool hands on, one per document. *)
Theorem retrieval_scores_reach_threshold
    (W : World) (query : string) (w : world_state W) :
  (forall (k : option Z) (filter : option pydict),
      exists results w' calls,
        run W (ChromaManager.similarity_search_with_score config query k filter) w
        = (Returned results, w', calls) /\
        Forall (fun ds : Document * float => reaches_threshold config (snd ds)) results)
  /\
  exists r w' calls,
    run W (AgentTools.rag_tool config query) w = (Returned r, w', calls) /\
    Forall (reaches_threshold config) (AgentTools.rag_scores r) /\
    List.length (AgentTools.rag_documents r) = List.length (AgentTools.rag_scores r).
Proof.
  assert (Hsearch : forall (k : option Z) (filter : option pydict),
      exists results w' calls,
        run W (ChromaManager.similarity_search_with_score config query k filter) w
        = (Returned results, w', calls) /\
        Forall (fun ds : Document * float => reaches_threshold config (snd ds)) results).
  { intros k filter.
    unfold ChromaManager.similarity_search_with_score.
    rewrite run_try_except, run_bind, run_call.
    destruct (answer W _ (VectorSearch query (ChromaManager.k_or_default config k) filter) w)
      as [[results | e] w'] eqn:E; cbn [fst snd run any_exception app].
    - eexists _, _, _. split; [ reflexivity | ].
      apply Forall_forall. intros ds Hin.
      apply filter_In in Hin. exact (proj2 Hin).
    - eexists _, _, _. split; [ reflexivity | ]. constructor. }
  split; [ exact Hsearch | ].
  destruct (Hsearch None None) as (results & w' & calls & Hrun & Hall).
  unfold AgentTools.rag_tool.
  rewrite run_try_except, run_bind, Hrun. cbn [run].
  eexists _, _, _. split; [ reflexivity | ].
  cbn [AgentTools.rag_scores AgentTools.rag_documents]. split.
  - apply Forall_forall. intros sc Hin.
    apply in_map_iff in Hin as (ds & <- & Hds).
    rewrite Forall_forall in Hall. exact (Hall ds Hds).
  - rewrite !length_map. reflexivity.
Qed.

End Retrieval.

(* ================================================================== *)
(** * Intent analysis falls back to its default *)

Section IntentAnalysis.
Import PyStr Effects State Spec.
Variable float_of_str : string -> option float.

Lemma filter_none {A : Type} (p : A -> bool) (l : list A) :
  (forall x, In x l -> p x = false) -> List.filter p l = [].
Proof.
  induction l as [ | a l IH]; intros H; [ reflexivity | ].
  simpl. rewrite (H a (or_introl eq_refl)).
  apply IH. intros x Hx. apply H. right. exact Hx.
Qed.

Lemma first_line_missing (tag content : string) :
  missing_line tag content ->
  AgentNodes.first_line_with tag content = Raise AgentNodes.index_error.
Proof.
  intros H. unfold AgentNodes.first_line_with.
  rewrite (filter_none _ _ H). reflexivity.
Qed.

Lemma first_line_found (tag content line : string) :
  first_tagged tag content line ->
  AgentNodes.first_line_with tag content = Ret line.
Proof.
  intros (before & after & Hs & Hb & Hl).
  unfold AgentNodes.first_line_with.
  rewrite Hs, filter_app, (filter_none _ _ Hb).
  simpl. rewrite Hl. reflexivity.
Qed.

(** The two lookups are pure: each either returns or raises IndexError. *)
Lemma first_line_cases (tag content : string) :
  (exists l, AgentNodes.first_line_with tag content = Ret l) \/
  AgentNodes.first_line_with tag content = Raise AgentNodes.index_error.
Proof.
  unfold AgentNodes.first_line_with.
  destruct (List.filter (contains tag) (split LF content)); eauto.
Qed.

Lemma second_field_cases (line : string) :
  (exists f, AgentNodes.second_field line = Ret f) \/
  AgentNodes.second_field line = Raise AgentNodes.index_error.
Proof.
  unfold AgentNodes.second_field.
  destruct (nth_error (split ":" line) 1); eauto.
Qed.

(** Each way of being unparsable makes the parse raise. *)
Lemma parse_raises (content : string) :
  analysis_fails float_of_str (Returned content) ->
  exists e, AgentNodes.parse_analysis float_of_str content = Raise e.
Proof.
  intros [Hcat | [Hconf | (line & field & Hline & Hfield & Hnum)]];
    unfold AgentNodes.parse_analysis.
  - rewrite (first_line_missing _ _ Hcat). cbn [bind]. eauto.
  - destruct (first_line_cases "Category:" content) as [[l ->] | ->];
      cbn [bind]; [ | eauto ].
    rewrite (first_line_missing _ _ Hconf). cbn [bind]. eauto.
  - destruct (first_line_cases "Category:" content) as [[l ->] | ->];
      cbn [bind]; [ | eauto ].
    rewrite (first_line_found _ _ _ Hline). cbn [bind].
    destruct (second_field_cases l) as [[cf ->] | ->]; cbn [bind]; [ | eauto ].
    unfold AgentNodes.second_field at 1. rewrite Hfield. cbn [bind].
    unfold PyFloat.to_float. rewrite Hnum. cbn [bind]. eauto.
Qed.

(** C8: when the model call of the intent analysis raises, or its answer
    lacks the Category line, lacks the Confidence line or carries a
    confidence that is not a number, the node does not raise: it returns
    the state with intent [document] and confidence 0.5, after that one
    call. *)
Theorem analysis_failure_defaults_to_document
    (W : World) (s : AgentState) (w : world_state W) :
  analysis_fails float_of_str
    (fst (answer W _ (LLMInvoke (AgentNodes.analysis_prompt (query s))) w)) ->
  run W (AgentNodes.query_analysis_node float_of_str s) w
  = (Returned (set_confidence 0.5 (set_query_intent (Some "document") s)),
     snd (answer W _ (LLMInvoke (AgentNodes.analysis_prompt (query s))) w),
     [llm_call (AgentNodes.analysis_prompt (query s))]).
Proof.
  intros H.
  unfold AgentNodes.query_analysis_node, llm_invoke.
  rewrite run_try_except, run_bind, run_call.
  destruct (answer W _ (LLMInvoke (AgentNodes.analysis_prompt (query s))) w)
    as [[content | e] w'] eqn:E; cbn [fst snd] in *.
  - destruct (parse_raises content H) as [e He].
    rewrite run_bind, He. reflexivity.
  - reflexivity.
Qed.

End IntentAnalysis.

Lemma analysis_failure_defaults_to_document_witness :
Effects.run (Worlds.scripted (Effects.Returned []) (Effects.Returned 0%Z) (Effects.Returned None))
  (AgentNodes.query_analysis_node Worlds.float_literals
     (AgentGraph.initial_state_of "who signed the contract" 2%Z))
  (Worlds.mkScript [Effects.Returned "This looks like a question about a document."] 0%float)
= (Effects.Returned
     (State.set_confidence 0.5
        (State.set_query_intent (Some "document")
           (AgentGraph.initial_state_of "who signed the contract" 2%Z))),
   Worlds.mkScript [] 0%float,
   [Spec.llm_call (AgentNodes.analysis_prompt "who signed the contract")]).
Proof.
apply (analysis_failure_defaults_to_document Worlds.float_literals
         (Worlds.scripted (Effects.Returned []) (Effects.Returned 0%Z) (Effects.Returned None))
         (AgentGraph.initial_state_of "who signed the contract" 2%Z)
         (Worlds.mkScript [Effects.Returned "This looks like a question about a document."]
            0%float)).
left. intros l Hl. simpl in Hl. destruct Hl as [<- | []]. reflexivity.
Defined.

(* ================================================================== *)
(** * The relevance gate and the fallback edge *)

Section Relevance.
Import PyStr Effects State Spec.
Variable float_of_str : string -> option float.
Variable config : Config.Config.
Variable W : World.

(** The prompt the gate sends for the documents of a state. *)
Lemma score_relevance_unreadable (q : string) (documents : list Document)
      (w : world_state W) :
  documents <> [] ->
  score_unreadable float_of_str
    (fst (answer W _ (LLMInvoke (relevance_prompt q documents)) w)) ->
  run W (RelevanceScorer.score_relevance float_of_str config q documents) w
  = (Returned (RelevanceScorer.mkRelevance 0.5 true),
     snd (answer W _ (LLMInvoke (relevance_prompt q documents)) w),
     [llm_call (relevance_prompt q documents)]).
Proof.
  intros Hne H.
  unfold RelevanceScorer.score_relevance.
  destruct documents as [ | d ds]; [ congruence | ].
  fold (relevance_prompt q (d :: ds)).
  unfold llm_invoke.
  rewrite run_try_except, run_bind, run_call.
  destruct (answer W _ (LLMInvoke (relevance_prompt q (d :: ds))) w)
    as [[text | e] w'] eqn:E; cbn [fst snd] in *.
  - rewrite run_bind. unfold PyFloat.to_float. rewrite H.
    cbn [run value_or_attribute_error exn_class_of app]. reflexivity.
  - unfold value_or_attribute_error.
    destruct H as [-> | ->]; reflexivity.
Qed.

(** C7, as the code has it: with evidence at hand, when the model's
    answer to the relevance prompt is not a number, or the call raises
    ValueError or AttributeError, the gate returns score 0.5 and relevant,
    whatever the threshold; the node stores both, leaves [needs_fallback]
    as it was, and the run goes on at response synthesis. *)
Theorem unreadable_relevance_defaults_to_relevant
    (s : AgentState) (w : world_state W) :
  retrieved_documents s <> [] ->
  score_unreadable float_of_str
    (fst (answer W _ (LLMInvoke (relevance_prompt (query s) (retrieved_documents s))) w)) ->
  let prompt := relevance_prompt (query s) (retrieved_documents s) in
  let w' := snd (answer W _ (LLMInvoke prompt) w) in
  let s' := set_relevance_score 0.5 (set_is_relevant true s) in
  run W (RelevanceScorer.score_relevance float_of_str config (query s)
           (retrieved_documents s)) w
  = (Returned (RelevanceScorer.mkRelevance 0.5 true), w', [llm_call prompt])
  /\ run W (AgentNodes.relevance_check_node float_of_str config s) w
     = (Returned s', w', [llm_call prompt])
  /\ AgentGraph.edge AgentGraph.n_relevance_check s'
     = Returned (Some AgentGraph.n_response_synthesis)
  /\ forall steps,
      run W (AgentGraph.run_from float_of_str config (S steps)
               AgentGraph.n_relevance_check s) w
      = let '(r, w'', calls) :=
          run W (AgentGraph.run_from float_of_str config steps
                   AgentGraph.n_response_synthesis s') w' in
        (r, w'', llm_call prompt :: calls).
Proof.
  intros Hne H prompt w' s'.
  pose proof (score_relevance_unreadable (query s) (retrieved_documents s) w Hne H) as Hs.
  assert (Hnode : run W (AgentNodes.relevance_check_node float_of_str config s) w
                  = (Returned s', w', [llm_call prompt])).
  { unfold AgentNodes.relevance_check_node.
    destruct (retrieved_documents s) as [ | d ds] eqn:Ed; [ congruence | ].
    rewrite run_bind, Hs. reflexivity. }
  repeat split; try assumption.
  intros steps.
  cbn [AgentGraph.run_from AgentGraph.node_fn].
  rewrite run_bind, Hnode.
  change (AgentGraph.edge AgentGraph.n_relevance_check s')
    with (@Returned (option AgentGraph.node) (Some AgentGraph.n_response_synthesis)).
  cbv iota.
  destruct (run W (AgentGraph.run_from float_of_str config steps
                     AgentGraph.n_response_synthesis s') w') as [[r w''] calls].
  reflexivity.
Qed.

(** A model call that raises another class is not caught by the gate. *)
Lemma score_relevance_propagates (q : string) (documents : list Document)
      (w : world_state W) (e : exn) (w' : world_state W) :
  documents <> [] ->
  answer W _ (LLMInvoke (relevance_prompt q documents)) w = (Raised e, w') ->
  exn_class_of e <> ValueError -> exn_class_of e <> AttributeError ->
  run W (RelevanceScorer.score_relevance float_of_str config q documents) w
  = (Raised e, w', [llm_call (relevance_prompt q documents)]).
Proof.
  intros Hne E Hv Ha.
  unfold RelevanceScorer.score_relevance.
  destruct documents as [ | d ds]; [ congruence | ].
  fold (relevance_prompt q (d :: ds)).
  unfold llm_invoke.
  rewrite run_try_except, run_bind, run_call, E. cbn [fst snd].
  unfold value_or_attribute_error.
  destruct (exn_class_of e); try reflexivity; congruence.
Qed.

End Relevance.

Lemma unreadable_relevance_defaults_to_relevant_witness :
Effects.run (Worlds.scripted (Effects.Returned []) (Effects.Returned 3%Z) (Effects.Returned None))
  (AgentNodes.relevance_check_node Worlds.float_literals Config.default
     (State.set_retrieved_documents [Worlds.a_document]
        (AgentGraph.initial_state_of "how long is the warranty" 3%Z)))
  (Worlds.mkScript [Effects.Returned "I cannot rate this."] 0%float)
= (Effects.Returned
     (State.set_relevance_score 0.5
        (State.set_is_relevant true
           (State.set_retrieved_documents [Worlds.a_document]
              (AgentGraph.initial_state_of "how long is the warranty" 3%Z)))),
   Worlds.mkScript [] 0%float,
   [Spec.llm_call (Spec.relevance_prompt "how long is the warranty" [Worlds.a_document])]).
Proof.
refine (proj1 (proj2
  (unreadable_relevance_defaults_to_relevant Worlds.float_literals Config.default
     (Worlds.scripted (Effects.Returned []) (Effects.Returned 3%Z) (Effects.Returned None))
     (State.set_retrieved_documents [Worlds.a_document]
        (AgentGraph.initial_state_of "how long is the warranty" 3%Z))
     (Worlds.mkScript [Effects.Returned "I cannot rate this."] 0%float) _ _))).
- discriminate.
- reflexivity.
Defined.

(** C7 as stated fails: with evidence at hand and a model call that raises a
  backend error, the gate does not return 0.5 and relevant; the exception
  leaves it. *)
Lemma relevance_gate_lets_backend_error_through :
~ (forall (float_of_str : string -> option float) (config : Config.Config)
          (W : Effects.World) (q : string) (documents : list Effects.Document)
          (w : Effects.world_state W),
      documents <> [] ->
      match fst (Effects.answer W _ (Effects.LLMInvoke (Spec.relevance_prompt q documents)) w) with
      | Effects.Raised _ => True
      | Effects.Returned text => float_of_str (PyStr.strip text) = None
      end ->
      Effects.outcome
        (Effects.run W (RelevanceScorer.score_relevance float_of_str config q documents) w)
      = Effects.Returned (RelevanceScorer.mkRelevance 0.5 true)).
Proof.
intros H.
specialize (H Worlds.float_literals Config.default
              (Worlds.scripted (Effects.Returned []) (Effects.Returned 3%Z)
                 (Effects.Returned None))
              "how long is the warranty" [Worlds.a_document]
              (Worlds.mkScript [] 0%float)).
assert (Hne : [Worlds.a_document] <> []) by discriminate.
specialize (H Hne I).
vm_compute in H. discriminate H.
Qed.

(* ================================================================== *)
(** * Zero passages: the fallback to the knowledge tool *)

Section Fallback.
Import PyStr Effects State Spec.
Variable float_of_str : string -> option float.
Variable config : Config.Config.
Variable W : World.

Lemma relevance_node_no_documents (s : AgentState) :
  retrieved_documents s = [] ->
  AgentNodes.relevance_check_node float_of_str config s
  = Ret (set_needs_fallback true (set_relevance_score 0.0 (set_is_relevant false s))).
Proof.
  intros H. unfold AgentNodes.relevance_check_node. rewrite H. reflexivity.
Qed.

Lemma rag_node_keeps_query (s s1 : AgentState) (w w1 : world_state W) (c1 : list made) :
  run W (AgentNodes.rag_node config s) w = (Returned s1, w1, c1) -> query s1 = query s.
Proof.
  unfold AgentNodes.rag_node. rewrite run_bind.
  destruct (run W (AgentTools.rag_tool config (query s)) w) as [[[r | e] w'] c];
    [ | discriminate ].
  cbn [run]. intros H. injection H as <- _ _.
  destruct (negb (AgentTools.rag_success r)); reflexivity.
Qed.

Lemma llm_node_answered (s : AgentState) (w w' : world_state W) (text : string) :
  answer W _ (LLMInvoke (AgentTools.llm_tool_prompt (query s))) w = (Returned text, w') ->
  run W (AgentNodes.llm_node s) w
  = (Returned
       (set_source_type "llm"
          (set_sources
             [LLMKnowledgeSource "Groq LLM" "Response based on model training data"]
             (set_response text s))),
     w', [llm_call (AgentTools.llm_tool_prompt (query s))]).
Proof.
  intros E.
  unfold AgentNodes.llm_node, AgentTools.llm_tool, llm_invoke.
  rewrite run_bind, run_try_except, run_bind, run_call, E. reflexivity.
Qed.

Lemma llm_node_failed (s : AgentState) (w w' : world_state W) (e : exn) :
  answer W _ (LLMInvoke (AgentTools.llm_tool_prompt (query s))) w = (Raised e, w') ->
  run W (AgentNodes.llm_node s) w
  = (Returned (set_needs_fallback true s), w',
     [llm_call (AgentTools.llm_tool_prompt (query s))]).
Proof.
  intros E.
  unfold AgentNodes.llm_node, AgentTools.llm_tool, llm_invoke.
  rewrite run_bind, run_try_except, run_bind, run_call, E. reflexivity.
Qed.

Lemma hallucination_node_skips (s : AgentState) :
  source_type s = "llm" \/ source_type s = "search" ->
  AgentNodes.hallucination_check_node float_of_str config s
  = Ret (set_grounding_confidence 1.0 (set_is_grounded true s)).
Proof.
  intros H. unfold AgentNodes.hallucination_check_node.
  destruct H as [E | E]; rewrite E; reflexivity.
Qed.

(** The state at the end of the fallback path, from the state [s1] the
    retrieval node left and the text the knowledge tool obtained. *)
Lemma fallback_run_from_gate (s1 : AgentState) (w1 w2 : world_state W) (text : string)
      (steps : nat) :
  retrieved_documents s1 = [] ->
  answer W _ (LLMInvoke (AgentTools.llm_tool_prompt (query s1))) w1 = (Returned text, w2) ->
  run W (AgentGraph.run_from float_of_str config (S (S (S steps)))
           AgentGraph.n_relevance_check s1) w1
  = (Returned (fallback_state s1 text), w2,
     [llm_call (AgentTools.llm_tool_prompt (query s1))]).
Proof.
  intros Hd E.
  cbn [AgentGraph.run_from AgentGraph.node_fn].
  rewrite (relevance_node_no_documents s1 Hd).
  cbn [bind AgentGraph.edge is_relevant set_needs_fallback set_relevance_score
       set_is_relevant].
  rewrite run_bind.
  rewrite (llm_node_answered _ w1 w2 text) by exact E.
  cbn [AgentGraph.edge AgentGraph.run_from AgentGraph.node_fn].
  rewrite hallucination_node_skips by (left; reflexivity).
  reflexivity.
Qed.

(** C5, as the code has it: when the retrieval node leaves zero passages,
    the relevance gate is a plain return that sets score 0, not relevant
    and needs-fallback; the edge out of it leads to the knowledge tool;
    and when that tool's model call answers, the run ends with source
    type [llm], the model's text as response, and that call as the only
    one made after retrieval. *)
Theorem zero_passages_fall_back_to_knowledge
    (s s1 : AgentState) (w w1 w2 : world_state W) (c1 : list made) (text : string) :
  run W (AgentNodes.rag_node config s) w = (Returned s1, w1, c1) ->
  retrieved_documents s1 = [] ->
  answer W _ (LLMInvoke (AgentTools.llm_tool_prompt (query s))) w1 = (Returned text, w2) ->
  let gated := set_needs_fallback true (set_relevance_score 0.0 (set_is_relevant false s1)) in
  AgentNodes.relevance_check_node float_of_str config s1 = Ret gated
  /\ AgentGraph.edge AgentGraph.n_relevance_check gated = Returned (Some AgentGraph.n_llm)
  /\ run W (AgentGraph.run_from float_of_str config AgentGraph.RECURSION_LIMIT
              AgentGraph.n_rag s) w
     = (Returned (fallback_state s1 text), w2,
        (c1 ++ [llm_call (AgentTools.llm_tool_prompt (query s))])%list)
  /\ source_type (fallback_state s1 text) = "llm"
  /\ response (fallback_state s1 text) = text
  /\ relevance_score (fallback_state s1 text) = 0.0%float
  /\ is_relevant (fallback_state s1 text) = false
  /\ needs_fallback (fallback_state s1 text) = true.
Proof.
  intros Hrag Hd E gated.
  pose proof (rag_node_keeps_query s s1 w w1 c1 Hrag) as Hq.
  split; [ exact (relevance_node_no_documents s1 Hd) | ].
  split; [ reflexivity | ].
  split; [ | repeat split ].
  unfold AgentGraph.RECURSION_LIMIT.
  change (AgentGraph.run_from float_of_str config 25 AgentGraph.n_rag s)
    with (bind (AgentNodes.rag_node config s)
            (fun s' => AgentGraph.run_from float_of_str config 24
                         AgentGraph.n_relevance_check s')).
  rewrite run_bind, Hrag.
  rewrite <- Hq in E.
  rewrite (fallback_run_from_gate s1 w1 w2 text 21 Hd E).
  rewrite Hq. reflexivity.
Qed.

End Fallback.

Lemma zero_passages_fall_back_to_knowledge_witness :
Effects.outcome
  (Effects.run
     (Worlds.scripted (Effects.Returned []) (Effects.Returned 3%Z) (Effects.Returned None))
     (AgentGraph.run_from Worlds.float_literals Config.default AgentGraph.RECURSION_LIMIT
        AgentGraph.n_rag (AgentGraph.initial_state_of "how long is the warranty" 3%Z))
     (Worlds.mkScript [Effects.Returned "Usually two years."] 0%float))
= Effects.Returned
    (Spec.fallback_state
       (State.set_needs_fallback true
          (State.set_sources []
             (State.set_retrieved_documents []
                (AgentGraph.initial_state_of "how long is the warranty" 3%Z))))
       "Usually two years.").
Proof.
pose proof
  (zero_passages_fall_back_to_knowledge Worlds.float_literals Config.default
     (Worlds.scripted (Effects.Returned []) (Effects.Returned 3%Z) (Effects.Returned None))
     (AgentGraph.initial_state_of "how long is the warranty" 3%Z)
     (State.set_needs_fallback true
        (State.set_sources []
           (State.set_retrieved_documents []
              (AgentGraph.initial_state_of "how long is the warranty" 3%Z))))
     (Worlds.mkScript [Effects.Returned "Usually two years."] 0%float)
     (Worlds.mkScript [Effects.Returned "Usually two years."] 0%float)
     (Worlds.mkScript [] 0%float)
     [existT _ _ (Effects.VectorSearch "how long is the warranty" 5%Z None)]
     "Usually two years."
     eq_refl eq_refl eq_refl) as H.
destruct H as (_ & _ & Hrun & _).
rewrite Hrun. reflexivity.
Defined.

(** C5 as stated fails on its last clause: retrieval returns zero passages,
  the gate sets score 0, not relevant and needs-fallback, control passes
  to the knowledge tool, but that tool's model call fails and the run ends
  with the source type still empty. *)
Lemma failed_knowledge_tool_leaves_source_unset :
exists s,
  Effects.outcome
    (Effects.run
       (Worlds.scripted (Effects.Returned []) (Effects.Returned 3%Z) (Effects.Returned None))
       (AgentGraph.invoke Worlds.float_literals Config.default "how long is the warranty")
       (Worlds.mkScript
          [Effects.Returned ("Category: document" ++ PyStr.nl ++ "Confidence: 0.9")]
          100%float))
  = Effects.Returned s /\
  State.attempted_tools s = [Some "rag"] /\
  State.retrieved_documents s = [] /\
  State.is_relevant s = false /\
  State.needs_fallback s = true /\
  State.error s = None /\
  State.source_type s = "" /\
  State.source_type s <> "llm".
Proof.
eexists. split; [ vm_compute; reflexivity | ].
cbn. repeat split. discriminate.
Qed.

(* ================================================================== *)
(** * The caller always gets a state back *)

Section Orchestrator.
Import PyStr Effects State Spec.
Variable float_of_str : string -> option float.
Variable config : Config.Config.
Variable W : World.

(** C6: in every world and for every query, [invoke] returns a state and
    raises nothing.  With [t0] and [t1] the two clock readings and [g] the
    outcome of the run of the graph: the state returned carries the elapsed
    time [t1 - t0]; when the graph returned a state, it is that state; when
    the graph raised [e], it carries the text of [e] as [error], the
    generic answer as response, and the query. *)
Theorem invoke_always_returns_a_state (q : string) (w : world_state W) :
  exists t0 w1 dc w2 g w3 c3 t1 w4 final,
    answer W _ Clock w = (t0, w1) /\
    run W (try_except ChromaManager.get_collection_count
             (any_exception (fun _ => Ret 0%Z))) w1 = (Returned dc, w2, [count_call]) /\
    run W (AgentGraph.graph_invoke float_of_str config (AgentGraph.initial_state_of q dc)) w2
    = (g, w3, c3) /\
    answer W _ Clock w3 = (t1, w4) /\
    run W (AgentGraph.invoke float_of_str config q) w
    = (Returned final, w4, (clock_call :: count_call :: c3 ++ [clock_call])%list) /\
    processing_time final = (t1 - t0)%float /\
    match g with
    | Returned result => final = set_processing_time (t1 - t0)%float result
    | Raised e =>
        error final = Some (exn_msg e) /\
        response final = AgentGraph.GENERIC_ERROR /\
        query final = q
    end.
Proof.
  destruct (answer W _ Clock w) as [t0 w1] eqn:E0.
  destruct (count_always_returns W w1) as (dc & w2 & Hc).
  destruct (run W (AgentGraph.graph_invoke float_of_str config
                     (AgentGraph.initial_state_of q dc)) w2) as [[g w3] c3] eqn:Eg.
  destruct (answer W _ Clock w3) as [t1 w4] eqn:E1.
  exists t0, w1, dc, w2, g, w3, c3, t1, w4.
  assert (Hrun : forall final,
    final = match g with
            | Returned result => set_processing_time (t1 - t0)%float result
            | Raised e =>
                AgentGraph.error_state (AgentGraph.initial_state_of q dc) e (t1 - t0)%float
            end ->
    run W (AgentGraph.invoke float_of_str config q) w
    = (Returned final, w4, (clock_call :: count_call :: c3 ++ [clock_call])%list)).
  { intros final ->.
    unfold AgentGraph.invoke.
    rewrite run_bind, run_clock, E0. cbn [fst snd].
    rewrite run_bind, Hc.
    rewrite run_try_except, run_bind, Eg.
    destruct g as [result | e].
    - rewrite run_bind, run_clock, E1. cbn [fst snd run app].
      try rewrite app_nil_r. reflexivity.
    - cbn [any_exception]. rewrite run_bind, run_clock, E1.
      cbn [fst snd run app]. try rewrite app_nil_r. reflexivity. }
  destruct g as [result | e].
  - exists (set_processing_time (t1 - t0)%float result).
    repeat split; try assumption; try reflexivity.
    apply Hrun. reflexivity.
  - exists (AgentGraph.error_state (AgentGraph.initial_state_of q dc) e (t1 - t0)%float).
    repeat split; try assumption; try reflexivity.
    apply Hrun. reflexivity.
Qed.

End Orchestrator.

(** A run where an inner stage raises: the model labels the query [unclear]
    with confidence 0.9, the index is empty, the router selects nothing and
    the engine raises KeyError on the missing branch; [invoke] hands back
    the generic answer with the error text. *)
Example unmapped_label_ends_in_error_state :
  exists s,
    Effects.outcome
      (Effects.run
         (Worlds.scripted (Effects.Returned []) (Effects.Returned 0%Z) (Effects.Returned None))
         (AgentGraph.invoke Worlds.float_literals Config.default "what is a monad")
         (Worlds.mkScript
            [Effects.Returned ("Category: unclear" ++ PyStr.nl ++ "Confidence: 0.9")]
            100%float))
    = Effects.Returned s /\
    State.error s = Some "None" /\
    State.response s = AgentGraph.GENERIC_ERROR /\
    State.processing_time s = 1%float.
Proof.
  eexists. split; [ vm_compute; reflexivity | ].
  cbn. repeat split.
Qed.

(** A run where the relevance gate's model call fails with a backend
    error: the exception leaves the gate and the graph, and [invoke] hands
    back the generic answer; no synthesis took place. *)
Example backend_error_at_relevance_gate :
  exists s,
    Effects.outcome
      (Effects.run
         (Worlds.scripted (Effects.Returned [(Worlds.a_document, 0.9%float)])
            (Effects.Returned 3%Z) (Effects.Returned None))
         (AgentGraph.invoke Worlds.float_literals Config.default "how long is the warranty")
         (Worlds.mkScript
            [Effects.Returned ("Category: document" ++ PyStr.nl ++ "Confidence: 0.9")]
            100%float))
    = Effects.Returned s /\
    State.error s = Some "Connection error." /\
    State.response s = AgentGraph.GENERIC_ERROR /\
    State.source_type s = "".
Proof.
  eexists. split; [ vm_compute; reflexivity | ].
  cbn. repeat split.
Qed.

(* ================================================================== *)
(** * The input guard, in both directions *)

Section ReInversion.
Import PyStr Re Spec Props.










Lemma keyword_pattern_found (q : string) :
  standalone_keyword q ->
  search (nth 0 InputValidator.SQL_INJECTION_PATTERNS REps) q true = true.
Proof.
  intros H. pose proof (keyword_found q H) as Hf.
  unfold InputValidator.SQL_INJECTION_PATTERNS in *. cbn [existsb nth] in *.
  apply orb_true_iff in Hf as [Hf | Hf]; [ exact Hf | ].
  apply orb_true_iff in Hf as [Hf | Hf]; [ | discriminate ].
  destruct H as (pre & w & post & kw & -> & Hin & Hlow & Hpre & Hpost).
  destruct (keywords_all_word kw Hin) as [Hkw Hne].
  pose proof (all_word_same_lower kw w Hlow Hkw) as Hw.
  pose proof (lower_nonempty w kw Hlow Hne) as Hwne.
  unfold search. apply search_from_app.
  rewrite rmatch_group, rmatch_seq, rmatch_wordb.
  unfold at_boundary at 1.
  rewrite Hpre, (head_app_word w post Hwne Hw). cbn [xorb].
  rewrite rmatch_seq, rmatch_group.
  apply rmatch_RAlts with (r := RStr kw).
  - apply in_map. exact Hin.
  - rewrite (rmatch_RStr kw w post _ _ Hlow), rmatch_wordb.
    unfold at_boundary.
    rewrite (last_char_word_nonempty w _ Hwne Hw), Hpost. reflexivity.
Qed.


End ReInversion.

Section StringFacts.
Import PyStr Spec Props.

Lemma str_app_assoc (a b c : string) : (a ++ b) ++ c = a ++ b ++ c.
Proof. induction a as [ | x a IH]; cbn; [ reflexivity | rewrite IH; reflexivity ]. Qed.

Lemma str_app_nil_r (a : string) : a ++ "" = a.
Proof. induction a as [ | x a IH]; cbn; [ reflexivity | rewrite IH; reflexivity ]. Qed.

Lemma str_length_app (a b : string) :
  String.length (a ++ b) = String.length a + String.length b.
Proof. induction a as [ | x a IH]; cbn; [ reflexivity | rewrite IH; reflexivity ]. Qed.



End StringFacts.

Section PromptPatterns.
Import PyStr Re Spec Props InputValidator.






End PromptPatterns.

Section GuardExact.
Import PyStr Re Spec Props InputValidator.





End GuardExact.

(* ================================================================== *)
(** * Sanitizing a query *)

Section Sanitize.
Import PyStr Spec Props InputValidator.

Lemma all_chars_app (p : ascii -> bool) (a b : string) :
  all_chars p (a ++ b) = all_chars p a && all_chars p b.
Proof.
  induction a as [ | x a IH]; cbn; [ reflexivity | ].
  rewrite IH, andb_assoc. reflexivity.
Qed.

Lemma all_chars_impl (p p' : ascii -> bool) (s : string) :
  (forall c, p c = true -> p' c = true) ->
  all_chars p s = true -> all_chars p' s = true.
Proof.
  intros Hpp. induction s as [ | x s IH]; cbn; [ reflexivity | ].
  intros H. apply andb_true_iff in H as [Hx Hs].
  rewrite (Hpp x Hx), (IH Hs). reflexivity.
Qed.

Lemma all_chars_and (p p' : ascii -> bool) (s : string) :
  all_chars p s = true -> all_chars p' s = true ->
  all_chars (fun c => p c && p' c) s = true.
Proof.
  induction s as [ | x s IH]; cbn; [ reflexivity | ].
  intros H H'. apply andb_true_iff in H as [Hx Hs]. apply andb_true_iff in H' as [Hx' Hs'].
  rewrite Hx, Hx', (IH Hs Hs'). reflexivity.
Qed.

Lemma all_chars_filter (keep p : ascii -> bool) (s : string) :
  all_chars p s = true -> all_chars p (filter_chars keep s) = true.
Proof.
  induction s as [ | x s IH]; cbn; [ reflexivity | ].
  intros H. apply andb_true_iff in H as [Hx Hs].
  destruct (keep x); cbn; [ rewrite Hx | ]; auto.
Qed.

Lemma filter_chars_kept (keep : ascii -> bool) (s : string) :
  all_chars keep (filter_chars keep s) = true.
Proof.
  induction s as [ | x s IH]; cbn; [ reflexivity | ].
  destruct (keep x) eqn:E; cbn; [ rewrite E | ]; auto.
Qed.

Lemma filter_chars_id (keep : ascii -> bool) (s : string) :
  all_chars keep s = true -> filter_chars keep s = s.
Proof.
  induction s as [ | x s IH]; cbn; [ reflexivity | ].
  intros H. apply andb_true_iff in H as [Hx Hs]. rewrite Hx, (IH Hs). reflexivity.
Qed.

Lemma all_chars_lstrip (p : ascii -> bool) (s : string) :
  all_chars p s = true -> all_chars p (lstrip s) = true.
Proof.
  induction s as [ | x s IH]; cbn; [ reflexivity | ].
  intros H. destruct (is_space x); [ | exact H ].
  apply andb_true_iff in H as [_ Hs]. auto.
Qed.

Lemma all_chars_rstrip (p : ascii -> bool) (s : string) :
  all_chars p s = true -> all_chars p (rstrip s) = true.
Proof.
  induction s as [ | x s IH]; cbn; [ reflexivity | ].
  intros H. apply andb_true_iff in H as [Hx Hs]. specialize (IH Hs).
  destruct (rstrip s) as [ | y r].
  - destruct (is_space x); cbn; [ reflexivity | rewrite Hx; reflexivity ].
  - cbn [all_chars] in *. rewrite Hx, IH. reflexivity.
Qed.

Lemma all_chars_strip (p : ascii -> bool) (s : string) :
  all_chars p s = true -> all_chars p (strip s) = true.
Proof.
  intros H. unfold strip. apply all_chars_rstrip, all_chars_lstrip, H.
Qed.

(** ** Trimming twice is trimming once *)

Lemma lstrip_starts_clear (s : string) : starts_clear (lstrip s).
Proof.
  induction s as [ | x s IH]; cbn; [ exact I | ].
  destruct (is_space x) eqn:E; [ exact IH | exact E ].
Qed.

Lemma lstrip_id (s : string) : starts_clear s -> lstrip s = s.
Proof.
  destruct s as [ | x s]; cbn; [ reflexivity | ]. intros ->. reflexivity.
Qed.

Lemma rstrip_starts_clear (s : string) : starts_clear s -> starts_clear (rstrip s).
Proof.
  destruct s as [ | x s]; cbn; [ exact id | ].
  intros E. destruct (rstrip s); [ rewrite E | ]; exact E.
Qed.

Lemma rstrip_idem (s : string) : rstrip (rstrip s) = rstrip s.
Proof.
  induction s as [ | x s IH]; cbn; [ reflexivity | ].
  destruct (rstrip s) as [ | y r] eqn:Er.
  - destruct (is_space x) eqn:Ex; cbn; [ reflexivity | rewrite Ex; reflexivity ].
  - cbn [rstrip]. cbn [rstrip] in IH. rewrite IH. reflexivity.
Qed.

Lemma strip_idem (s : string) : strip (strip s) = strip s.
Proof.
  unfold strip.
  rewrite (lstrip_id (rstrip (lstrip s))).
  - apply rstrip_idem.
  - apply rstrip_starts_clear, lstrip_starts_clear.
Qed.

(** ** The words of [split_ws] *)

Lemma split_ws_cons (c : ascii) (s' : string) :
  split_ws (String c s') =
  if is_space c then split_ws s'
  else
    match s' with
    | EmptyString => [String c EmptyString]
    | String c' _ =>
        if is_space c' then String c EmptyString :: split_ws s'
        else
          match split_ws s' with
          | w :: ws => String c w :: ws
          | [] => [String c EmptyString]
          end
    end.
Proof. reflexivity. Qed.

Lemma split_ws_good (s : string) : Forall good_word (split_ws s).
Proof.
  induction s as [ | c s IH]; [ constructor | ].
  rewrite split_ws_cons.
  destruct (is_space c) eqn:Ec; [ exact IH | ].
  assert (Hc : good_word (String c "")).
  { split; [ discriminate | ]. cbn. unfold no_space. rewrite Ec. reflexivity. }
  destruct s as [ | c' s']; [ repeat constructor; apply Hc | ].
  destruct (is_space c') eqn:Ec'; [ constructor; assumption | ].
  destruct (split_ws (String c' s')) as [ | w ws]; [ repeat constructor; apply Hc | ].
  inversion IH as [ | ? ? [Hw1 Hw2] Hws]; subst.
  constructor; [ | exact Hws ].
  split; [ discriminate | ]. cbn. unfold no_space at 1. rewrite Ec, Hw2. reflexivity.
Qed.

Lemma split_ws_all_chars (p : ascii -> bool) (s : string) :
  all_chars p s = true -> Forall (fun w => all_chars p w = true) (split_ws s).
Proof.
  induction s as [ | c s IH]; [ constructor | ].
  intros H. cbn [all_chars] in H. apply andb_true_iff in H as [Hc Hs].
  specialize (IH Hs).
  rewrite split_ws_cons.
  assert (H1 : all_chars p (String c "") = true) by (cbn; rewrite Hc; reflexivity).
  destruct (is_space c); [ exact IH | ].
  destruct s as [ | c' s']; [ repeat constructor; exact H1 | ].
  destruct (is_space c'); [ constructor; assumption | ].
  destruct (split_ws (String c' s')) as [ | w ws]; [ repeat constructor; exact H1 | ].
  inversion IH as [ | ? ? Hw Hws]; subst.
  constructor; [ | exact Hws ]. cbn. rewrite Hc, Hw. reflexivity.
Qed.

Lemma all_chars_join (p : ascii -> bool) (sep : string) (ws : list string) :
  all_chars p sep = true ->
  Forall (fun w => all_chars p w = true) ws ->
  all_chars p (join sep ws) = true.
Proof.
  intros Hsep H. unfold join.
  induction H as [ | w ws Hw Hws IH]; [ reflexivity | ].
  destruct ws as [ | w2 ws]; [ exact Hw | ].
  change (String.concat sep (w :: w2 :: ws))
    with (w ++ sep ++ String.concat sep (w2 :: ws)).
  rewrite !all_chars_app, Hw, Hsep, IH. reflexivity.
Qed.

Lemma kept_and_spaced_is_clean (c : ascii) :
  printable_or_newline c && (no_space c || Ascii.eqb c " ") = true -> clean_char c = true.
Proof.
  unfold printable_or_newline, clean_char, no_space. intros H.
  apply andb_true_iff in H as [H1 H2].
  destruct (32 <=? code c) eqn:E; [ exact H2 | ].
  cbn in H1. apply Ascii.eqb_eq in H1. subst c. discriminate H2.
Qed.

Lemma sanitize_clean_chars (q : string) :
  all_chars clean_char (sanitize_query q) = true.
Proof.
  unfold sanitize_query.
  apply all_chars_strip.
  apply all_chars_impl with (p := fun c => printable_or_newline c && (no_space c || Ascii.eqb c " ")).
  { exact kept_and_spaced_is_clean. }
  apply all_chars_and; [ apply filter_chars_kept | ].
  apply all_chars_filter, all_chars_join; [ reflexivity | ].
  eapply Forall_impl; [ | apply split_ws_good ].
  intros w [_ Hw]. eapply all_chars_impl; [ | exact Hw ].
  intros c Hc. rewrite Hc. reflexivity.
Qed.

(** X4: whatever the input, the sanitized query holds no control character
    and no whitespace other than the plain space, and it neither starts nor
    ends with whitespace: trimming it again changes nothing. *)
Theorem sanitized_query_is_clean (q : string) :
  all_chars clean_char (sanitize_query q) = true /\
  strip (sanitize_query q) = sanitize_query q.
Proof.
  split; [ apply sanitize_clean_chars | ].
  unfold sanitize_query. apply strip_idem.
Qed.

(** ** Joining the words and splitting again *)

Lemma split_ws_word_sep (w : string) :
  forall rest, good_word w -> split_ws (w ++ String " " rest) = w :: split_ws rest.
Proof.
  induction w as [ | c w IH]; intros rest [Hne Hw]; [ congruence | ].
  cbn [all_chars] in Hw. apply andb_true_iff in Hw as [Hc Hw].
  unfold no_space in Hc. apply negb_true_iff in Hc.
  cbn [append]. rewrite split_ws_cons, Hc.
  destruct w as [ | c' w'].
  - cbn [append]. reflexivity.
  - assert (Hg : good_word (String c' w')) by (split; [ discriminate | exact Hw ]).
    cbn [all_chars] in Hw. apply andb_true_iff in Hw as [Hc' _].
    unfold no_space in Hc'. apply negb_true_iff in Hc'.
    specialize (IH rest Hg). cbn [append] in IH. cbn [append].
    rewrite Hc', IH. reflexivity.
Qed.

Lemma split_ws_word (w : string) : good_word w -> split_ws w = [w].
Proof.
  intros H.
  induction w as [ | c w IH]; [ destruct H; congruence | ].
  destruct H as [_ Hw].
  cbn [all_chars] in Hw. apply andb_true_iff in Hw as [Hc Hw].
  unfold no_space in Hc. apply negb_true_iff in Hc.
  rewrite split_ws_cons, Hc.
  destruct w as [ | c' w']; [ reflexivity | ].
  assert (Hg : good_word (String c' w')) by (split; [ discriminate | exact Hw ]).
  cbn [all_chars] in Hw. apply andb_true_iff in Hw as [Hc' _].
  unfold no_space in Hc'. apply negb_true_iff in Hc'.
  rewrite Hc', (IH Hg). reflexivity.
Qed.

Lemma split_ws_join (ws : list string) :
  Forall good_word ws -> split_ws (join " " ws) = ws.
Proof.
  unfold join. induction 1 as [ | w ws Hw Hws IH]; [ reflexivity | ].
  destruct ws as [ | w2 ws]; [ exact (split_ws_word w Hw) | ].
  change (String.concat " " (w :: w2 :: ws))
    with (w ++ String " " (String.concat " " (w2 :: ws))).
  rewrite (split_ws_word_sep w _ Hw), IH. reflexivity.
Qed.

Lemma rstrip_no_space (w : string) : all_chars no_space w = true -> rstrip w = w.
Proof.
  induction w as [ | c w IH]; [ reflexivity | ].
  cbn [all_chars]. intros H. apply andb_true_iff in H as [Hc Hw].
  unfold no_space in Hc. apply negb_true_iff in Hc.
  cbn [rstrip]. rewrite (IH Hw), Hc. destruct w; reflexivity.
Qed.

Lemma rstrip_app (a b : string) : rstrip b = b -> b <> "" -> rstrip (a ++ b) = a ++ b.
Proof.
  intros Hb Hne. induction a as [ | x a IH]; [ exact Hb | ].
  cbn [append rstrip]. rewrite IH.
  destruct (a ++ b) eqn:E; [ | reflexivity ].
  destruct a; cbn in E; congruence.
Qed.

Lemma join_good_nonempty (w : string) (ws : list string) :
  good_word w -> join " " (w :: ws) <> "".
Proof.
  intros [Hne _]. unfold join.
  destruct w as [ | c w]; [ congruence | ].
  destruct ws; cbn; discriminate.
Qed.

Lemma strip_join_good (ws : list string) :
  Forall good_word ws -> strip (join " " ws) = join " " ws.
Proof.
  intros H. unfold strip.
  assert (Hl : lstrip (join " " ws) = join " " ws).
  { apply lstrip_id. destruct H as [ | w ws [Hne Hw] _]; [ exact I | ].
    destruct w as [ | c w]; [ congruence | ].
    cbn [all_chars] in Hw. apply andb_true_iff in Hw as [Hc _].
    unfold no_space in Hc. apply negb_true_iff in Hc.
    unfold join. destruct ws; exact Hc. }
  rewrite Hl. clear Hl.
  induction H as [ | w ws Hw Hws IH]; [ reflexivity | ].
  destruct ws as [ | w2 ws]; [ apply rstrip_no_space, Hw | ].
  unfold join.
  change (String.concat " " (w :: w2 :: ws))
    with (w ++ " " ++ String.concat " " (w2 :: ws)).
  apply rstrip_app.
  - apply (rstrip_app " ").
    + apply IH.
    + inversion Hws; subst. apply join_good_nonempty. assumption.
  - discriminate.
Qed.

Lemma printable_word (c : ascii) :
  space_or_printable c && no_space c = true -> printable_or_newline c = true.
Proof.
  unfold space_or_printable, no_space, printable_or_newline. intros H.
  apply andb_true_iff in H as [H1 H2]. apply negb_true_iff in H2.
  rewrite H2 in H1. cbn [orb] in H1. rewrite H1. reflexivity.
Qed.

Lemma sanitize_printable (q : string) :
  all_chars space_or_printable q = true ->
  sanitize_query q = join " " (split_ws q).
Proof.
  intros H. unfold sanitize_query.
  rewrite filter_chars_id.
  - apply strip_join_good, split_ws_good.
  - apply all_chars_join; [ reflexivity | ].
    pose proof (split_ws_all_chars _ _ H) as H1.
    pose proof (split_ws_good q) as H2.
    rewrite Forall_forall in *. intros w Hin.
    apply all_chars_impl with (p := fun c => space_or_printable c && no_space c).
    + exact printable_word.
    + apply all_chars_and; [ exact (H1 w Hin) | exact (proj2 (H2 w Hin)) ].
Qed.

Lemma clean_is_printable (c : ascii) : clean_char c = true -> space_or_printable c = true.
Proof.
  unfold clean_char, space_or_printable. intros H.
  apply andb_true_iff in H as [H _]. rewrite H. apply orb_true_r.
Qed.

Lemma sanitize_fixed_on_printable (q : string) :
  all_chars space_or_printable q = true ->
  sanitize_query (sanitize_query q) = sanitize_query q.
Proof.
  intros H.
  rewrite (sanitize_printable (sanitize_query q)).
  - rewrite (sanitize_printable q H).
    rewrite split_ws_join; [ reflexivity | apply split_ws_good ].
  - eapply all_chars_impl; [ exact clean_is_printable | apply sanitize_clean_chars ].
Qed.

(** X5: on a query that holds no control character besides whitespace, the
    sanitized query is its words joined by single spaces, and sanitizing it
    again changes nothing. *)
Theorem sanitize_idempotent_on_printable (q : string) :
  all_chars space_or_printable q = true ->
  sanitize_query q = join " " (split_ws q) /\
  sanitize_query (sanitize_query q) = sanitize_query q.
Proof.
  intros H. split; [ exact (sanitize_printable q H) | exact (sanitize_fixed_on_printable q H) ].
Qed.

(** X6: two passes of the sanitizer always reach a fixed point, and one pass
    does not always: a control character between two words leaves two
    spaces behind, which the second pass joins. *)
Theorem sanitize_settles_after_two_passes :
  (forall q, sanitize_query (sanitize_query (sanitize_query q))
             = sanitize_query (sanitize_query q))
  /\ sanitize_query control_between_words = "a  b"
  /\ sanitize_query (sanitize_query control_between_words) = "a b".
Proof.
  split; [ | split; reflexivity ].
  intros q. apply sanitize_fixed_on_printable.
  eapply all_chars_impl; [ exact clean_is_printable | apply sanitize_clean_chars ].
Qed.

End Sanitize.

Lemma sanitize_idempotent_on_printable_witness :
  InputValidator.sanitize_query "  what   is
 a monad?	" = "what is a monad?" /\
  InputValidator.sanitize_query (InputValidator.sanitize_query "  what   is
 a monad?	") = InputValidator.sanitize_query "  what   is
 a monad?	".
Proof.
  split.
  - rewrite (proj1 (sanitize_idempotent_on_printable "  what   is
 a monad?	" eq_refl)). reflexivity.
  - exact (proj2 (sanitize_idempotent_on_printable "  what   is
 a monad?	" eq_refl)).
Defined.

(* ================================================================== *)
(** * Scores stay between 0 and 1 *)

Section Scores.
Import PyStr Effects State Spec Props.

Lemma ltb_leb (x y : float) : PrimFloat.ltb x y = true -> PrimFloat.leb x y = true.
Proof.
  rewrite ltb_spec, leb_spec. unfold SFltb, SFleb.
  destruct (SFcompare (Prim2SF x) (Prim2SF y)) as [[ | | ] | ]; congruence.
Qed.

(** Whatever number the model printed, [nan] and the infinities included,
    the clamped value lies between 0 and 1. *)
Lemma clamp01_in_unit_interval (x : float) : in_unit_interval (PyFloat.clamp01 x).
Proof.
  unfold in_unit_interval, PyFloat.clamp01, PyFloat.max, PyFloat.min,
    PyFloat.gt, PyFloat.lt, PyFloat.ge.
  destruct (PrimFloat.ltb x 1) eqn:E1.
  - destruct (PrimFloat.ltb 0 x) eqn:E0.
    + split; apply ltb_leb; assumption.
    + split; reflexivity.
  - split; reflexivity.
Qed.

(** A printed [nan], or any number not below 1, is clamped to 1. *)
Lemma clamp01_not_below_one (x : float) :
  PyFloat.lt x 1.0 = false -> PyFloat.clamp01 x = 1.0%float.
Proof.
  unfold PyFloat.clamp01, PyFloat.max, PyFloat.min, PyFloat.gt, PyFloat.lt.
  intros ->. reflexivity.
Qed.

Variable float_of_str : string -> option float.
Variable config : Config.Config.
Variable W : World.

(** The run of the relevance gate on evidence, read off the model's answer. *)
Lemma score_relevance_run (q : string) (documents : list Document) (w : world_state W) :
  documents <> [] ->
  run W (RelevanceScorer.score_relevance float_of_str config q documents) w
  = (match gate_reading float_of_str
             (Config.relevance_threshold (Config.guardrails config))
             (fst (answer W _ (LLMInvoke (relevance_prompt q documents)) w)) with
     | Returned (x, b) => Returned (RelevanceScorer.mkRelevance x b)
     | Raised e => Raised e
     end,
     snd (answer W _ (LLMInvoke (relevance_prompt q documents)) w),
     [llm_call (relevance_prompt q documents)]).
Proof.
  intros Hne. unfold RelevanceScorer.score_relevance.
  destruct documents as [ | d ds]; [ congruence | ].
  fold (relevance_prompt q (d :: ds)). unfold llm_invoke.
  rewrite run_try_except, run_bind, run_call.
  destruct (answer W _ (LLMInvoke (relevance_prompt q (d :: ds))) w) as [[text | e] w'];
    cbn [fst snd gate_reading].
  - rewrite run_bind. unfold PyFloat.to_float.
    destruct (float_of_str (strip text)) as [x | ]; reflexivity.
  - unfold value_or_attribute_error. destruct (exn_class_of e); reflexivity.
Qed.

(** The run of the groundedness gate on a retrieval answer with context. *)
Lemma check_grounding_run (q response context source_type : string) (w : world_state W) :
  HallucinationDetector.skips_check source_type = false ->
  context <> "" ->
  run W (HallucinationDetector.check_grounding float_of_str config q response
           (Some context) source_type) w
  = (match gate_reading float_of_str
             (Config.hallucination_threshold (Config.guardrails config))
             (fst (answer W _ (LLMInvoke (grounding_prompt q context response)) w)) with
     | Returned (x, b) => Returned (HallucinationDetector.mkGrounding b x)
     | Raised e => Raised e
     end,
     snd (answer W _ (LLMInvoke (grounding_prompt q context response)) w),
     [llm_call (grounding_prompt q context response)]).
Proof.
  intros Hs Hne. unfold HallucinationDetector.check_grounding. rewrite Hs.
  destruct context as [ | c0 context]; [ congruence | ].
  fold (grounding_prompt q (String c0 context) response). unfold llm_invoke.
  rewrite run_try_except, run_bind, run_call.
  destruct (answer W _ (LLMInvoke (grounding_prompt q (String c0 context) response)) w)
    as [[text | e] w']; cbn [fst snd gate_reading].
  - rewrite run_bind. unfold PyFloat.to_float.
    destruct (float_of_str (strip text)) as [x | ]; reflexivity.
  - unfold value_or_attribute_error. destruct (exn_class_of e); reflexivity.
Qed.

Lemma gate_reading_bounded (threshold : float) (ans : reply string) (x : float) (b : bool) :
  gate_reading float_of_str threshold ans = Returned (x, b) -> in_unit_interval x.
Proof.
  unfold gate_reading. intros H.
  destruct ans as [text | e].
  - destruct (float_of_str (strip text)) as [y | ]; injection H as <- _.
    + apply clamp01_in_unit_interval.
    + split; reflexivity.
  - destruct (exn_class_of e); try discriminate; injection H as <- _; split; reflexivity.
Qed.

(** X7: whenever the relevance gate returns, its score lies between 0 and
    1, whatever the model printed ([nan], infinities and negative numbers
    included) and whatever the threshold. *)
Theorem relevance_score_in_unit_interval
    (q : string) (documents : list Document) (w w' : world_state W)
    (r : RelevanceScorer.Relevance) (calls : list made) :
  run W (RelevanceScorer.score_relevance float_of_str config q documents) w
  = (Returned r, w', calls) ->
  in_unit_interval (RelevanceScorer.score r).
Proof.
  destruct documents as [ | d ds].
  - cbn. intros H. injection H as <- _ _. split; reflexivity.
  - rewrite score_relevance_run by discriminate.
    destruct (gate_reading float_of_str _ _) as [[x b] | e] eqn:E; [ | discriminate ].
    intros H. injection H as <- _ _. cbn.
    exact (gate_reading_bounded _ _ _ _ E).
Qed.

(** X8: whenever the groundedness gate returns, its confidence lies between
    0 and 1, on every branch: the skipped check, the missing context, the
    fail-open default and the clamped number. *)
Theorem grounding_confidence_in_unit_interval
    (q response : string) (context : option string) (source_type : string)
    (w w' : world_state W) (g : HallucinationDetector.Grounding) (calls : list made) :
  run W (HallucinationDetector.check_grounding float_of_str config q response
           context source_type) w
  = (Returned g, w', calls) ->
  in_unit_interval (HallucinationDetector.confidence g).
Proof.
  destruct (HallucinationDetector.skips_check source_type) eqn:Hs.
  { unfold HallucinationDetector.check_grounding. rewrite Hs. cbn.
    intros H. injection H as <- _ _. split; reflexivity. }
  destruct context as [[ | c0 context] | ].
  - unfold HallucinationDetector.check_grounding. rewrite Hs. cbn.
    intros H. injection H as <- _ _. split; reflexivity.
  - rewrite check_grounding_run by (assumption || discriminate).
    destruct (gate_reading float_of_str _ _) as [[x b] | e] eqn:E; [ | discriminate ].
    intros H. injection H as <- _ _. cbn.
    exact (gate_reading_bounded _ _ _ _ E).
  - unfold HallucinationDetector.check_grounding. rewrite Hs. cbn.
    intros H. injection H as <- _ _. split; reflexivity.
Qed.

(** X9: when the model's answer to the relevance prompt parses to a number
    that is not below 1 ([nan] is one: every comparison with it is false),
    the gate scores the evidence 1.0, and relevant exactly when the
    threshold is at most 1.0. *)
Theorem unbounded_reading_scores_one
    (q : string) (documents : list Document) (w : world_state W) (text : string) (x : float) :
  documents <> [] ->
  fst (answer W _ (LLMInvoke (relevance_prompt q documents)) w) = Returned text ->
  float_of_str (strip text) = Some x ->
  PyFloat.lt x 1.0 = false ->
  outcome (run W (RelevanceScorer.score_relevance float_of_str config q documents) w)
  = Returned (RelevanceScorer.mkRelevance 1.0
                (PyFloat.ge 1.0 (Config.relevance_threshold (Config.guardrails config)))).
Proof.
  intros Hne Ha Hx Hlt.
  rewrite score_relevance_run by exact Hne.
  unfold outcome. cbn [fst]. rewrite Ha. cbn [gate_reading]. rewrite Hx.
  rewrite (clamp01_not_below_one x Hlt). reflexivity.
Qed.

(** X10: the groundedness gate fails open.  For a retrieval answer whose
    evidence text is not empty, when the model's reply is not a number or the call raises
    ValueError or AttributeError, the gate answers grounded with confidence
    0.5, whatever the threshold, and the node leaves the response as it is. *)
Theorem unreadable_grounding_defaults_to_grounded
    (s : AgentState) (w : world_state W) :
  source_type s = "rag" ->
  join (nl ++ nl) (map page_content (firstn 3 (retrieved_documents s))) <> "" ->
  score_unreadable float_of_str
    (fst (answer W _ (LLMInvoke (grounding_prompt (query s)
            (join (nl ++ nl) (map page_content (firstn 3 (retrieved_documents s))))
            (response s))) w)) ->
  run W (AgentNodes.hallucination_check_node float_of_str config s) w
  = (Returned (set_grounding_confidence 0.5 (set_is_grounded true s)),
     snd (answer W _ (LLMInvoke (grounding_prompt (query s)
            (join (nl ++ nl) (map page_content (firstn 3 (retrieved_documents s))))
            (response s))) w),
     [llm_call (grounding_prompt (query s)
            (join (nl ++ nl) (map page_content (firstn 3 (retrieved_documents s))))
            (response s))]).
Proof.
  intros Hst Hctx Hun.
  unfold AgentNodes.hallucination_check_node. rewrite Hst.
  cbn [String.eqb Ascii.eqb Bool.eqb].
  rewrite run_bind, check_grounding_run by (reflexivity || exact Hctx).
  unfold score_unreadable in Hun.
  destruct (answer W _ (LLMInvoke _) w) as [[text | e] w']; cbn [fst snd] in *.
  - cbn [gate_reading]. rewrite Hun. reflexivity.
  - cbn [gate_reading]. destruct Hun as [-> | ->]; reflexivity.
Qed.

End Scores.

Lemma relevance_score_in_unit_interval_witness :
  Props.in_unit_interval
    (RelevanceScorer.score (RelevanceScorer.mkRelevance 1.0 true)).
Proof.
  exact (relevance_score_in_unit_interval Worlds.float_literals Config.default
           (Worlds.scripted (Effects.Returned []) (Effects.Returned 3%Z) (Effects.Returned None))
           "how long is the warranty" [Worlds.a_document]
           (Worlds.mkScript [Effects.Returned "nan"] 0%float)
           (Worlds.mkScript [] 0%float)
           (RelevanceScorer.mkRelevance 1.0 true)
           [Spec.llm_call (Spec.relevance_prompt "how long is the warranty" [Worlds.a_document])]
           eq_refl).
Defined.

Lemma grounding_confidence_in_unit_interval_witness :
  Props.in_unit_interval
    (HallucinationDetector.confidence (HallucinationDetector.mkGrounding true 1.0)).
Proof.
  exact (grounding_confidence_in_unit_interval Worlds.float_literals Config.default
           (Worlds.scripted (Effects.Returned []) (Effects.Returned 3%Z) (Effects.Returned None))
           "how long is the warranty" "Two years."
           (Some "The warranty lasts two years.") "rag"
           (Worlds.mkScript [Effects.Returned "nan"] 0%float)
           (Worlds.mkScript [] 0%float)
           (HallucinationDetector.mkGrounding true 1.0)
           [Spec.llm_call (Props.grounding_prompt "how long is the warranty"
                             "The warranty lasts two years." "Two years.")]
           eq_refl).
Defined.

Lemma unbounded_reading_scores_one_witness :
  Effects.outcome
    (Effects.run
       (Worlds.scripted (Effects.Returned []) (Effects.Returned 3%Z) (Effects.Returned None))
       (RelevanceScorer.score_relevance Worlds.float_literals Config.default
          "how long is the warranty" [Worlds.a_document])
       (Worlds.mkScript [Effects.Returned "nan"] 0%float))
  = Effects.Returned (RelevanceScorer.mkRelevance 1.0 true).
Proof.
  exact (unbounded_reading_scores_one Worlds.float_literals Config.default
           (Worlds.scripted (Effects.Returned []) (Effects.Returned 3%Z) (Effects.Returned None))
           "how long is the warranty" [Worlds.a_document]
           (Worlds.mkScript [Effects.Returned "nan"] 0%float) "nan" nan
           ltac:(discriminate) eq_refl eq_refl eq_refl).
Defined.

Lemma unreadable_grounding_defaults_to_grounded_witness :
  Effects.outcome
    (Effects.run
       (Worlds.scripted (Effects.Returned []) (Effects.Returned 3%Z) (Effects.Returned None))
       (AgentNodes.hallucination_check_node Worlds.float_literals Config.default
          (State.set_source_type "rag"
             (State.set_response "Two years."
                (State.set_retrieved_documents [Worlds.a_document]
                   (AgentGraph.initial_state_of "how long is the warranty" 3%Z)))))
       (Worlds.mkScript [Effects.Returned "fully supported"] 0%float))
  = Effects.Returned
      (State.set_grounding_confidence 0.5
         (State.set_is_grounded true
            (State.set_source_type "rag"
               (State.set_response "Two years."
                  (State.set_retrieved_documents [Worlds.a_document]
                     (AgentGraph.initial_state_of "how long is the warranty" 3%Z)))))).
Proof.
  rewrite (unreadable_grounding_defaults_to_grounded Worlds.float_literals Config.default
             (Worlds.scripted (Effects.Returned []) (Effects.Returned 3%Z)
                (Effects.Returned None))
             (State.set_source_type "rag"
                (State.set_response "Two years."
                   (State.set_retrieved_documents [Worlds.a_document]
                      (AgentGraph.initial_state_of "how long is the warranty" 3%Z))))
             (Worlds.mkScript [Effects.Returned "fully supported"] 0%float)
             eq_refl ltac:(discriminate) eq_refl).
  reflexivity.
Defined.

(* ================================================================== *)
(** * What each node does to the state *)

Section NodeEffects.
Import PyStr Effects State Spec Props.
Variable float_of_str : string -> option float.
Variable config : Config.Config.
Variable W : World.

Lemma parse_analysis_cases (content : string) :
  (exists intent conf, AgentNodes.parse_analysis float_of_str content = Ret (intent, conf)) \/
  (exists e, AgentNodes.parse_analysis float_of_str content = Raise e).
Proof.
  unfold AgentNodes.parse_analysis.
  destruct (first_line_cases "Category:" content) as [[l1 ->] | ->]; cbn [bind]; [ | eauto ].
  destruct (first_line_cases "Confidence:" content) as [[l2 ->] | ->]; cbn [bind]; [ | eauto ].
  destruct (second_field_cases l1) as [[f1 ->] | ->]; cbn [bind]; [ | eauto ].
  destruct (second_field_cases l2) as [[f2 ->] | ->]; cbn [bind]; [ | eauto ].
  unfold PyFloat.to_float. destruct (float_of_str (strip f2)); cbn [bind]; eauto.
Qed.

Lemma analysis_effect (s s' : AgentState) (w w' : world_state W) (c : list made) :
  run W (AgentNodes.query_analysis_node float_of_str s) w = (Returned s', w', c) ->
  node_effect AgentGraph.n_query_analysis s s'.
Proof.
  unfold AgentNodes.query_analysis_node, llm_invoke.
  rewrite run_try_except, run_bind, run_call.
  destruct (answer W _ (LLMInvoke (AgentNodes.analysis_prompt (query s))) w)
    as [[content | e] w1]; cbn [fst snd].
  - rewrite run_bind.
    destruct (parse_analysis_cases content) as [(i & x & ->) | (e & ->)]; cbn.
    + intros H. injection H as <- _ _. constructor.
    + intros H. injection H as <- _ _. constructor.
  - cbn. intros H. injection H as <- _ _. constructor.
Qed.

Lemma set_same_selected_tool (s : AgentState) : set_selected_tool (selected_tool s) s = s.
Proof. destruct s. reflexivity. Qed.

Lemma router_effect (s s' : AgentState) :
  AgentNodes.router_node s = Ret s' -> node_effect AgentGraph.n_router s s'.
Proof.
  unfold AgentNodes.router_node. intros H. injection H as <-.
  assert (Hkeep : node_effect AgentGraph.n_router s
                    (set_attempted_tools (attempted_tools s ++ [selected_tool s])%list s)).
  { rewrite <- (set_same_selected_tool s) at 3. constructor. left. reflexivity. }
  assert (Htool : forall t, a_tool (Some t) ->
            node_effect AgentGraph.n_router s
              (set_attempted_tools
                 (attempted_tools (set_selected_tool (Some t) s)
                  ++ [selected_tool (set_selected_tool (Some t) s)])%list
                 (set_selected_tool (Some t) s))).
  { intros t Ht. cbn [attempted_tools selected_tool set_selected_tool].
    apply (eff_router s (Some t)). right. exact Ht. }
  unfold a_tool in Htool.
  destruct ((0 <? doc_count s)%Z && negb (AgentNodes.intent_is (query_intent s) "search")),
    (PyFloat.ge (confidence s) 0.7),
    (AgentNodes.intent_is (query_intent s) "document"),
    (AgentNodes.intent_is (query_intent s) "knowledge"),
    (AgentNodes.intent_is (query_intent s) "search");
    try exact Hkeep; apply Htool; auto.
Qed.

(** The retrieval tool never raises; it hands on the pairs of the search,
    unzipped, with one source per pair. *)
Lemma rag_tool_run (q : string) (w : world_state W) :
  exists results w' calls,
    run W (AgentTools.rag_tool config q) w
    = (Returned
         (AgentTools.mkRagResult (map fst results) (map snd results)
            (map (fun ds : Document * float =>
                    DocumentSource (dict_get (metadata (fst ds)) "source_file" "Unknown")
                      (dict_get (metadata (fst ds)) "page" "N/A") (snd ds)
                      (take 200 (page_content (fst ds)))) results)
            (0 <? List.length (map fst results)) None),
       w', calls).
Proof.
  unfold AgentTools.rag_tool, ChromaManager.similarity_search_with_score.
  rewrite run_try_except, run_bind, run_try_except, run_bind, run_call.
  destruct (answer W _ (VectorSearch q (ChromaManager.k_or_default config None) None) w)
    as [[results | e] w'].
  - cbn [fst snd run any_exception app].
    eexists (List.filter _ results), _, _.
    f_equal. f_equal. f_equal. f_equal.
    apply map_ext. intros [d x]. reflexivity.
  - cbn [fst snd run any_exception app].
    exists [], w'. eexists. reflexivity.
Qed.

Lemma rag_effect (s s' : AgentState) (w w' : world_state W) (c : list made) :
  run W (AgentNodes.rag_node config s) w = (Returned s', w', c) ->
  node_effect AgentGraph.n_rag s s'.
Proof.
  unfold AgentNodes.rag_node. rewrite run_bind.
  destruct (rag_tool_run (query s) w) as (results & w1 & c1 & ->).
  cbn [run AgentTools.rag_documents AgentTools.rag_sources AgentTools.rag_success].
  intros H. injection H as <- _ _.
  destruct results as [ | r results].
  - cbn. constructor.
  - cbn [map List.length Nat.ltb Nat.leb negb]. constructor.
    + discriminate.
    + cbn. rewrite !length_map. reflexivity.
Qed.

Lemma llm_effect (s s' : AgentState) (w w' : world_state W) (c : list made) :
  run W (AgentNodes.llm_node s) w = (Returned s', w', c) ->
  node_effect AgentGraph.n_llm s s'.
Proof.
  destruct (answer W _ (LLMInvoke (AgentTools.llm_tool_prompt (query s))) w)
    as [[text | e] w1] eqn:E.
  - rewrite (llm_node_answered W s w w1 text E).
    intros H. injection H as <- _ _. constructor.
  - rewrite (llm_node_failed W s w w1 e E).
    intros H. injection H as <- _ _. constructor.
Qed.

(** The web search never raises and keeps at most five results. *)
Lemma search_with_metadata_run (q : string) (w : world_state W) :
  exists hits w' calls,
    run W (SerperClient.search_with_metadata q) w = (Returned hits, w', calls) /\
    List.length hits <= 5.
Proof.
  unfold SerperClient.search_with_metadata.
  rewrite run_try_except, run_bind, run_call.
  destruct (answer W _ (SerperResults q) w) as [[results | e] w'];
    cbn [fst snd run any_exception app].
  - eexists _, _, _. split; [ reflexivity | ].
    rewrite length_map. apply firstn_le_length.
  - exists [], w'. eexists. split; [ reflexivity | cbn; lia ].
Qed.

Lemma search_tool_run (q : string) (w : world_state W) :
  exists hits w' calls,
    run W (AgentTools.search_tool q) w
    = (Returned
         (AgentTools.mkSearchResult hits
            (join (nl ++ nl) (map (fun r => title r ++ ": " ++ snippet r) hits))
            (map (fun r => InternetSearchSource (title r) (link r) (snippet r)) hits)
            (0 <? List.length hits) None),
       w', calls) /\
    List.length hits <= 5.
Proof.
  unfold AgentTools.search_tool.
  rewrite run_try_except, run_bind.
  destruct (search_with_metadata_run q w) as (hits & w' & calls & -> & Hlen).
  cbn [run]. eexists _, _, _. split; [ reflexivity | exact Hlen ].
Qed.

Lemma search_effect (s s' : AgentState) (w w' : world_state W) (c : list made) :
  run W (AgentNodes.search_node s) w = (Returned s', w', c) ->
  node_effect AgentGraph.n_search s s'.
Proof.
  unfold AgentNodes.search_node. rewrite run_bind.
  destruct (search_tool_run (query s) w) as (hits & w1 & c1 & -> & _).
  cbn [AgentTools.search_success AgentTools.search_results_of AgentTools.search_sources
       AgentTools.search_context].
  destruct hits as [ | h hits].
  - cbn. intros H. injection H as <- _ _. apply eff_search_empty.
  - cbn [List.length Nat.ltb Nat.leb]. unfold llm_invoke.
    rewrite run_try_except, run_bind, run_call.
    set (srcs := map (fun r => InternetSearchSource (title r) (link r) (snippet r)) (h :: hits)).
    assert (Hlen : List.length srcs = List.length (h :: hits))
      by (unfold srcs; apply length_map).
    destruct (answer W _ (LLMInvoke _) w1) as [[text | e] w2]; cbn [fst snd run any_exception].
    + intros H. injection H as <- _ _. apply eff_search_answered; [ discriminate | exact Hlen ].
    + intros H. injection H as <- _ _. apply eff_search_unanswered; [ discriminate | exact Hlen ].
Qed.

Lemma relevance_effect (s s' : AgentState) (w w' : world_state W) (c : list made) :
  run W (AgentNodes.relevance_check_node float_of_str config s) w = (Returned s', w', c) ->
  node_effect AgentGraph.n_relevance_check s s'.
Proof.
  unfold AgentNodes.relevance_check_node.
  destruct (retrieved_documents s) as [ | d ds] eqn:Ed.
  - cbn. intros H. injection H as <- _ _. constructor. exact Ed.
  - rewrite run_bind, (score_relevance_run float_of_str config W) by discriminate.
    destruct (gate_reading float_of_str _ _) as [[x b] | e] eqn:E; [ | discriminate ].
    pose proof (gate_reading_bounded float_of_str _ _ _ _ E) as Hx.
    cbn [run RelevanceScorer.is_relevant RelevanceScorer.score].
    intros H. injection H as <- _ _.
    destruct b; cbn [negb]; constructor; (rewrite Ed; discriminate) || exact Hx.
Qed.

Lemma synthesis_effect (s s' : AgentState) (w w' : world_state W) (c : list made) :
  run W (AgentNodes.response_synthesis_node s) w = (Returned s', w', c) ->
  node_effect AgentGraph.n_response_synthesis s s'.
Proof.
  unfold AgentNodes.response_synthesis_node.
  destruct (retrieved_documents s) as [ | d ds] eqn:Ed.
  - cbn. intros H. injection H as <- _ _. constructor. exact Ed.
  - unfold llm_invoke. rewrite run_try_except, run_bind, run_call.
    destruct (answer W _ (LLMInvoke _) w) as [[text | e] w1]; cbn [fst snd run any_exception].
    + intros H. injection H as <- _ _. constructor. rewrite Ed. discriminate.
    + intros H. injection H as <- _ _. constructor. rewrite Ed. discriminate.
Qed.

Lemma skips_check_true (st : string) :
  HallucinationDetector.skips_check st = true -> st = "llm" \/ st = "search".
Proof.
  unfold HallucinationDetector.skips_check. cbn [existsb]. intros H.
  apply orb_true_iff in H as [H | H]; [ left; apply String.eqb_eq; exact H | ].
  apply orb_true_iff in H as [H | H]; [ right; apply String.eqb_eq; exact H | discriminate ].
Qed.

Lemma skips_check_false (st : string) :
  HallucinationDetector.skips_check st = false -> st <> "llm" /\ st <> "search".
Proof.
  unfold HallucinationDetector.skips_check. cbn [existsb]. intros H.
  apply orb_false_iff in H as [H1 H]. apply orb_false_iff in H as [H2 _].
  apply String.eqb_neq in H1, H2. split; assumption.
Qed.

Lemma grounding_effect (s s' : AgentState) (w w' : world_state W) (c : list made) :
  run W (AgentNodes.hallucination_check_node float_of_str config s) w = (Returned s', w', c) ->
  node_effect AgentGraph.n_hallucination_check s s'.
Proof.
  unfold AgentNodes.hallucination_check_node. rewrite run_bind.
  destruct (HallucinationDetector.skips_check (source_type s)) eqn:Hs.
  { unfold HallucinationDetector.check_grounding. rewrite Hs. cbn.
    intros H. injection H as <- _ _. constructor. apply skips_check_true, Hs. }
  destruct (skips_check_false _ Hs) as [Hl Hse].
  destruct (String.eqb (source_type s) "rag") eqn:Er.
  - apply String.eqb_eq in Er. fold (evidence_text s).
    destruct (evidence_text s) as [ | c0 txt] eqn:Et.
    + unfold HallucinationDetector.check_grounding. rewrite Hs. cbn.
      intros H. injection H as <- _ _. constructor; auto.
    + rewrite (check_grounding_run float_of_str config W) by (assumption || discriminate).
      destruct (gate_reading float_of_str _ _) as [[x b] | e] eqn:E; [ | discriminate ].
      pose proof (gate_reading_bounded float_of_str _ _ _ _ E) as Hx.
      cbn [run HallucinationDetector.is_grounded HallucinationDetector.confidence].
      intros H. injection H as <- _ _.
      destruct b; cbn [negb].
      * apply eff_grounding_rated; [ exact Er | rewrite Et; discriminate | exact Hx ].
      * apply eff_grounding_rated_low; [ exact Er | rewrite Et; discriminate | exact Hx ].
  - apply String.eqb_neq in Er.
    unfold HallucinationDetector.check_grounding. rewrite Hs. cbn.
    intros H. injection H as <- _ _. constructor; auto.
Qed.

Lemma node_effect_sound
    (n : AgentGraph.node) (s s' : AgentState) (w w' : world_state W) (c : list made) :
  run W (AgentGraph.node_fn float_of_str config n s) w = (Returned s', w', c) ->
  node_effect n s s'.
Proof.
  destruct n; cbn [AgentGraph.node_fn].
  - unfold AgentNodes.input_validation_node. cbn [run].
    intros H. injection H as <- _ _. constructor.
  - apply analysis_effect.
  - destruct (router_appends_selection s) as (s1 & E & _). rewrite E. cbn [run].
    intros H. injection H as <- _ _. apply router_effect. exact E.
  - apply rag_effect.
  - apply llm_effect.
  - apply search_effect.
  - apply relevance_effect.
  - apply synthesis_effect.
  - apply grounding_effect.
Qed.

(** X11: whenever a node of the graph returns, the state it hands on is the
    state it received with only that node's keys rewritten, in one of the
    ways [node_effect] lists: retrieval stores the passages with one source
    each and asks for a fallback exactly when there are none, the knowledge
    and search nodes set the source type only with an answer, and so on. *)
Theorem node_writes_only_its_keys
    (n : AgentGraph.node) (s s' : AgentState) (w w' : world_state W) (c : list made) :
  run W (AgentGraph.node_fn float_of_str config n s) w = (Returned s', w', c) ->
  node_effect n s s'.
Proof.
  exact (node_effect_sound n s s' w w' c).
Qed.

End NodeEffects.

(* ================================================================== *)
(** * Runs of the graph *)

Section GraphRuns.
Import PyStr Effects State Spec Props.
Variable float_of_str : string -> option float.
Variable config : Config.Config.
Variable W : World.

Ltac settle_router t :=
  first [ left; split; reflexivity
        | right; left; split; reflexivity
        | right; right; left; split; reflexivity
        | right; right; right; eexists; reflexivity
        | destruct t as [ | [[] [] [] [] [] [] [] []] t]; settle_router t ].

(** The edge out of the router: one of the three tools, or KeyError. *)
Lemma router_edge (s : AgentState) :
  (selected_tool s = Some "rag" /\ AgentGraph.edge AgentGraph.n_router s
                                   = Returned (Some AgentGraph.n_rag)) \/
  (selected_tool s = Some "llm" /\ AgentGraph.edge AgentGraph.n_router s
                                   = Returned (Some AgentGraph.n_llm)) \/
  (selected_tool s = Some "search" /\ AgentGraph.edge AgentGraph.n_router s
                                      = Returned (Some AgentGraph.n_search)) \/
  (exists e, AgentGraph.edge AgentGraph.n_router s = Raised e).
Proof.
  unfold AgentGraph.edge.
  destruct (selected_tool s) as [t | ]; [ | right; right; right; eexists; reflexivity ].
  settle_router t.
Qed.

Lemma edge_rank (n n' : AgentGraph.node) (s : AgentState) :
  AgentGraph.edge n s = Returned (Some n') -> rank n' < rank n.
Proof.
  destruct n.
  - cbn [AgentGraph.edge]. destruct (negb (is_valid s)); intros H; inversion H. cbn. lia.
  - cbn [AgentGraph.edge]. intros H; inversion H. cbn. lia.
  - destruct (router_edge s) as [[_ ->] | [[_ ->] | [[_ ->] | [e ->]]]];
      intros H; inversion H; cbn; lia.
  - cbn [AgentGraph.edge]. intros H; inversion H. cbn. lia.
  - cbn [AgentGraph.edge]. intros H; inversion H. cbn. lia.
  - cbn [AgentGraph.edge]. intros H; inversion H. cbn. lia.
  - cbn [AgentGraph.edge]. destruct (is_relevant s); intros H; inversion H; cbn; lia.
  - cbn [AgentGraph.edge]. intros H; inversion H. cbn. lia.
  - cbn [AgentGraph.edge]. intros H; inversion H.
Qed.

Lemma rank_positive (n : AgentGraph.node) : 1 <= rank n.
Proof. destruct n; cbn; lia. Qed.

Lemma run_from_step (steps : nat) (n : AgentGraph.node) (s : AgentState) :
  AgentGraph.run_from float_of_str config (S steps) n s
  = bind (AgentGraph.node_fn float_of_str config n s)
      (fun s' =>
         match AgentGraph.edge n s' with
         | Raised e => Raise e
         | Returned None => Ret s'
         | Returned (Some n') => AgentGraph.run_from float_of_str config steps n' s'
         end).
Proof. reflexivity. Qed.

(** With enough steps for the longest path from [n], the number of steps
    allowed makes no difference. *)
Lemma run_from_enough_steps (k : nat) :
  forall m n s w,
    rank n <= k -> rank n <= m ->
    run W (AgentGraph.run_from float_of_str config k n s) w
    = run W (AgentGraph.run_from float_of_str config m n s) w.
Proof.
  induction k as [ | k IH]; intros m n s w Hk Hm.
  - pose proof (rank_positive n). lia.
  - destruct m as [ | m]; [ pose proof (rank_positive n); lia | ].
    rewrite !run_from_step, !run_bind.
    destruct (run W (AgentGraph.node_fn float_of_str config n s) w) as [[[s1 | e] w1] c1];
      [ | reflexivity ].
    destruct (AgentGraph.edge n s1) as [[n' | ] | e] eqn:Ee; try reflexivity.
    apply edge_rank in Ee.
    rewrite (IH m n' s1 w1) by lia. reflexivity.
Qed.

(** X12: the engine's limit of 25 steps never decides a run: in every world
    and from every state, any limit of at least 7 steps gives the run of
    the default limit, outcome, world and calls alike. *)
Theorem step_limit_never_reached (m : nat) (s : AgentState) (w : world_state W) :
  7 <= m ->
  run W (AgentGraph.run_from float_of_str config m AgentGraph.n_input_validation s) w
  = run W (AgentGraph.graph_invoke float_of_str config s) w.
Proof.
  intros Hm. unfold AgentGraph.graph_invoke, AgentGraph.RECURSION_LIMIT.
  apply run_from_enough_steps; cbn; lia.
Qed.

(** A property established at each node and kept along each edge holds at
    the end of every run that returns. *)
Lemma run_from_inv (Inv : AgentGraph.node -> AgentState -> Prop) (Post : AgentState -> Prop) :
  (forall n s s' n', Inv n s -> node_effect n s s' ->
                     AgentGraph.edge n s' = Returned (Some n') -> Inv n' s') ->
  (forall n s s', Inv n s -> node_effect n s s' ->
                  AgentGraph.edge n s' = Returned None -> Post s') ->
  forall k n s w s' w' c,
    Inv n s ->
    run W (AgentGraph.run_from float_of_str config k n s) w = (Returned s', w', c) ->
    Post s'.
Proof.
  intros Hstep Hend. induction k as [ | k IH]; intros n s w s' w' c Hinv.
  - cbn. discriminate.
  - rewrite run_from_step, run_bind.
    destruct (run W (AgentGraph.node_fn float_of_str config n s) w) as [[[s1 | e] w1] c1] eqn:En;
      [ | discriminate ].
    apply (node_effect_sound float_of_str config W) in En.
    destruct (AgentGraph.edge n s1) as [[n' | ] | e] eqn:Ee.
    + destruct (run W (AgentGraph.run_from float_of_str config k n' s1) w1)
        as [[r w2] c2] eqn:Er.
      intros H. injection H as -> _ _.
      exact (IH n' s1 w1 s' w2 c2 (Hstep n s s1 n' Hinv En Ee) Er).
    + cbn [run]. intros H. injection H as <- _ _.
      exact (Hend n s s1 Hinv En Ee).
    + cbn [run]. discriminate.
Qed.

Lemma effect_keeps_query (n : AgentGraph.node) (s s' : AgentState) :
  node_effect n s s' -> query s' = query s /\ doc_count s' = doc_count s.
Proof. intros H. destruct H; split; reflexivity. Qed.

Lemma run_from_keeps_query (k : nat) (n : AgentGraph.node) (s s' : AgentState)
      (w w' : world_state W) (c : list made) :
  run W (AgentGraph.run_from float_of_str config k n s) w = (Returned s', w', c) ->
  query s' = query s /\ doc_count s' = doc_count s.
Proof.
  apply (run_from_inv (fun _ s0 => query s0 = query s /\ doc_count s0 = doc_count s)
           (fun s0 => query s0 = query s /\ doc_count s0 = doc_count s)).
  - intros n0 s0 s1 n' [Hq Hd] He _.
    destruct (effect_keeps_query _ _ _ He) as [-> ->]. split; assumption.
  - intros n0 s0 s1 [Hq Hd] He _.
    destruct (effect_keeps_query _ _ _ He) as [-> ->]. split; assumption.
  - split; reflexivity.
Qed.

Ltac unpack_reached :=
  repeat match goal with
         | H : _ /\ _ |- _ => destruct H
         | H : fresh _ |- _ => unfold fresh in H
         | H : routed_to _ _ |- _ => unfold routed_to in H
         end.

Lemma reached_step (n n' : AgentGraph.node) (s s' : AgentState) :
  reached n s -> node_effect n s s' ->
  AgentGraph.edge n s' = Returned (Some n') -> reached n' s'.
Proof.
  intros Hr He Hedge.
  destruct He; cbn [reached] in Hr.
  - (* validation *)
    cbn [AgentGraph.edge is_valid set_validation_reason set_is_valid] in Hedge.
    destruct (InputValidator.valid (InputValidator.validate_query (query s))) eqn:Ev;
      cbn [negb] in Hedge; inversion Hedge.
    unpack_reached. cbn. unfold fresh. cbn. auto 10.
  - (* analysis *)
    cbn [AgentGraph.edge] in Hedge. inversion Hedge.
    unpack_reached. cbn. unfold fresh. cbn. auto 10.
  - (* router *)
    unpack_reached.
    destruct (router_edge
                (set_attempted_tools (attempted_tools s ++ [t])%list (set_selected_tool t s)))
      as [[Ht E] | [[Ht E] | [[Ht E] | [e E]]]];
      rewrite E in Hedge; inversion Hedge; subst n';
      cbn [selected_tool set_attempted_tools set_selected_tool] in Ht; subst t;
      cbn; unfold knowledge_path, routed_to; cbn;
      match goal with Ha : attempted_tools s = [] |- _ => rewrite Ha end; cbn; auto 10.
  - (* rag, found *)
    cbn [AgentGraph.edge] in Hedge. inversion Hedge.
    unpack_reached. cbn. unfold routed_to. cbn. auto 10.
  - (* rag, empty *)
    cbn [AgentGraph.edge] in Hedge. inversion Hedge.
    unpack_reached. cbn. unfold routed_to. cbn. auto 10.
  - (* llm, answered *)
    cbn [AgentGraph.edge] in Hedge. inversion Hedge.
    destruct Hr as (Hk & _ & _). cbn. unfold answered. right. left. split; [ | left; reflexivity ].
    unfold knowledge_path, routed_to in *. cbn. exact Hk.
  - (* llm, failed *)
    cbn [AgentGraph.edge] in Hedge. inversion Hedge.
    destruct Hr as (Hk & Hs & Hresp). cbn. unfold answered. right. left.
    split; [ | right; unfold unanswered; cbn; auto ].
    unfold knowledge_path, routed_to in *. cbn. exact Hk.
  - (* search, answered *)
    cbn [AgentGraph.edge] in Hedge. inversion Hedge.
    destruct Hr as (Hk & _ & _). cbn. unfold answered. right. right.
    split; [ | left; reflexivity ]. unfold routed_to in *. cbn. exact Hk.
  - (* search, unanswered *)
    cbn [AgentGraph.edge] in Hedge. inversion Hedge.
    destruct Hr as (Hk & Hs & Hresp). cbn. unfold answered. right. right.
    split; [ | right; unfold unanswered; cbn; auto ]. unfold routed_to in *. cbn. exact Hk.
  - (* search, empty *)
    cbn [AgentGraph.edge] in Hedge. inversion Hedge.
    destruct Hr as (Hk & Hs & Hresp). cbn. unfold answered. right. right.
    split; [ | right; unfold unanswered; cbn; auto ]. unfold routed_to in *. cbn. exact Hk.
  - (* relevance, none *)
    cbn in Hedge. inversion Hedge.
    destruct Hr as (Hk & Hs & Hresp & _). cbn. unfold knowledge_path, routed_to in *. cbn.
    auto 10.
  - (* relevance, yes *)
    cbn in Hedge. inversion Hedge.
    destruct Hr as (Hk & Hs & Hresp & _). cbn. unfold routed_to in *. cbn. auto 10.
  - (* relevance, no *)
    cbn in Hedge. inversion Hedge.
    destruct Hr as (Hk & Hs & Hresp & _). cbn. unfold knowledge_path, routed_to in *. cbn.
    auto 10.
  - (* synthesis without documents: not reached *)
    destruct Hr as (_ & _ & _ & Hd). congruence.
  - (* synthesis, answered *)
    cbn [AgentGraph.edge] in Hedge. inversion Hedge.
    destruct Hr as (Hk & Hs & Hrel & _). cbn. unfold answered. left.
    unfold routed_to in *. cbn. auto 10.
  - (* synthesis, failed *)
    cbn [AgentGraph.edge] in Hedge. inversion Hedge.
    destruct Hr as (Hk & Hs & Hrel & _). cbn. unfold answered. left.
    unfold routed_to in *. cbn. repeat split; try tauto.
    right. repeat split; try assumption. discriminate.
  - cbn [AgentGraph.edge] in Hedge. discriminate.
  - cbn [AgentGraph.edge] in Hedge. discriminate.
  - cbn [AgentGraph.edge] in Hedge. discriminate.
  - cbn [AgentGraph.edge] in Hedge. discriminate.
Qed.

Lemma reached_end (n : AgentGraph.node) (s s' : AgentState) :
  reached n s -> node_effect n s s' ->
  AgentGraph.edge n s' = Returned None -> ended s'.
Proof.
  intros Hr He Hedge. pose proof He as He'.
  destruct He; cbn [reached] in Hr;
    try (cbn [AgentGraph.edge] in Hedge; discriminate);
    try (right; eexists; split; [ exact Hr | exact He' ]).
  - (* validation *)
    left. cbn [AgentGraph.edge is_valid set_validation_reason set_is_valid] in Hedge.
    cbn [is_valid set_validation_reason set_is_valid].
    destruct (InputValidator.valid (InputValidator.validate_query (query s)));
      [ discriminate | reflexivity ].
  - (* router *)
    destruct (router_edge
                (set_attempted_tools (attempted_tools s ++ [t])%list (set_selected_tool t s)))
      as [[_ E] | [[_ E] | [[_ E] | [e E]]]]; rewrite E in Hedge; discriminate.
Qed.

(** Every run of the graph from the state [invoke] creates that returns
    ends rejected, or after the hallucination check on an answered state. *)
Lemma graph_run_ends (q : string) (dc : Z) (s' : AgentState)
      (w w' : world_state W) (c : list made) :
  run W (AgentGraph.graph_invoke float_of_str config (AgentGraph.initial_state_of q dc)) w
  = (Returned s', w', c) ->
  ended s'.
Proof.
  unfold AgentGraph.graph_invoke.
  apply (run_from_inv reached ended).
  - intros n s0 s1 n' Hr He Hedge. exact (reached_step n n' s0 s1 Hr He Hedge).
  - exact reached_end.
  - cbn. unfold fresh. cbn. auto.
Qed.

Lemma grounding_effect_cases (s s' : AgentState) :
  node_effect AgentGraph.n_hallucination_check s s' ->
  (exists x, in_unit_interval x /\ s' = set_grounding_confidence x (set_is_grounded true s) /\
             (source_type s = "llm" \/ source_type s = "search" -> x = 1.0%float) /\
             source_type s <> "") \/
  (exists x, in_unit_interval x /\
             s' = set_response (response s ++ AgentNodes.UNVERIFIED_NOTE)
                    (set_grounding_confidence x (set_is_grounded false s)) /\
             source_type s <> "llm" /\ source_type s <> "search" /\
             (source_type s = "" -> x = 0.0%float)).
Proof.
  intros H. inversion H; subst.
  - left. exists 1.0%float. repeat split; try reflexivity.
    match goal with Hst : _ \/ _ |- _ => destruct Hst as [E | E]; rewrite E; discriminate end.
  - right. exists 0.0%float. repeat split; try reflexivity; assumption.
  - left. exists x. split; [ assumption | ]. split; [ reflexivity | ].
    split; [ intros [E | E]; congruence | congruence ].
  - right. exists x. split; [ assumption | ]. split; [ reflexivity | ].
    repeat split; congruence.
Qed.

(** X13: in every run from the state [invoke] creates that returns with a
    valid query, the router's choice is one of the three tools and
    [attempted_tools] holds exactly that choice, also when the relevance
    gate sent the run on to the knowledge tool: the fallback is not
    recorded. *)
Theorem valid_run_records_one_tool
    (q : string) (dc : Z) (s' : AgentState) (w w' : world_state W) (c : list made) :
  run W (AgentGraph.graph_invoke float_of_str config (AgentGraph.initial_state_of q dc)) w
  = (Returned s', w', c) ->
  is_valid s' = true ->
  exists t, (t = "rag" \/ t = "llm" \/ t = "search") /\
            selected_tool s' = Some t /\ attempted_tools s' = [Some t].
Proof.
  intros Hrun Hv.
  destruct (graph_run_ends q dc s' w w' c Hrun) as [Hf | (s & Ha & He)]; [ congruence | ].
  assert (Hs : exists t, (t = "rag" \/ t = "llm" \/ t = "search") /\
                         selected_tool s = Some t /\ attempted_tools s = [Some t]).
  { unfold answered, knowledge_path, routed_to in Ha.
    destruct Ha as [((_ & Hs & Hat) & _) | [([(_ & Hs & Hat) | ((_ & Hs & Hat) & _)] & _)
                                            | ((_ & Hs & Hat) & _)]]; eauto 10. }
  destruct Hs as (t & Ht & Hs & Hat). exists t. split; [ exact Ht | ].
  destruct (grounding_effect_cases s s' He) as [(x & _ & -> & _) | (x & _ & -> & _)];
    cbn; auto.
Qed.

(** X14: in every such run the source type tells the path taken: [rag]
    only after retrieval judged relevant, [search] only after the search
    tool, [llm] after the knowledge tool, chosen by the router or reached by
    fallback from retrieval; it is empty when the tool or the synthesis
    gave no answer, and it is never [none]. *)
Theorem source_type_tells_the_path
    (q : string) (dc : Z) (s' : AgentState) (w w' : world_state W) (c : list made) :
  run W (AgentGraph.graph_invoke float_of_str config (AgentGraph.initial_state_of q dc)) w
  = (Returned s', w', c) ->
  is_valid s' = true ->
  (source_type s' = "rag" /\ selected_tool s' = Some "rag" /\ is_relevant s' = true) \/
  (source_type s' = "llm" /\
   (selected_tool s' = Some "llm" \/
    (selected_tool s' = Some "rag" /\ is_relevant s' = false))) \/
  (source_type s' = "search" /\ selected_tool s' = Some "search") \/
  (source_type s' = "" /\ (needs_fallback s' = true \/ error s' <> None)).
Proof.
  intros Hrun Hv.
  destruct (graph_run_ends q dc s' w w' c Hrun) as [Hf | (s & Ha & He)]; [ congruence | ].
  assert (Hs :
    (source_type s = "rag" /\ selected_tool s = Some "rag" /\ is_relevant s = true) \/
    (source_type s = "llm" /\
     (selected_tool s = Some "llm" \/
      (selected_tool s = Some "rag" /\ is_relevant s = false))) \/
    (source_type s = "search" /\ selected_tool s = Some "search") \/
    (source_type s = "" /\ (needs_fallback s = true \/ error s <> None))).
  { unfold answered, knowledge_path, routed_to, unanswered in Ha.
    destruct Ha as [((_ & Hs & _) & Hrel & [Hst | (Hst & Herr & _)])
                   | [(Hk & [Hst | (Hst & Hnf & _)]) | ((_ & Hs & _) & [Hst | (Hst & Hnf & _)])]];
      tauto. }
  destruct (grounding_effect_cases s s' He) as [(x & _ & -> & _) | (x & _ & -> & _)];
    cbn; exact Hs.
Qed.

(** X15: in every such run the confidence stored lies between 0 and 1; an
    answer flagged not grounded ends with the caveat note; an answer of
    the knowledge or search tool is stored grounded with confidence 1.0;
    and a run whose tool or synthesis gave no answer is stored not
    grounded with confidence 0.0, its response being the note alone or the
    synthesis error text followed by the note. *)
Theorem end_state_grounding
    (q : string) (dc : Z) (s' : AgentState) (w w' : world_state W) (c : list made) :
  run W (AgentGraph.graph_invoke float_of_str config (AgentGraph.initial_state_of q dc)) w
  = (Returned s', w', c) ->
  is_valid s' = true ->
  in_unit_interval (grounding_confidence s') /\
  (is_grounded s' = false -> exists r, response s' = r ++ AgentNodes.UNVERIFIED_NOTE) /\
  (source_type s' = "llm" \/ source_type s' = "search" ->
   is_grounded s' = true /\ grounding_confidence s' = 1.0%float) /\
  (source_type s' = "" ->
   is_grounded s' = false /\ grounding_confidence s' = 0.0%float /\
   (response s' = AgentNodes.UNVERIFIED_NOTE \/
    response s' = "Error generating response." ++ AgentNodes.UNVERIFIED_NOTE)).
Proof.
  intros Hrun Hv.
  destruct (graph_run_ends q dc s' w w' c Hrun) as [Hf | (s & Ha & He)]; [ congruence | ].
  assert (Hresp : source_type s = "" ->
                  response s = "" \/ response s = "Error generating response.").
  { unfold answered, unanswered in Ha. intros E.
    destruct Ha as [(_ & _ & [Hst | (_ & _ & Hr)])
                   | [(_ & [Hst | (_ & _ & Hr)]) | (_ & [Hst | (_ & _ & Hr)])]];
      try congruence; tauto. }
  destruct (grounding_effect_cases s s' He)
    as [(x & Hx & -> & Hone & Hne) | (x & Hx & -> & Hl & Hse & Hzero)];
    cbn [grounding_confidence is_grounded source_type response
         set_grounding_confidence set_is_grounded set_response].
  - split; [ exact Hx | ]. split; [ discriminate | ].
    split; [ intros H; split; [ reflexivity | exact (Hone H) ] | ].
    intros E. contradiction.
  - split; [ exact Hx | ]. split; [ intros _; eexists; reflexivity | ].
    split; [ intros [E | E]; contradiction | ].
    intros E. split; [ reflexivity | ]. split; [ exact (Hzero E) | ].
    destruct (Hresp E) as [-> | ->]; [ left | right ]; reflexivity.
Qed.

End GraphRuns.

Lemma example_run_returns :
  Effects.run Examples.world
    (AgentGraph.graph_invoke Worlds.float_literals Config.default
       (AgentGraph.initial_state_of "how long is the warranty" 3%Z))
    Examples.script
  = (Effects.Returned Examples.final, snd (fst Examples.graph_run), snd Examples.graph_run).
Proof. vm_compute. reflexivity. Defined.

Lemma step_limit_never_reached_witness :
  Effects.run Examples.world
    (AgentGraph.run_from Worlds.float_literals Config.default 7
       AgentGraph.n_input_validation Examples.start) Examples.script
  = Effects.run Examples.world
      (AgentGraph.graph_invoke Worlds.float_literals Config.default Examples.start)
      Examples.script.
Proof.
  apply (step_limit_never_reached Worlds.float_literals Config.default Examples.world 7
           Examples.start Examples.script).
  apply le_n.
Defined.

Lemma valid_run_records_one_tool_witness :
  exists t, (t = "rag" \/ t = "llm" \/ t = "search") /\
            State.selected_tool Examples.final = Some t /\
            State.attempted_tools Examples.final = [Some t].
Proof.
  exact (valid_run_records_one_tool Worlds.float_literals Config.default Examples.world
           "how long is the warranty" 3%Z Examples.final Examples.script
           (snd (fst Examples.graph_run)) (snd Examples.graph_run)
           example_run_returns eq_refl).
Defined.

Lemma source_type_tells_the_path_witness :
  (State.source_type Examples.final = "rag" /\
   State.selected_tool Examples.final = Some "rag" /\
   State.is_relevant Examples.final = true) \/
  (State.source_type Examples.final = "llm" /\
   (State.selected_tool Examples.final = Some "llm" \/
    (State.selected_tool Examples.final = Some "rag" /\
     State.is_relevant Examples.final = false))) \/
  (State.source_type Examples.final = "search" /\
   State.selected_tool Examples.final = Some "search") \/
  (State.source_type Examples.final = "" /\
   (State.needs_fallback Examples.final = true \/ State.error Examples.final <> None)).
Proof.
  exact (source_type_tells_the_path Worlds.float_literals Config.default Examples.world
           "how long is the warranty" 3%Z Examples.final Examples.script
           (snd (fst Examples.graph_run)) (snd Examples.graph_run)
           example_run_returns eq_refl).
Defined.

Lemma end_state_grounding_witness :
  Props.in_unit_interval (State.grounding_confidence Examples.final).
Proof.
  exact (proj1 (end_state_grounding Worlds.float_literals Config.default Examples.world
                  "how long is the warranty" 3%Z Examples.final Examples.script
                  (snd (fst Examples.graph_run)) (snd Examples.graph_run)
                  example_run_returns eq_refl)).
Defined.

(* ================================================================== *)
(** * The orchestrator, the router and the tools *)

Section Orchestration.
Import PyStr Effects State Spec Props.
Variable float_of_str : string -> option float.
Variable config : Config.Config.
Variable W : World.

Lemma count_run (w : world_state W) :
  run W (try_except ChromaManager.get_collection_count
           (any_exception (fun _ => Ret 0%Z))) w
  = (Returned (count_or_zero (fst (answer W _ CollectionCount w))),
     snd (answer W _ CollectionCount w), [count_call]).
Proof.
  unfold ChromaManager.get_collection_count, call. cbn [try_except run].
  destruct (answer W _ CollectionCount w) as [[dc | e] w']; reflexivity.
Qed.

(** X16: in every world [invoke] returns a state that carries the caller's
    query and, as [doc_count], the collection count read at the start, or
    0 when reading it raised: no stage rewrites either. *)
Theorem invoke_keeps_query_and_count (q : string) (w : world_state W) :
  exists final,
    outcome (run W (AgentGraph.invoke float_of_str config q) w) = Returned final /\
    query final = q /\
    doc_count final
    = count_or_zero (fst (answer W _ CollectionCount (snd (answer W _ Clock w)))).
Proof.
  unfold AgentGraph.invoke.
  rewrite run_bind, run_clock.
  destruct (answer W _ Clock w) as [t0 w1]. cbn [fst snd].
  rewrite run_bind, count_run.
  set (dc := count_or_zero (fst (answer W _ CollectionCount w1))).
  rewrite run_try_except, run_bind.
  destruct (run W (AgentGraph.graph_invoke float_of_str config
                     (AgentGraph.initial_state_of q dc))
              (snd (answer W _ CollectionCount w1))) as [[[result | e] w3] c3] eqn:Eg.
  - unfold AgentGraph.graph_invoke in Eg.
    destruct (run_from_keeps_query float_of_str config W _ _ _ _ _ _ _ Eg) as [Hq Hd].
    rewrite run_bind, run_clock.
    destruct (answer W _ Clock w3) as [t1 w4]. cbn [fst snd run].
    eexists. split; [ reflexivity | ]. cbn. split; assumption.
  - cbn [any_exception]. rewrite run_bind, run_clock.
    destruct (answer W _ Clock w3) as [t1 w4]. cbn [fst snd run].
    eexists. split; [ reflexivity | ]. cbn. split; reflexivity.
Qed.

(** ** The router *)

Lemma intent_is_label (intent : option string) (label : string) :
  AgentNodes.intent_is intent label = true <-> intent = Some label.
Proof.
  destruct intent as [i | ]; cbn; [ rewrite String.eqb_eq | ]; split; congruence.
Qed.

(** X17: on a state that has no tool yet, the router leaves none selected
    exactly when the corpus is empty, the confidence is at least 0.7 and
    the intent is none of the three labels; it then appends [None].  In
    every other case it selects one of the three tools; with a non-empty
    corpus and an intent other than [search] that tool is [rag], whatever
    the confidence. *)
Theorem router_selects_unless_unlabelled (s : AgentState) :
  selected_tool s = None ->
  exists s',
    AgentNodes.router_node s = Ret s' /\
    (selected_tool s' = None <->
     (doc_count s <= 0)%Z /\ PyFloat.ge (confidence s) 0.7 = true /\
     ~ labelled (query_intent s)) /\
    (selected_tool s' <> None -> a_tool (selected_tool s')) /\
    ((0 < doc_count s)%Z -> query_intent s <> Some "search" ->
     selected_tool s' = Some "rag").
Proof.
  intros Hnone. unfold AgentNodes.router_node. eexists. split; [ reflexivity | ].
  unfold labelled, a_tool.
  pose proof (intent_is_label (query_intent s) "search") as Hs.
  pose proof (intent_is_label (query_intent s) "document") as Hd.
  pose proof (intent_is_label (query_intent s) "knowledge") as Hk.
  destruct (0 <? doc_count s)%Z eqn:Ec;
    [ apply Z.ltb_lt in Ec | apply Z.ltb_ge in Ec ];
    destruct (AgentNodes.intent_is (query_intent s) "search") eqn:Es;
    destruct (PyFloat.ge (confidence s) 0.7) eqn:Eg;
    destruct (AgentNodes.intent_is (query_intent s) "document") eqn:Ed;
    destruct (AgentNodes.intent_is (query_intent s) "knowledge") eqn:Ek;
    cbn [andb negb selected_tool set_attempted_tools set_selected_tool];
    try rewrite Hnone;
    (split; [ split; [ try discriminate; intros _ | intros (H1 & H2 & H3) ] | split ]);
    try discriminate; try tauto; try lia; auto 10;
    try (exfalso; apply H3; tauto);
    try (repeat split; try assumption; try lia; intros [H | [H | H]];
         (apply Hd in H || apply Hk in H || apply Hs in H); discriminate);
    try (intros _ H; exfalso; apply H, Hs; reflexivity).
Qed.

(** ** The relevance gate reads three documents *)

(** X18: the relevance gate looks at the first three documents only: the
    program it runs, its prompt and its result are those for the list cut
    after the third document. *)
Theorem relevance_reads_three_documents (q : string) (documents : list Document) :
  RelevanceScorer.score_relevance float_of_str config q documents
  = RelevanceScorer.score_relevance float_of_str config q (firstn 3 documents).
Proof.
  unfold RelevanceScorer.score_relevance.
  rewrite firstn_firstn. cbn [Nat.min].
  destruct documents as [ | d ds]; reflexivity.
Qed.

(** ** The tools *)




(** X20: the search tool never raises.  It keeps at most five results,
    with one source per result, in the same order, carrying its title,
    link and snippet, and it reports success exactly when it kept a
    result; a reply without results, or a failed call, gives none. *)
Theorem search_tool_keeps_five (q : string) (w : world_state W) :
  exists r w' calls,
    run W (AgentTools.search_tool q) w = (Returned r, w', calls) /\
    List.length (AgentTools.search_results_of r) <= 5 /\
    AgentTools.search_sources r
    = map (fun h => InternetSearchSource (title h) (link h) (snippet h))
        (AgentTools.search_results_of r) /\
    (AgentTools.search_success r = true <-> AgentTools.search_results_of r <> []) /\
    (fst (answer W _ (SerperResults q) w) = Returned None \/
     (exists e, fst (answer W _ (SerperResults q) w) = Raised e) ->
     AgentTools.search_results_of r = []).
Proof.
  unfold AgentTools.search_tool, SerperClient.search_with_metadata.
  rewrite run_try_except, run_bind, run_try_except, run_bind, run_call.
  destruct (answer W _ (SerperResults q) w) as [[organic | e] w'];
    cbn [fst snd run any_exception app].
  - eexists _, _, _. split; [ reflexivity | ].
    cbn [AgentTools.search_results_of AgentTools.search_sources AgentTools.search_success].
    split; [ rewrite length_map; apply firstn_le_length | ].
    split; [ reflexivity | ]. split.
    + destruct (map _ (firstn 5 _)); cbn; split; congruence.
    + intros [H | [e H]]; [ injection H as -> | discriminate ]. reflexivity.
  - eexists _, _, _. split; [ reflexivity | ].
    cbn. repeat split; try lia; try congruence.
Qed.

End Orchestration.

Lemma router_selects_unless_unlabelled_witness :
  exists s',
    AgentNodes.router_node (AgentGraph.initial_state_of "what is a monad" 0%Z)
    = Effects.Ret s' /\
    State.selected_tool s' = Some "rag".
Proof.
  destruct (router_selects_unless_unlabelled
              (AgentGraph.initial_state_of "what is a monad" 0%Z) eq_refl)
    as (s' & Hrun & _ & _ & _).
  exists s'. split; [ exact Hrun | ].
  injection Hrun as <-. reflexivity.
Defined.

(* ================================================================== *)
(** * The calls a run makes *)

Section CallBudget.
Import PyStr Effects State Spec Props.
Variable float_of_str : string -> option float.
Variable config : Config.Config.
Variable W : World.

Lemma llm_count_app (a b : list made) : llm_count (a ++ b) = llm_count a + llm_count b.
Proof. unfold llm_count. rewrite filter_app, length_app. reflexivity. Qed.

(** The calls of one node. *)
Lemma node_calls (n : AgentGraph.node) (s : AgentState) (w : world_state W) :
  llm_count (snd (run W (AgentGraph.node_fn float_of_str config n s) w)) <= llm_cost n /\
  List.length (snd (run W (AgentGraph.node_fn float_of_str config n s) w)) <= call_cost n.
Proof.
  destruct n; cbn [AgentGraph.node_fn llm_cost call_cost].
  - (* input_validation *) cbn. lia.
  - (* query_analysis *)
    unfold AgentNodes.query_analysis_node, llm_invoke.
    rewrite run_try_except, run_bind, run_call.
    destruct (answer W _ (LLMInvoke _) w) as [[content | e] w1]; cbn [fst snd];
      [ | cbn; lia ].
    rewrite run_bind.
    destruct (parse_analysis_cases float_of_str content) as [(i & x & ->) | (e & ->)];
      cbn; lia.
  - (* router *)
    destruct (router_appends_selection s) as (s1 & -> & _). cbn. lia.
  - (* rag *)
    unfold AgentNodes.rag_node, AgentTools.rag_tool, ChromaManager.similarity_search_with_score.
    rewrite run_bind, run_try_except, run_bind, run_try_except, run_bind, run_call.
    destruct (answer W _ (VectorSearch _ _ _) w) as [[results | e] w1]; cbn; lia.
  - (* llm *)
    destruct (answer W _ (LLMInvoke (AgentTools.llm_tool_prompt (query s))) w)
      as [[text | e] w1] eqn:E.
    + rewrite (llm_node_answered W s w w1 text E). cbn. lia.
    + rewrite (llm_node_failed W s w w1 e E). cbn. lia.
  - (* search *)
    unfold AgentNodes.search_node, AgentTools.search_tool, SerperClient.search_with_metadata.
    rewrite run_bind, run_try_except, run_bind, run_try_except, run_bind, run_call.
    destruct (answer W _ (SerperResults _) w) as [[organic | e] w1];
      cbn [fst snd run any_exception app]; [ | cbn; lia ].
    cbn [AgentTools.search_success].
    destruct (map _ (firstn 5 _)) as [ | h hits]; [ cbn; lia | ].
    cbn [List.length Nat.ltb Nat.leb]. unfold llm_invoke.
    rewrite run_try_except, run_bind, run_call.
    destruct (answer W _ (LLMInvoke _) w1) as [[text | e] w2]; cbn; lia.
  - (* relevance_check *)
    unfold AgentNodes.relevance_check_node.
    destruct (retrieved_documents s) as [ | d ds] eqn:Ed; [ cbn; lia | ].
    rewrite run_bind, (score_relevance_run float_of_str config W) by discriminate.
    destruct (gate_reading float_of_str _ _) as [[x b] | e]; cbn; lia.
  - (* response_synthesis *)
    unfold AgentNodes.response_synthesis_node.
    destruct (retrieved_documents s) as [ | d ds]; [ cbn; lia | ].
    unfold llm_invoke. rewrite run_try_except, run_bind, run_call.
    destruct (answer W _ (LLMInvoke _) w) as [[text | e] w1]; cbn; lia.
  - (* hallucination_check *)
    unfold AgentNodes.hallucination_check_node. rewrite run_bind.
    destruct (HallucinationDetector.skips_check (source_type s)) eqn:Hs.
    { unfold HallucinationDetector.check_grounding. rewrite Hs. cbn. lia. }
    destruct (String.eqb (source_type s) "rag").
    + fold (evidence_text s). destruct (evidence_text s) as [ | c0 txt].
      * unfold HallucinationDetector.check_grounding. rewrite Hs. cbn. lia.
      * rewrite (check_grounding_run float_of_str config W) by (assumption || discriminate).
        destruct (gate_reading float_of_str _ _) as [[x b] | e]; cbn; lia.
    + unfold HallucinationDetector.check_grounding. rewrite Hs. cbn. lia.
Qed.

(** A count that adds up over the calls, bounded per node, stays within
    the budget of the node a run starts from. *)
Lemma run_from_budget (count : list made -> nat) (cost budget : AgentGraph.node -> nat) :
  count [] = 0 ->
  (forall a b, count (a ++ b)%list = count a + count b) ->
  (forall n s w,
      count (snd (run W (AgentGraph.node_fn float_of_str config n s) w)) <= cost n) ->
  (forall n s n', AgentGraph.edge n s = Returned (Some n') -> cost n + budget n' <= budget n) ->
  (forall n, cost n <= budget n) ->
  forall k n s w,
    count (snd (run W (AgentGraph.run_from float_of_str config k n s) w)) <= budget n.
Proof.
  intros Hnil Happ Hcost Hedge Hle.
  induction k as [ | k IH]; intros n s w.
  - cbn. rewrite Hnil. lia.
  - rewrite (run_from_step float_of_str config), run_bind.
    pose proof (Hcost n s w) as Hn.
    destruct (run W (AgentGraph.node_fn float_of_str config n s) w) as [[[s1 | e] w1] c1];
      cbn [snd] in *; [ | pose proof (Hle n); lia ].
    destruct (AgentGraph.edge n s1) as [[n' | ] | e] eqn:Ee.
    + pose proof (IH n' s1 w1) as Hrest. pose proof (Hedge n s1 n' Ee).
      destruct (run W (AgentGraph.run_from float_of_str config k n' s1) w1) as [[r w2] c2].
      cbn [snd] in *. rewrite Happ. lia.
    + cbn [run snd]. rewrite Happ, Hnil. pose proof (Hle n). lia.
    + cbn [run snd]. rewrite Happ, Hnil. pose proof (Hle n). lia.
Qed.

Lemma budget_edges (n n' : AgentGraph.node) (s : AgentState) :
  AgentGraph.edge n s = Returned (Some n') ->
  llm_cost n + llm_budget n' <= llm_budget n /\
  call_cost n + call_budget n' <= call_budget n.
Proof.
  destruct n.
  - cbn [AgentGraph.edge]. destruct (negb (is_valid s)); intros H; inversion H. cbn. lia.
  - cbn [AgentGraph.edge]. intros H; inversion H. cbn. lia.
  - destruct (router_edge s) as [[_ ->] | [[_ ->] | [[_ ->] | [e ->]]]];
      intros H; inversion H; cbn; lia.
  - cbn [AgentGraph.edge]. intros H; inversion H. cbn. lia.
  - cbn [AgentGraph.edge]. intros H; inversion H. cbn. lia.
  - cbn [AgentGraph.edge]. intros H; inversion H. cbn. lia.
  - cbn [AgentGraph.edge]. destruct (is_relevant s); intros H; inversion H; cbn; lia.
  - cbn [AgentGraph.edge]. intros H; inversion H. cbn. lia.
  - cbn [AgentGraph.edge]. intros H; inversion H.
Qed.

(** X21: whatever the world and the state it starts from, and whether it
    returns or raises, a run of the graph makes at most four calls to the
    chat model and at most five calls in all (the index search or the web
    search included). *)
Theorem run_makes_at_most_four_model_calls (s : AgentState) (w : world_state W) :
  llm_count (snd (run W (AgentGraph.graph_invoke float_of_str config s) w)) <= 4 /\
  List.length (snd (run W (AgentGraph.graph_invoke float_of_str config s) w)) <= 5.
Proof.
  unfold AgentGraph.graph_invoke. split.
  - apply (run_from_budget llm_count llm_cost llm_budget).
    + reflexivity.
    + exact llm_count_app.
    + intros n s0 w0. exact (proj1 (node_calls n s0 w0)).
    + intros n s0 n' H. exact (proj1 (budget_edges n n' s0 H)).
    + intros n. destruct n; cbn; lia.
  - apply (run_from_budget (@List.length made) call_cost call_budget).
    + reflexivity.
    + intros a b. apply length_app.
    + intros n s0 w0. exact (proj2 (node_calls n s0 w0)).
    + intros n s0 n' H. exact (proj2 (budget_edges n n' s0 H)).
    + intros n. destruct n; cbn; lia.
Qed.

End CallBudget.

Lemma node_writes_only_its_keys_witness :
  exists s',
    Props.node_effect AgentGraph.n_rag Examples.start s' /\
    State.needs_fallback s' = false.
Proof.
  pose (r := Effects.run Examples.world
               (AgentGraph.node_fn Worlds.float_literals Config.default
                  AgentGraph.n_rag Examples.start) Examples.script).
  exists (match fst (fst r) with Effects.Returned s => s | Effects.Raised _ => Examples.start end).
  split; [ | vm_compute; reflexivity ].
  apply (node_writes_only_its_keys Worlds.float_literals Config.default Examples.world
           AgentGraph.n_rag Examples.start _ Examples.script (snd (fst r)) (snd r)).
  vm_compute. reflexivity.
Defined.

(* ================================================================== *)
(** * Reading the model's analysis *)

Section AnalysisReading.
Import PyStr Effects State Spec Props.
Variable float_of_str : string -> option float.
Variable W : World.

Lemma split_plain (sep : ascii) (a : string) :
  all_chars (fun c => negb (Ascii.eqb c sep)) a = true -> split sep a = [a].
Proof.
  induction a as [ | c a IH]; cbn; [ reflexivity | ].
  intros H. apply andb_true_iff in H as [Hc Ha].
  apply negb_true_iff in Hc. rewrite Hc, (IH Ha). reflexivity.
Qed.

Lemma split_at (sep : ascii) (a b : string) :
  all_chars (fun c => negb (Ascii.eqb c sep)) a = true ->
  split sep (a ++ String sep b) = a :: split sep b.
Proof.
  induction a as [ | c a IH]; cbn [all_chars append split].
  - intros _. rewrite Ascii.eqb_refl. reflexivity.
  - intros H. apply andb_true_iff in H as [Hc Ha].
    apply negb_true_iff in Hc. rewrite Hc, (IH Ha). reflexivity.
Qed.

Lemma prefix_app (t r : string) : prefix t (t ++ r) = true.
Proof.
  induction t as [ | c t IH]; cbn; [ destruct r; reflexivity | ].
  destruct (ascii_dec c c) as [_ | Hc]; [ exact IH | congruence ].
Qed.

Lemma contains_prefix (t r : string) : contains t (t ++ r) = true.
Proof.
  pose proof (prefix_app t r) as H.
  destruct (t ++ r); cbn [contains]; rewrite H; reflexivity.
Qed.

Lemma prefix_inv (t s : string) : prefix t s = true -> exists r, s = t ++ r.
Proof.
  revert s. induction t as [ | c t IH]; intros s.
  - intros _. exists s. reflexivity.
  - destruct s as [ | x s]; cbn; [ discriminate | ].
    destruct (ascii_dec c x) as [<- | _]; [ | discriminate ].
    intros H. destruct (IH s H) as (r & ->). exists r. reflexivity.
Qed.

Lemma contains_inv (t s : string) :
  contains t s = true -> exists a b, s = a ++ t ++ b.
Proof.
  induction s as [ | x s IH]; cbn [contains]; intros H;
    apply orb_true_iff in H as [H | H].
  - destruct (prefix_inv _ _ H) as (r & E). exists "", r. exact E.
  - discriminate.
  - destruct (prefix_inv _ _ H) as (r & E). exists "", r. exact E.
  - destruct (IH H) as (a & b & ->). exists (String x a), b. reflexivity.
Qed.

(** A string does not hold a substring with a character it lacks. *)
Lemma contains_needs_char (p : ascii -> bool) (t s : string) :
  all_chars p s = true -> all_chars p t = false -> contains t s = false.
Proof.
  intros Hs Ht. destruct (contains t s) eqn:E; [ | reflexivity ].
  destruct (contains_inv _ _ E) as (a & b & ->).
  rewrite !all_chars_app in Hs.
  apply andb_true_iff in Hs as [_ Hs]. apply andb_true_iff in Hs as [Hs _].
  congruence.
Qed.

Lemma plain_no_colon (s : string) :
  all_chars plain_char s = true ->
  all_chars (fun c => negb (Ascii.eqb c ":")) s = true.
Proof.
  apply all_chars_impl. intros c H. apply andb_true_iff in H as [_ H]. exact H.
Qed.

Lemma plain_no_line_feed (s : string) :
  all_chars plain_char s = true ->
  all_chars (fun c => negb (Ascii.eqb c LF)) s = true.
Proof.
  apply all_chars_impl. intros c H. apply andb_true_iff in H as [H _]. exact H.
Qed.

Lemma formatted_analysis_lines (label ctext : string) :
  all_chars plain_char label = true ->
  all_chars plain_char ctext = true ->
  split LF (formatted_analysis label ctext)
  = ["Category: " ++ label; "Confidence: " ++ ctext].
Proof.
  intros Hl Hc. unfold formatted_analysis, nl.
  change ("Category: " ++ label ++ String LF "" ++ "Confidence: " ++ ctext)
    with ("Category: " ++ label ++ String LF ("Confidence: " ++ ctext)).
  rewrite <- (str_app_assoc "Category: " label), split_at, split_plain; [ reflexivity | | ].
  - rewrite all_chars_app, (plain_no_line_feed _ Hc). reflexivity.
  - rewrite all_chars_app, (plain_no_line_feed _ Hl). reflexivity.
Qed.

Lemma formatted_analysis_parsed (label ctext : string) (c : float) :
  all_chars plain_char label = true ->
  all_chars plain_char ctext = true ->
  float_of_str (strip ctext) = Some c ->
  AgentNodes.parse_analysis float_of_str (formatted_analysis label ctext)
  = Ret (lower (strip label), c).
Proof.
  intros Hl Hc Hf.
  assert (E1 : contains "Confidence:" ("Category: " ++ label) = false).
  { cbn. apply (contains_needs_char _ _ _ (plain_no_colon _ Hl)). reflexivity. }
  assert (F1 : AgentNodes.first_line_with "Category:" (formatted_analysis label ctext)
               = Ret ("Category: " ++ label)).
  { unfold AgentNodes.first_line_with. rewrite formatted_analysis_lines by assumption.
    cbn [List.filter].
    change ("Category: " ++ label) with ("Category:" ++ (" " ++ label)).
    rewrite contains_prefix. reflexivity. }
  assert (F2 : AgentNodes.first_line_with "Confidence:" (formatted_analysis label ctext)
               = Ret ("Confidence: " ++ ctext)).
  { unfold AgentNodes.first_line_with. rewrite formatted_analysis_lines by assumption.
    cbn [List.filter]. rewrite E1.
    change ("Confidence: " ++ ctext) with ("Confidence:" ++ (" " ++ ctext)).
    rewrite contains_prefix. reflexivity. }
  assert (G : forall head rest,
             all_chars (fun c => negb (Ascii.eqb c ":")) head = true ->
             all_chars plain_char rest = true ->
             AgentNodes.second_field (head ++ String ":" (String " " rest))
             = Ret (String " " rest)).
  { intros head rest Hh Hr. unfold AgentNodes.second_field.
    rewrite split_at by exact Hh.
    rewrite (split_plain ":" (String " " rest)); [ reflexivity | ].
    cbn [all_chars]. rewrite (plain_no_colon _ Hr). reflexivity. }
  unfold AgentNodes.parse_analysis. rewrite F1, F2. cbn [bind].
  change ("Category: " ++ label) with ("Category" ++ String ":" (String " " label)).
  change ("Confidence: " ++ ctext) with ("Confidence" ++ String ":" (String " " ctext)).
  rewrite !G by (assumption || reflexivity). cbn [bind].
  change (strip (String " " label)) with (strip label).
  change (strip (String " " ctext)) with (strip ctext).
  unfold PyFloat.to_float. rewrite Hf. reflexivity.
Qed.

(** X22: when the model answers the analysis prompt in the format asked
    for, a category line and a confidence line whose values hold no colon
    and no line feed and whose confidence reads as a number, the analysis
    node stores the category stripped and in lower case as the intent,
    whatever word it is, and the number as the confidence, unclamped; every
    other key is left as it was. *)
Theorem formatted_analysis_is_stored
    (s : AgentState) (w : world_state W) (label ctext : string) (c : float) :
  all_chars plain_char label = true ->
  all_chars plain_char ctext = true ->
  float_of_str (strip ctext) = Some c ->
  fst (answer W _ (LLMInvoke (AgentNodes.analysis_prompt (query s))) w)
  = Returned (formatted_analysis label ctext) ->
  outcome (run W (AgentNodes.query_analysis_node float_of_str s) w)
  = Returned (set_confidence c (set_query_intent (Some (lower (strip label))) s)).
Proof.
  intros Hl Hc Hf Ha.
  unfold outcome, AgentNodes.query_analysis_node, llm_invoke.
  rewrite run_try_except, run_bind, run_call, Ha.
  rewrite (formatted_analysis_parsed label ctext c Hl Hc Hf).
  reflexivity.
Qed.

End AnalysisReading.

Lemma formatted_analysis_is_stored_witness :
  Effects.outcome
    (Effects.run Examples.world
       (AgentNodes.query_analysis_node Worlds.float_literals Examples.start)
       (Worlds.mkScript
          [Effects.Returned (Props.formatted_analysis " Weather " "0.9")] 100%float))
  = Effects.Returned
      (State.set_confidence 0.9%float
         (State.set_query_intent (Some "weather") Examples.start)).
Proof.
  exact (formatted_analysis_is_stored Worlds.float_literals Examples.world
           Examples.start
           (Worlds.mkScript
              [Effects.Returned (Props.formatted_analysis " Weather " "0.9")] 100%float)
           " Weather " "0.9" 0.9%float eq_refl eq_refl eq_refl eq_refl).
Defined.
